(** * NetworkAnalyzer: extractors and health assessment

    A shallow embedding of the text extractors under
    [network_analyzer/parsers], of the two listings of
    [network_analyzer/collectors/offline.py] and of
    [assess_network_health] from [network_analyzer/utils.py], with the
    properties the design document states about them.

    Conventions.
    - A Python [str] is a [string]; a character is a code point below 256.
    - Python [int] is [Z]; a finite Python [float] is the rational [Q] it
      denotes (comparisons are exact; IEEE rounding of [/] and [*] is not
      modelled).
    - Reading a numeral ([Py.int]) and printing one ([Py.str_int]) follow
      the interpreter's default limit of 4300 digits. [Py.str] is the
      numeral itself; the messages of the assessment use it, and are those
      of numbers that print ([wifi_prints]).
    - An integer converts to a float below [float_limit]; the metrics check
      of the assessment is that of counters in this range
      ([counters_convert]).
    - A function that may raise returns a [result]. *)

From Stdlib Require Import ZArith QArith Lia Bool.
From Stdlib Require Import Ascii String.
From stdpp Require Import base list gmap strings.

Local Open Scope string_scope.
Local Open Scope Z_scope.

(** ** Exceptions *)

Inductive exn : Set := ValueError | TypeError | IndexError.

Inductive result (A : Type) : Type :=
| Ok (a : A)
| Raise (e : exn).
Arguments Ok {A} a.
Arguments Raise {A} e.

Definition rbind {A B} (m : result A) (f : A -> result B) : result B :=
  match m with
  | Ok a => f a
  | Raise e => Raise e
  end.

Notation "'try!' x ':=' m 'in' k" := (rbind m (fun x => k))
  (at level 10, x name, m at level 100, k at level 200, only parsing).

Definition returns {A} (m : result A) : Prop :=
  match m with Ok _ => True | Raise _ => False end.

(** ** Python string primitives *)

Module Py.

Definition code (c : ascii) : N := N_of_ascii c.

Definition in_range (lo hi : N) (c : ascii) : bool :=
  ((lo <=? code c) && (code c <=? hi))%N.

(** [str.isspace] on one character, which is also what [\s] matches. *)
Definition is_space (c : ascii) : bool :=
  in_range 9 13 c || in_range 28 32 c || (code c =? 133)%N || (code c =? 160)%N.

(** [\d] *)
Definition is_digit (c : ascii) : bool := in_range 48 57 c.

Definition is_upper_ascii (c : ascii) : bool := in_range 65 90 c.
Definition is_lower_ascii (c : ascii) : bool := in_range 97 122 c.

(** [\w]: alphanumeric in the Unicode sense, or the underscore. *)
Definition is_word (c : ascii) : bool :=
  is_digit c || is_upper_ascii c || is_lower_ascii c || (code c =? 95)%N
  || (code c =? 170)%N || (code c =? 178)%N || (code c =? 179)%N
  || (code c =? 181)%N || (code c =? 185)%N || (code c =? 186)%N
  || in_range 188 190 c || in_range 192 214 c || in_range 216 246 c
  || in_range 248 255 c.

Definition chr_eqb (a b : ascii) : bool := Ascii.eqb a b.

Definition to_lower (c : ascii) : ascii :=
  if is_upper_ascii c then ascii_of_N (code c + 32) else c.

Fixpoint len (s : string) : nat :=
  match s with
  | EmptyString => O
  | String _ s' => S (len s')
  end.

Fixpoint take (n : nat) (s : string) : string :=
  match n, s with
  | S n', String c s' => String c (take n' s')
  | _, _ => EmptyString
  end.

Fixpoint drop (n : nat) (s : string) : string :=
  match n, s with
  | S n', String _ s' => drop n' s'
  | _, _ => s
  end.

(** [s[i:j]] for non-negative [i <= j]. *)
Definition slice (i j : nat) (s : string) : string := take (j - i) (drop i s).

Fixpoint startswith (p s : string) : bool :=
  match p, s with
  | EmptyString, _ => true
  | String a p', String b s' => chr_eqb a b && startswith p' s'
  | String _ _, EmptyString => false
  end.

(** [sub in s] *)
Fixpoint contains (sub s : string) : bool :=
  startswith sub s ||
  match s with
  | EmptyString => false
  | String _ s' => contains sub s'
  end.

Fixpoint lstrip (s : string) : string :=
  match s with
  | String c s' => if is_space c then lstrip s' else s
  | EmptyString => EmptyString
  end.

(** Drops the trailing white space; the head of the string is kept. *)
Fixpoint rstrip (s : string) : string :=
  match s with
  | EmptyString => EmptyString
  | String c s' =>
      match rstrip s' with
      | EmptyString => if is_space c then EmptyString else String c EmptyString
      | t => String c t
      end
  end.

(** [s.strip()] *)
Definition strip (s : string) : string := rstrip (lstrip s).

(** The white space that [int()] skips around a numeral: that of
    [str.strip] without the four separators 0x1c to 0x1f. *)
Definition is_space_int (c : ascii) : bool :=
  is_space c && negb (in_range 28 31 c).

Fixpoint lstrip_int (s : string) : string :=
  match s with
  | String c s' => if is_space_int c then lstrip_int s' else s
  | EmptyString => EmptyString
  end.

Fixpoint rstrip_int (s : string) : string :=
  match s with
  | EmptyString => EmptyString
  | String c s' =>
      match rstrip_int s' with
      | EmptyString => if is_space_int c then EmptyString else String c EmptyString
      | t => String c t
      end
  end.

Definition strip_int (s : string) : string := rstrip_int (lstrip_int s).

(** [s.split(sep)] for a one-character separator: never empty. *)
Fixpoint split (sep : ascii) (s : string) : list string :=
  match s with
  | EmptyString => [EmptyString]
  | String c s' =>
      if chr_eqb c sep then EmptyString :: split sep s'
      else match split sep s' with
           | w :: ws => String c w :: ws
           | [] => [String c EmptyString]
           end
  end.

(** [s.split(sep, 1)]: one element when [sep] does not occur, else two. *)
Fixpoint split1 (sep : ascii) (s : string) : list string :=
  match s with
  | EmptyString => [EmptyString]
  | String c s' =>
      if chr_eqb c sep then [EmptyString; s']
      else match split1 sep s' with
           | w :: ws => String c w :: ws
           | [] => [String c EmptyString]
           end
  end.

(** [s.split()]: the maximal runs of characters that are not white space. *)
Fixpoint split_ws_aux (cur : option string) (s : string) : list string :=
  match s with
  | EmptyString => match cur with Some w => [w] | None => [] end
  | String c s' =>
      if is_space c then
        match cur with
        | Some w => w :: split_ws_aux None s'
        | None => split_ws_aux None s'
        end
      else
        split_ws_aux (Some (match cur with
                            | Some w => w ++ String c EmptyString
                            | None => String c EmptyString
                            end)) s'
  end.

Definition split_ws (s : string) : list string := split_ws_aux None s.

(** [sep.join(l)] *)
Fixpoint join (sep : string) (l : list string) : string :=
  match l with
  | [] => EmptyString
  | [w] => w
  | w :: ws => w ++ sep ++ join sep ws
  end.

(** [l[i]] *)
Definition index {A} (l : list A) (i : nat) : result A :=
  match l !! i with
  | Some x => Ok x
  | None => Raise IndexError
  end.

(** *** [int(s)] and [int(s, 16)] *)

Definition digit_val (base : Z) (c : ascii) : option Z :=
  let v :=
    if is_digit c then Some (Z.of_N (code c) - 48)
    else if in_range 97 122 c then Some (Z.of_N (code c) - 87)
    else if in_range 65 90 c then Some (Z.of_N (code c) - 55)
    else None in
  match v with
  | Some d => if d <? base then Some d else None
  | None => None
  end.

(** Digits with single underscores between them; [prev] tells whether the
    previous character was a digit, [acc] is the value read so far. *)
Fixpoint digits (base : Z) (prev : bool) (acc : Z) (s : string) : option Z :=
  match s with
  | EmptyString => if prev then Some acc else None
  | String c s' =>
      if chr_eqb c "_" then
        if prev then digits base false acc s' else None
      else
        match digit_val base c with
        | Some d => digits base true (acc * base + d) s'
        | None => None
        end
  end.

(** The interpreter's default limit on the digits of a numeral that is read
    or printed in a base that is not a power of two. *)
Definition max_str_digits : Z := 4300.

(** The digits of a numeral: its characters other than the underscores. *)
Fixpoint digit_count (s : string) : Z :=
  match s with
  | EmptyString => 0
  | String c s' => if chr_eqb c "_" then digit_count s' else 1 + digit_count s'
  end.

Definition within_limit (base : Z) (s : string) : bool :=
  (base =? 2) || (base =? 4) || (base =? 8) || (base =? 16) || (base =? 32)
  || (digit_count s <=? max_str_digits).

Definition unsigned (base : Z) (s : string) : option Z :=
  if (base =? 16) && (startswith "0x" s || startswith "0X" s) then
    match drop 2 s with
    | String "_" t => digits base false 0 t
    | t => digits base false 0 t
    end
  else if within_limit base s then digits base false 0 s
  else None.

(** [int(s, base)]: white space around, a sign, then the digits; a
    [ValueError] for anything else, and for a numeral beyond the limit. *)
Definition int_base (base : Z) (s : string) : result Z :=
  let body :=
    match strip_int s with
    | String "-" t => option_map Z.opp (unsigned base t)
    | String "+" t => unsigned base t
    | t => unsigned base t
    end in
  match body with
  | Some z => Ok z
  | None => Raise ValueError
  end.

Definition int (s : string) : result Z := int_base 10 s.

(** [str(n)] for an integer. *)
Definition digit_chr (d : Z) : ascii := ascii_of_N (Z.to_N (d + 48)).

Fixpoint str_pos (fuel : nat) (n : Z) (acc : string) : string :=
  match fuel with
  | O => acc
  | S f =>
      let acc' := String (digit_chr (n mod 10)) acc in
      if n <? 10 then acc' else str_pos f (n / 10) acc'
  end.

Definition str (n : Z) : string :=
  if n <? 0 then String "-" (str_pos (Z.to_nat (Z.log2 (- n)) + 1) (- n) EmptyString)
  else str_pos (Z.to_nat (Z.log2 n) + 1) n EmptyString.

(** The least positive integer with more digits than the limit allows. *)
Definition max_str : Z := 10 ^ max_str_digits.

(** Whether [str(n)], or [n] in an f-string, returns: beyond the limit
    the interpreter raises [ValueError]. *)
Definition prints (n : Z) : bool := Z.abs n <? max_str.

Definition str_int (n : Z) : result string :=
  if prints n then Ok (str n) else Raise ValueError.

End Py.

(** ** The fragment of Python's [re] the extractors use

    Every repetition in the patterns of this repository is a greedy [+] or
    [*] over a single character class, and no group is nested, so a pattern
    is a sequence of literals, classes, repetitions and capturing groups.
    Matching backtracks the way [re] does: a repetition first takes as many
    characters as it can and gives them back one at a time. *)

Module Re.

Inductive regex : Type :=
| Lit (s : string)               (* literal text *)
| LitI (s : string)              (* literal text under re.IGNORECASE *)
| Plus (cls : ascii -> bool)     (* [cls+] *)
| Star (cls : ascii -> bool)     (* [cls*] *)
| Seq (r1 r2 : regex)
| Group (r : regex).             (* [( ... )] *)

Infix ">>" := Seq (at level 60, right associativity).

(** The classes of the patterns. *)
Definition ws : ascii -> bool := Py.is_space.
Definition non_ws (c : ascii) : bool := negb (Py.is_space c).
Definition digit : ascii -> bool := Py.is_digit.
Definition word : ascii -> bool := Py.is_word.
(** [.] is anything but a line feed. *)
Definition dot (c : ascii) : bool := negb (Py.chr_eqb c "010").
Definition not_chr (x : ascii) (c : ascii) : bool := negb (Py.chr_eqb c x).
(** [[0-9a-f:]] *)
Definition hex_colon (c : ascii) : bool :=
  Py.is_digit c || Py.in_range 97 102 c || Py.chr_eqb c ":".
(** [[0-9a-f:]] under re.IGNORECASE *)
Definition hex_colon_i (c : ascii) : bool := hex_colon (Py.to_lower c).
(** [[0-9a-f]] *)
Definition hex_lower (c : ascii) : bool :=
  Py.is_digit c || Py.in_range 97 102 c.
(** [[0-9a-fA-F]] *)
Definition hex_any (c : ascii) : bool :=
  hex_lower c || Py.in_range 65 70 c.

(** [\d+\.\d+\.\d+\.\d+] *)
Definition dotted_quad : regex :=
  Plus digit >> Lit "." >> Plus digit >> Lit "." >> Plus digit >> Lit "." >> Plus digit.

Section Matcher.
Context {A : Type}.

Fixpoint lit (fold : bool) (p s : string) (k : string -> option A) : option A :=
  match p with
  | EmptyString => k s
  | String a p' =>
      match s with
      | String b s' =>
          if (if fold then Py.chr_eqb (Py.to_lower a) (Py.to_lower b)
              else Py.chr_eqb a b)
          then lit fold p' s' k else None
      | EmptyString => None
      end
  end.

(** Greedy repetition: the longest run first, then shorter ones. *)
Fixpoint star (cls : ascii -> bool) (s : string) (k : string -> option A) : option A :=
  match s with
  | String c s' =>
      if cls c then
        match star cls s' k with
        | Some x => Some x
        | None => k s
        end
      else k s
  | EmptyString => k s
  end.

Definition plus (cls : ascii -> bool) (s : string) (k : string -> option A) : option A :=
  match s with
  | String c s' => if cls c then star cls s' k else None
  | EmptyString => None
  end.

(** [go r s caps k]: match [r] at the head of [s], then continue with [k]
    on what is left and the groups captured so far. *)
Fixpoint go (r : regex) (s : string) (caps : list string)
    (k : string -> list string -> option A) : option A :=
  match r with
  | Lit p => lit false p s (fun rest => k rest caps)
  | LitI p => lit true p s (fun rest => k rest caps)
  | Plus cls => plus cls s (fun rest => k rest caps)
  | Star cls => star cls s (fun rest => k rest caps)
  | Seq r1 r2 => go r1 s caps (fun rest caps' => go r2 rest caps' k)
  | Group r1 =>
      go r1 s caps (fun rest caps' =>
        k rest (caps' ++ [Py.take (Py.len s - Py.len rest) s])%list)
  end.
End Matcher.

(** [re.match]: the groups and the text after the match. *)
Definition match_here (r : regex) (s : string) : option (list string * string) :=
  go r s [] (fun rest caps => Some (caps, rest)).

(** [re.search]: the leftmost match. *)
Fixpoint search (r : regex) (s : string) : option (list string * string) :=
  match match_here r s with
  | Some m => Some m
  | None =>
      match s with
      | String _ s' => search r s'
      | EmptyString => None
      end
  end.

(** [re.finditer]: the matches from left to right, without overlap.
    [skip] counts the characters of the last match still to be passed. *)
Fixpoint finditer_from (r : regex) (skip : nat) (s : string) : list (list string) :=
  match skip with
  | S n =>
      match s with
      | String _ s' => finditer_from r n s'
      | EmptyString => []
      end
  | O =>
      match match_here r s with
      | Some (caps, rest) =>
          caps ::
          match s with
          | String _ s' => finditer_from r (Py.len s - Py.len rest - 1) s'
          | EmptyString => []
          end
      | None =>
          match s with
          | String _ s' => finditer_from r O s'
          | EmptyString => []
          end
      end
  end.

Definition finditer (r : regex) (s : string) : list (list string) :=
  finditer_from r O s.

(** [re.findall] for a pattern with exactly one group. *)
Definition findall1 (r : regex) (s : string) : list string :=
  omap (fun caps => caps !! 0%nat) (finditer r s).

(** [m.group(i)], [i >= 1], of a successful match. *)
Definition group (m : list string * string) (i : nat) : string :=
  default EmptyString (fst m !! (i - 1)%nat).

(** [re.sub(r'[^\d-]', '', s)] *)
Fixpoint keep_digits_minus (s : string) : string :=
  match s with
  | EmptyString => EmptyString
  | String c s' =>
      if Py.is_digit c || Py.chr_eqb c "-" then String c (keep_digits_minus s')
      else keep_digits_minus s'
  end.

End Re.

Import Re.

Definition LF : ascii := "010"%char.
Definition TAB : ascii := "009"%char.
Definition nl : string := String LF EmptyString.

(** Python truth value of a [str]. *)
Definition nonempty (s : string) : bool :=
  match s with EmptyString => false | String _ _ => true end.

(** ** parsers/ifconfig.py *)

Record InterfaceInfo : Type := {
  name : string;
  hardware_port : string;
  mac_address : string;
  ipv4_address : option string;
  ipv6_addresses : list string;
  netmask : option string;
  status : string;
  media_type : string;
  mtu : Z
}.

(** The loop that collects the lines of the requested interface: from its
    header line to the next line that is not empty and not indented. *)
Fixpoint block_lines (interface_name : string) (in_block : bool)
    (lines : list string) : list string :=
  match lines with
  | [] => []
  | line :: rest =>
      if Py.startswith (interface_name ++ ":") line then
        line :: block_lines interface_name true rest
      else if in_block && nonempty line
              && negb (Py.startswith (String TAB EmptyString) line
                       || Py.startswith " " line) then
        []
      else if in_block then line :: block_lines interface_name true rest
      else block_lines interface_name false rest
  end.

(** ['.'.join(str(int(hex_mask[i:i+2], 16)) for i in range(0, 8, 2))] *)
Fixpoint mask_bytes (hex_mask : string) (starts : list nat) : result (list string) :=
  match starts with
  | [] => Ok []
  | i :: rest =>
      try! b := Py.int_base 16 (Py.slice i (i + 2) hex_mask) in
      try! bs := mask_bytes hex_mask rest in
      Ok (Py.str b :: bs)
  end.

Definition hex_to_dotted (hex_mask : string) : result string :=
  try! bs := mask_bytes hex_mask [0; 2; 4; 6]%nat in
  Ok (Py.join "." bs).

Definition re_ether : regex := LitI "ether" >> Plus ws >> Group (Plus hex_colon_i).
Definition re_inet : regex :=
  Lit "inet" >> Plus ws >> Group dotted_quad >> Plus ws >> Lit "netmask"
  >> Plus ws >> Lit "0x" >> Group (Plus hex_lower).
Definition re_inet6 : regex := LitI "inet6" >> Plus ws >> Group (Plus hex_colon_i).
Definition re_status : regex := Lit "status:" >> Plus ws >> Group (Plus word).
Definition re_media : regex := Lit "media:" >> Plus ws >> Group (Plus (not_chr LF)).
Definition re_mtu : regex := Lit "mtu" >> Plus ws >> Group (Plus digit).

Definition parse_ifconfig (output interface_name : string)
    : result (option InterfaceInfo) :=
  let lines := Py.split LF output in
  match block_lines interface_name false lines with
  | [] => Ok None
  | bl =>
      let block := Py.join nl bl in
      let mac_address :=
        match search re_ether block with
        | Some m => group m 1
        | None => ""
        end in
      try! v4 :=
        match search re_inet block with
        | Some m =>
            try! mask := hex_to_dotted (group m 2) in
            Ok (Some (group m 1), Some mask)
        | None => Ok (None, None)
        end in
      let ipv6_addresses := findall1 re_inet6 block in
      let status :=
        match search re_status block with
        | Some m => group m 1
        | None => "unknown"
        end in
      let media_type :=
        match search re_media block with
        | Some m => Py.strip (group m 1)
        | None => ""
        end in
      try! mtu :=
        match search re_mtu block with
        | Some m => Py.int (group m 1)
        | None => Ok 0
        end in
      Ok (Some {| name := interface_name;
                  hardware_port := "";
                  mac_address := mac_address;
                  ipv4_address := fst v4;
                  ipv6_addresses := ipv6_addresses;
                  netmask := snd v4;
                  status := status;
                  media_type := media_type;
                  mtu := mtu |})
  end.

(** ** parsers/system_profiler.py *)

(** [line.split(':', 1)[1].strip()] *)
Definition after_colon (line : string) : result string :=
  try! v := Py.index (Py.split1 ":" line) 1 in
  Ok (Py.strip v).

(** The loop of [parse_hardware_port_mapping]; [current_port] is [None] or
    the label of the last [Hardware Port:] line. *)
Fixpoint port_loop (lines : list string) (current_port : option string)
    (mapping : gmap string string) : result (gmap string string) :=
  match lines with
  | [] => Ok mapping
  | line0 :: rest =>
      let line := Py.strip line0 in
      if Py.startswith "Hardware Port:" line then
        try! p := after_colon line in
        port_loop rest (Some p) mapping
      else
        match current_port with
        | Some p =>
            if Py.startswith "Device:" line && nonempty p then
              try! device := after_colon line in
              port_loop rest None (<[device := p]> mapping)
            else port_loop rest current_port mapping
        | None => port_loop rest current_port mapping
        end
  end.

Definition parse_hardware_port_mapping (output : string)
    : result (gmap string string) :=
  port_loop (Py.split LF (Py.strip output)) None ∅.

(** [list(dict.fromkeys(matches))]: a dict keeps its keys in the order of
    their first insertion. *)
Definition dict_fromkeys (keys : list string) : list string :=
  fold_left (fun d k => if bool_decide (k ∈ d) then d else (d ++ [k])%list) keys [].

Definition re_nameserver : regex :=
  Lit "nameserver[" >> Plus digit >> Lit "]" >> Star ws >> Lit ":" >> Star ws
  >> Group dotted_quad.

Definition parse_dns_servers (output : string) : list string :=
  dict_fromkeys (findall1 re_nameserver output).

(** ** parsers/dhcp.py *)

(** The dict [info] of [parse_dhcp_info], one field for each key. *)
Record DHCPInfo : Type := {
  is_dhcp : bool;
  server : option string;
  router : option string;
  dns_servers : list string;
  domain_name : option string;
  lease_time : option Z;
  subnet_mask : option string
}.

Definition re_server : regex :=
  Lit "server_identifier (ip):" >> Star ws >> Group dotted_quad.
Definition re_router : regex :=
  Lit "router (ip_mult):" >> Star ws >> Lit "{" >> Group (Plus (not_chr "}")) >> Lit "}".
Definition re_dns : regex :=
  Lit "domain_name_server (ip_mult):" >> Star ws >> Lit "{"
  >> Group (Plus (not_chr "}")) >> Lit "}".
Definition re_domain : regex :=
  Lit "domain_name (string):" >> Star ws >> Group (Plus dot).
Definition re_mask : regex :=
  Lit "subnet_mask (ip):" >> Star ws >> Group dotted_quad.
Definition re_lease : regex :=
  Lit "lease_time (uint32):" >> Star ws >> Lit "0x" >> Group (Plus hex_any).

Definition parse_dhcp_info (output : string) : result (option DHCPInfo) :=
  if negb (Py.contains "op = BOOTREPLY" output)
     && negb (Py.contains "op = BOOTREQUEST" output) then Ok None
  else
    let server := option_map (fun m => group m 1) (search re_server output) in
    let router :=
      match search re_router output with
      | Some m =>
          match Py.split "," (group m 1) with
          | r :: _ => Some (Py.strip r)
          | [] => None
          end
      | None => None
      end in
    let dns_servers :=
      match search re_dns output with
      | Some m => map Py.strip (Py.split "," (group m 1))
      | None => []
      end in
    let domain_name :=
      option_map (fun m => Py.strip (group m 1)) (search re_domain output) in
    let subnet_mask := option_map (fun m => group m 1) (search re_mask output) in
    try! lease_time :=
      match search re_lease output with
      | Some m => try! t := Py.int_base 16 (group m 1) in Ok (Some t)
      | None => Ok None
      end in
    Ok (Some {| is_dhcp := true;
                server := server;
                router := router;
                dns_servers := dns_servers;
                domain_name := domain_name;
                lease_time := lease_time;
                subnet_mask := subnet_mask |}).

(** ** parsers/airport.py *)

Record WiFiInfo : Type := {
  ssid : string;
  bssid : string;
  channel : Z;
  rssi : Z;
  noise : Z;
  snr : Z;
  tx_rate : Z;
  mcs_index : Z;
  phy_mode : string;
  security : string;
  channel_width : Z
}.

(** [extract_value(key)]: the pattern is [key:\s*(.+)]; [None] when it does
    not occur. *)
Definition extract_value (output key : string) : option string :=
  match search (Lit key >> Lit ":" >> Star ws >> Group (Plus dot)) output with
  | Some m => Some (Py.strip (group m 1))
  | None => None
  end.

(** [extract_value(key, '')] *)
Definition extract_str (output key : string) : string :=
  default "" (extract_value output key).

(** [extract_int(key, default)]; a [ValueError] of [int] is swallowed. *)
Definition extract_int (output key : string) (default : Z) : result Z :=
  match extract_value output key with
  | Some value =>
      if nonempty value then
        match Py.int (keep_digits_minus value) with
        | Ok n => Ok n
        | Raise ValueError => Ok default
        | Raise e => Raise e
        end
      else Ok default
  | None => Ok default
  end.

Definition parse_airport_info (output : string) : result (option WiFiInfo) :=
  if negb (nonempty output) || Py.contains "AirPort: Off" output then Ok None
  else
    let ssid := extract_str output "SSID" in
    if negb (nonempty ssid) then Ok None
    else
      try! rssi := extract_int output "agrCtlRSSI" 0 in
      try! noise := extract_int output "agrCtlNoise" 0 in
      let bssid := extract_str output "BSSID" in
      try! channel := extract_int output "channel" 0 in
      try! tx_rate := extract_int output "lastTxRate" 0 in
      try! mcs_index := extract_int output "MCS" (-1) in
      let phy_mode := extract_str output "PHY Mode" in
      let security := extract_str output "link auth" in
      try! channel_width := extract_int output "channelWidth" 0 in
      Ok (Some {| ssid := ssid;
                  bssid := bssid;
                  channel := channel;
                  rssi := rssi;
                  noise := noise;
                  snr := rssi - noise;
                  tx_rate := tx_rate;
                  mcs_index := mcs_index;
                  phy_mode := phy_mode;
                  security := security;
                  channel_width := channel_width |}).

(** ** parsers/netstat.py *)

Record NetworkMetrics : Type := {
  interface : string;
  packets_in : Z;
  errors_in : Z;
  bytes_in : Z;
  packets_out : Z;
  errors_out : Z;
  bytes_out : Z;
  collisions : Z
}.

(** [int(parts[i])] *)
Definition int_at (parts : list string) (i : nat) : result Z :=
  try! p := Py.index parts i in Py.int p.

(** The body of the [try]: the constructor call of one row. *)
Definition metrics_of_row (interface_name : string) (parts : list string)
    : result NetworkMetrics :=
  try! p_in := int_at parts 4 in
  try! e_in := int_at parts 5 in
  try! b_in := int_at parts 6 in
  try! p_out := int_at parts 7 in
  try! e_out := int_at parts 8 in
  try! b_out := int_at parts 9 in
  try! coll := (if (10 <? length parts)%nat then int_at parts 10 else Ok 0) in
  Ok {| interface := interface_name;
        packets_in := p_in;
        errors_in := e_in;
        bytes_in := b_in;
        packets_out := p_out;
        errors_out := e_out;
        bytes_out := b_out;
        collisions := coll |}.

(** The [for] loop: the first row that builds is returned; a row that
    raises [ValueError] or [IndexError] is passed over. *)
Fixpoint netstat_loop (interface_name : string) (lines : list string)
    : result (option NetworkMetrics) :=
  match lines with
  | [] => Ok None
  | line :: rest =>
      if Py.startswith interface_name line then
        let parts := Py.split_ws line in
        if (10 <=? length parts)%nat then
          match metrics_of_row interface_name parts with
          | Ok m => Ok (Some m)
          | Raise ValueError | Raise IndexError => netstat_loop interface_name rest
          | Raise e => Raise e
          end
        else netstat_loop interface_name rest
      else netstat_loop interface_name rest
  end.

Definition parse_netstat_interface (output interface_name : string)
    : result (option NetworkMetrics) :=
  netstat_loop interface_name (Py.split LF (Py.strip output)).

(** ** collectors/offline.py *)

(** What [execute_command] hands back: [(stdout, stderr, returncode)], or
    an exception when the command cannot be run or times out. *)
Definition cmd_result : Type := option (string * string * Z).

(** The dict of one connection; its keys are [command], [pid], [user],
    [protocol] and [state]. *)
Record Connection : Type := {
  conn_command : string;
  conn_pid : string;
  conn_user : string;
  conn_protocol : string;
  conn_state : string
}.

(** One row of the [lsof] listing; [None] when it has fewer than 9 tokens. *)
Definition connection_of_line (line : string) : result (option Connection) :=
  let parts := Py.split_ws line in
  if (9 <=? length parts)%nat then
    try! c := Py.index parts 0 in
    try! p := Py.index parts 1 in
    try! u := Py.index parts 2 in
    try! pr := (if (7 <? length parts)%nat then Py.index parts 7 else Ok "") in
    try! st := (if (9 <? length parts)%nat then Py.index parts 9 else Ok "") in
    Ok (Some {| conn_command := c; conn_pid := p; conn_user := u;
                conn_protocol := pr; conn_state := st |})
  else Ok None.

Fixpoint connections_loop (lines : list string) : result (list Connection) :=
  match lines with
  | [] => Ok []
  | line :: rest =>
      try! c := connection_of_line line in
      try! cs := connections_loop rest in
      Ok (match c with Some x => x :: cs | None => cs end)
  end.

(** [get_active_connections], given the outcome of the [lsof] call. Any
    exception inside the [try] is logged and turned into [[]]. *)
Definition get_active_connections (lsof : cmd_result) : list Connection :=
  match lsof with
  | None => []
  | Some (stdout, _, _) =>
      let lines := Py.split LF (Py.strip stdout) in
      match connections_loop (tail lines) with
      | Ok connections => take 50 connections
      | Raise _ => []
      end
  end.

(** The dict of one neighbour; its keys are [hostname], [ip], [mac] and
    [interface]. *)
Record ArpEntry : Type := {
  arp_hostname : string;
  arp_ip : string;
  arp_mac : string;
  arp_interface : string
}.

Definition re_arp : regex :=
  Group (Plus non_ws) >> Plus ws >> Lit "(" >> Group dotted_quad >> Lit ")"
  >> Plus ws >> Lit "at" >> Plus ws >> Group (Plus hex_colon) >> Plus ws
  >> Lit "on" >> Plus ws >> Group (Plus word).

Definition arp_entry_of (caps : list string) : ArpEntry :=
  let m := (caps, EmptyString) in
  {| arp_hostname := group m 1; arp_ip := group m 2;
     arp_mac := group m 3; arp_interface := group m 4 |}.

(** [get_arp_cache], given the outcome of the [arp -a] call. *)
Definition get_arp_cache (arp : cmd_result) : list ArpEntry :=
  match arp with
  | None => []
  | Some (stdout, _, _) => map arp_entry_of (finditer re_arp stdout)
  end.

(** ** utils.py: assess_network_health *)

(** The fields are those of the constructor calls in [run_ping_test]; the
    four round-trip times may be left out, and are then [None]. *)
Record PingResult : Type := {
  host : string;
  packets_sent : Z;
  packets_received : Z;
  packet_loss : Q;
  min_rtt : option Q;
  avg_rtt : option Q;
  max_rtt : option Q;
  stddev_rtt : option Q
}.

(** Modelled from the spec: the [jitter] property of [PingResult] is
    declared in models.py, which is not among the sources; the design
    document defines it as the standard deviation of the round-trip time
    when present, else 0. *)
Definition jitter (r : PingResult) : Q :=
  match stddev_rtt r with
  | Some s => s
  | None => 0%Q
  end.

(** Of the speed-test record only the two rates are read. *)
Record SpeedTestResult : Type := {
  download_mbps : Q;
  upload_mbps : Q
}.

Record HealthStatus : Type := {
  overall : string;
  score : Z;
  warnings : list string;
  errors : list string;
  recommendations : list string
}.

(** [a > b] and [a < b] on floats. The quotient and the products of
    [assess_network_health] are taken exactly; binary64 rounding would
    change a comparison only for a rate within one unit in the last place of
    its threshold. *)
Definition Qgtb (a b : Q) : bool := negb (Qle_bool a b).
Definition Qltb (a b : Q) : bool := negb (Qle_bool b a).

(** The least positive integer that does not convert to a float: it rounds
    beyond the largest binary64 number. From there on [n * 0.01] and the
    quotient of two integers raise [OverflowError]. *)
Definition float_limit : Z := 2 ^ 1024 - 2 ^ 970.

(** The counters for which the arithmetic of the metrics check is defined:
    the sum of the errors and the sum of the packets convert to a float. *)
Definition counters_convert (metrics : option NetworkMetrics) : Prop :=
  match metrics with
  | Some m =>
      Z.abs (errors_in m + errors_out m) < float_limit
      /\ packets_in m + packets_out m < float_limit
  | None => True
  end.

(** The wireless records whose numbers the messages can print: a signal,
    a signal-to-noise ratio or a channel width low enough to be reported
    is within the interpreter's limit on digits. *)
Definition wifi_prints (wifi_info : option WiFiInfo) : Prop :=
  match wifi_info with
  | Some w =>
      - Py.max_str < rssi w /\ - Py.max_str < snr w
      /\ - Py.max_str < channel_width w
  | None => True
  end.

(** The four local variables of [assess_network_health]. *)
Record tally : Type := {
  t_score : Z;
  t_warnings : list string;
  t_errors : list string;
  t_recommendations : list string
}.

Definition penalty (n : Z) (t : tally) : tally :=
  {| t_score := t_score t - n; t_warnings := t_warnings t;
     t_errors := t_errors t; t_recommendations := t_recommendations t |}.
Definition warn (msg : string) (t : tally) : tally :=
  {| t_score := t_score t; t_warnings := t_warnings t ++ [msg];
     t_errors := t_errors t; t_recommendations := t_recommendations t |}.
Definition error (msg : string) (t : tally) : tally :=
  {| t_score := t_score t; t_warnings := t_warnings t;
     t_errors := t_errors t ++ [msg]; t_recommendations := t_recommendations t |}.
Definition recommend (msg : string) (t : tally) : tally :=
  {| t_score := t_score t; t_warnings := t_warnings t;
     t_errors := t_errors t; t_recommendations := t_recommendations t ++ [msg] |}.

Section Health.
(** What models.py and the formatting of floats provide. *)
Variable from_score : Z -> string.          (* HealthStatus.from_score *)
Variable band : WiFiInfo -> string.          (* WiFiInfo.band *)
Variable fmt : nat -> Q -> string.           (* f"{x:.Nf}" *)

Definition check_status (interface_info : InterfaceInfo) (t : tally) : tally :=
  if negb (String.eqb (status interface_info) "active") then
    recommend "Check interface configuration and ensure it's enabled"
      (error "Interface is not active" (penalty 50 t))
  else t.

Definition error_rate (m : NetworkMetrics) : Q :=
  (inject_Z (errors_in m + errors_out m)
   / inject_Z (packets_in m + packets_out m) * 100)%Q.

Definition check_error_rate (m : NetworkMetrics) (t : tally) : tally :=
  let rate := error_rate m in
  if Qgtb rate 1 then
    recommend "Check network cables or WiFi signal strength"
      (error ("High error rate: " ++ fmt 2 rate ++ "%") (penalty 20 t))
  else if Qgtb rate (1 # 10) then
    warn ("Moderate error rate: " ++ fmt 2 rate ++ "%") (penalty 10 t)
  else t.

Definition check_collisions (m : NetworkMetrics) (t : tally) : tally :=
  if Qgtb (inject_Z (collisions m))
          (inject_Z (packets_in m + packets_out m) * (1 # 100)) then
    recommend "Network may be congested"
      (warn "High collision rate detected" (penalty 5 t))
  else t.

Definition check_metrics (metrics : option NetworkMetrics) (t : tally) : tally :=
  match metrics with
  | Some m =>
      if 0 <? packets_in m + packets_out m then
        check_collisions m (check_error_rate m t)
      else t
  | None => t
  end.

Definition check_rssi (w : WiFiInfo) (t : tally) : tally :=
  if rssi w <? -80 then
    recommend "Move closer to access point or use 5GHz band"
      (error ("Very weak WiFi signal: " ++ Py.str (rssi w) ++ " dBm") (penalty 20 t))
  else if rssi w <? -70 then
    recommend "Consider moving closer to access point"
      (warn ("Weak WiFi signal: " ++ Py.str (rssi w) ++ " dBm") (penalty 10 t))
  else if rssi w <? -60 then
    warn ("Fair WiFi signal: " ++ Py.str (rssi w) ++ " dBm") (penalty 5 t)
  else t.

Definition check_snr (w : WiFiInfo) (t : tally) : tally :=
  if snr w <? 20 then
    recommend "High interference detected, try changing WiFi channel"
      (error ("Poor signal-to-noise ratio: " ++ Py.str (snr w) ++ " dB") (penalty 15 t))
  else if snr w <? 30 then
    warn ("Low signal-to-noise ratio: " ++ Py.str (snr w) ++ " dB") (penalty 5 t)
  else t.

Definition legacy_phy (mode : string) : bool :=
  nonempty mode && (Py.contains "802.11b" mode || Py.contains "802.11g" mode).

Definition check_phy (w : WiFiInfo) (t : tally) : tally :=
  if legacy_phy (phy_mode w) then
    recommend "Upgrade to WiFi 5 (802.11ac) or WiFi 6 (802.11ax)"
      (warn ("Using older WiFi standard: " ++ phy_mode w) t)
  else t.

Definition narrow_channel (w : WiFiInfo) : bool :=
  negb (channel_width w =? 0) && (channel_width w <? 40)
  && String.eqb (band w) "5GHz".

Definition check_width (w : WiFiInfo) (t : tally) : tally :=
  if narrow_channel w then
    recommend "Configure router for 80MHz or 160MHz channel width"
      (warn ("Using narrow channel width: " ++ Py.str (channel_width w)
             ++ "MHz on 5GHz") t)
  else t.

Definition check_wifi (wifi_info : option WiFiInfo) (t : tally) : tally :=
  match wifi_info with
  | Some w => check_width w (check_phy w (check_snr w (check_rssi w t)))
  | None => t
  end.

Definition check_loss (r : PingResult) (t : tally) : tally :=
  if Qgtb (packet_loss r) 5 then
    recommend "Check network stability and internet connection"
      (error ("High packet loss to " ++ host r ++ ": " ++ fmt 1 (packet_loss r) ++ "%")
         (penalty 15 t))
  else if Qgtb (packet_loss r) 1 then
    warn ("Moderate packet loss to " ++ host r ++ ": " ++ fmt 1 (packet_loss r) ++ "%")
      (penalty 5 t)
  else t.

(** [result.avg_rtt > 100]: Python 3 refuses to order [None] and a
    number, and raises [TypeError]. *)
Definition check_latency (r : PingResult) (t : tally) : result tally :=
  match avg_rtt r with
  | None => Raise TypeError
  | Some rtt =>
      Ok (if Qgtb rtt 100 then
            recommend "Check for network congestion or bandwidth issues"
              (warn ("High latency to " ++ host r ++ ": " ++ fmt 1 rtt ++ " ms")
                 (penalty 10 t))
          else t)
  end.

Definition check_jitter (r : PingResult) (t : tally) : tally :=
  if Qgtb (jitter r) 20 then
    recommend "Network instability detected, may affect VoIP and gaming"
      (warn ("High jitter to " ++ host r ++ ": " ++ fmt 1 (jitter r) ++ " ms")
         (penalty 10 t))
  else if Qgtb (jitter r) 10 then
    warn ("Moderate jitter to " ++ host r ++ ": " ++ fmt 1 (jitter r) ++ " ms")
      (penalty 5 t)
  else t.

Definition check_ping (r : PingResult) (t : tally) : result tally :=
  try! t' := check_latency r (check_loss r t) in
  Ok (check_jitter r t').

(** [for result in ping_results: ...] *)
Fixpoint check_pings (rs : list PingResult) (t : tally) : result tally :=
  match rs with
  | [] => Ok t
  | r :: rest =>
      try! t' := check_ping r t in
      check_pings rest t'
  end.

Definition check_download (s : SpeedTestResult) (t : tally) : tally :=
  if Qltb (download_mbps s) 10 then
    recommend "Contact ISP or check for bandwidth throttling"
      (warn ("Slow download speed: " ++ fmt 1 (download_mbps s) ++ " Mbps")
         (penalty 10 t))
  else t.

Definition check_upload (s : SpeedTestResult) (t : tally) : tally :=
  if Qltb (upload_mbps s) 5 then
    warn ("Slow upload speed: " ++ fmt 1 (upload_mbps s) ++ " Mbps") (penalty 5 t)
  else t.

Definition check_speed (speed_result : option SpeedTestResult) (t : tally) : tally :=
  match speed_result with
  | Some s => check_upload s (check_download s t)
  | None => t
  end.

Definition start : tally :=
  {| t_score := 100; t_warnings := []; t_errors := []; t_recommendations := [] |}.

Definition verdict (t : tally) : HealthStatus :=
  let s := Z.max 0 (t_score t) in
  {| overall := from_score s;
     score := s;
     warnings := t_warnings t;
     errors := t_errors t;
     recommendations := t_recommendations t |}.

Definition assess_network_health
    (interface_info : InterfaceInfo)
    (metrics : option NetworkMetrics)
    (wifi_info : option WiFiInfo)
    (ping_results : option (list PingResult))
    (speed_result : option SpeedTestResult) : result HealthStatus :=
  let t1 := check_status interface_info start in
  let t2 := check_metrics metrics t1 in
  let t3 := check_wifi wifi_info t2 in
  try! t4 :=
    match ping_results with
    | Some (r :: rs) => check_pings (r :: rs) t3
    | Some [] | None => Ok t3
    end in
  let t5 := check_speed speed_result t4 in
  Ok (verdict t5).

End Health.

(** ** The parts of models.py used to run the assessment on examples *)

(** Modelled from the spec: [HealthStatus.from_score] lives in models.py,
    which is not among the sources. The design document only asks for fixed
    bands (excellent / good / fair / poor); these boundaries are one choice,
    and no property below depends on them. *)
Definition from_score_bands (s : Z) : string :=
  if 90 <=? s then "excellent"
  else if 70 <=? s then "good"
  else if 50 <=? s then "fair"
  else "poor".

(** Modelled from the spec: the [band] property of [WiFiInfo] (2.4 GHz or
    5 GHz) lives in models.py; channels above 14 are taken as 5 GHz. *)
Definition band_of_channel (w : WiFiInfo) : string :=
  if 14 <? channel w then "5GHz" else "2.4GHz".

(** [f"{x:.Nf}"] on the exact value: [x] rounded half to even at [n]
    decimals. *)
Definition round_half_even (x : Q) : Z :=
  let n := Qnum x in
  let d := Z.pos (Qden x) in
  let q := n / d in
  let r := n mod d in
  if 2 * r <? d then q
  else if d <? 2 * r then q + 1
  else if Z.even q then q else q + 1.

Fixpoint pad_zeros (n : nat) (s : string) : string :=
  match n with
  | O => s
  | S n' => if (Py.len s <? S n')%nat then pad_zeros n' ("0" ++ s) else s
  end.

Definition fmt_fixed (n : nat) (x : Q) : string :=
  let neg := Qltb x 0 in
  let ax := if neg then Qopp x else x in
  let scaled := round_half_even (ax * inject_Z (10 ^ Z.of_nat n)) in
  let ip := scaled / 10 ^ Z.of_nat n in
  let fp := scaled mod 10 ^ Z.of_nat n in
  (if neg then "-" else "") ++ Py.str ip ++
  match n with
  | O => ""
  | _ => "." ++ pad_zeros n (Py.str fp)
  end.

Definition assess := assess_network_health from_score_bands band_of_channel fmt_fixed.

(** ** Penalties charged by each check (section 4.2 of the design) *)

Definition pen_status (i : InterfaceInfo) : Z :=
  if negb (String.eqb (status i) "active") then 50 else 0.

Definition pen_error_rate (m : NetworkMetrics) : Z :=
  if Qgtb (error_rate m) 1 then 20
  else if Qgtb (error_rate m) (1 # 10) then 10 else 0.

Definition pen_collisions (m : NetworkMetrics) : Z :=
  if Qgtb (inject_Z (collisions m))
          (inject_Z (packets_in m + packets_out m) * (1 # 100)) then 5 else 0.

Definition pen_metrics (metrics : option NetworkMetrics) : Z :=
  match metrics with
  | Some m =>
      if 0 <? packets_in m + packets_out m
      then pen_error_rate m + pen_collisions m else 0
  | None => 0
  end.

Definition pen_rssi (r : Z) : Z :=
  if r <? -80 then 20 else if r <? -70 then 10 else if r <? -60 then 5 else 0.

Definition pen_snr (s : Z) : Z :=
  if s <? 20 then 15 else if s <? 30 then 5 else 0.

Definition pen_wifi (wifi_info : option WiFiInfo) : Z :=
  match wifi_info with
  | Some w => pen_rssi (rssi w) + pen_snr (snr w)
  | None => 0
  end.

Definition pen_loss (loss : Q) : Z :=
  if Qgtb loss 5 then 15 else if Qgtb loss 1 then 5 else 0.

Definition pen_latency (rtt : option Q) : Z :=
  match rtt with
  | Some a => if Qgtb a 100 then 10 else 0
  | None => 0
  end.

Definition pen_jitter (j : Q) : Z :=
  if Qgtb j 20 then 10 else if Qgtb j 10 then 5 else 0.

Definition pen_ping (r : PingResult) : Z :=
  pen_loss (packet_loss r) + pen_latency (avg_rtt r) + pen_jitter (jitter r).

Fixpoint pen_ping_list (rs : list PingResult) : Z :=
  match rs with
  | [] => 0
  | r :: rest => pen_ping r + pen_ping_list rest
  end.

Definition pen_pings (ping_results : option (list PingResult)) : Z :=
  match ping_results with
  | Some rs => pen_ping_list rs
  | None => 0
  end.

Definition pen_speed (speed_result : option SpeedTestResult) : Z :=
  match speed_result with
  | Some s =>
      (if Qltb (download_mbps s) 10 then 10 else 0)
      + (if Qltb (upload_mbps s) 5 then 5 else 0)
  | None => 0
  end.

Definition total_penalty (i : InterfaceInfo) (m : option NetworkMetrics)
    (w : option WiFiInfo) (ps : option (list PingResult))
    (sp : option SpeedTestResult) : Z :=
  pen_status i + pen_metrics m + pen_wifi w + pen_pings ps + pen_speed sp.

(** ** One input no better than another, signal by signal *)

Definition opt_rel {A} (R : A -> A -> Prop) (o1 o2 : option A) : Prop :=
  match o1, o2 with
  | Some a, Some b => R a b
  | None, None => True
  | _, _ => False
  end.

(** Same traffic, at least as many errors and collisions. *)
Definition metrics_worse (m1 m2 : NetworkMetrics) : Prop :=
  packets_in m1 = packets_in m2 /\ packets_out m1 = packets_out m2 /\
  errors_in m2 + errors_out m2 <= errors_in m1 + errors_out m1 /\
  collisions m2 <= collisions m1.

(** A signal and a signal-to-noise ratio at most as high. *)
Definition wifi_worse (w1 w2 : WiFiInfo) : Prop :=
  rssi w1 <= rssi w2 /\ snr w1 <= snr w2.

(** At least as much loss, latency and jitter. *)
Definition ping_worse (r1 r2 : PingResult) : Prop :=
  (packet_loss r2 <= packet_loss r1)%Q /\
  opt_rel (fun a1 a2 => (a2 <= a1)%Q) (avg_rtt r1) (avg_rtt r2) /\
  (jitter r2 <= jitter r1)%Q.

(** At most as much throughput. *)
Definition speed_worse (s1 s2 : SpeedTestResult) : Prop :=
  (download_mbps s1 <= download_mbps s2)%Q /\
  (upload_mbps s1 <= upload_mbps s2)%Q.

Definition with_rssi (w : WiFiInfo) (r : Z) : WiFiInfo :=
  {| ssid := ssid w; bssid := bssid w; channel := channel w; rssi := r;
     noise := noise w; snr := snr w; tx_rate := tx_rate w;
     mcs_index := mcs_index w; phy_mode := phy_mode w;
     security := security w; channel_width := channel_width w |}.

(** ** The hardware-port mapping, described line by line *)

Inductive entry : Type :=
| PortLine (label : string)       (* a [Hardware Port:] line *)
| DeviceLine (device : string)    (* a [Device:] line *)
| OtherLine.

(** The stripped text after the first colon. *)
Definition value_of (line : string) : string :=
  match Py.split1 ":" line with
  | _ :: v :: _ => Py.strip v
  | _ => ""
  end.

Definition classify (line0 : string) : entry :=
  let line := Py.strip line0 in
  if Py.startswith "Hardware Port:" line then PortLine (value_of line)
  else if Py.startswith "Device:" line then DeviceLine (value_of line)
  else OtherLine.

Definition entries (output : string) : list entry :=
  map classify (Py.split LF (Py.strip output)).

(** As the claim words it: looking back from a line ([before_rev] holds the
    lines before it, nearest first), the nearest [Hardware Port:] line,
    with its position, unless a [Device:] line comes first; that line has
    consumed it. *)
Fixpoint claimed_pending (before_rev : list entry) : option (nat * string) :=
  match before_rev with
  | [] => None
  | OtherLine :: r => claimed_pending r
  | PortLine l :: r => Some (length r, l)
  | DeviceLine _ :: _ => None
  end.

(** The same, where a [Hardware Port:] line with an empty label offers
    nothing. *)
Fixpoint pending_port (before_rev : list entry) : option (nat * string) :=
  match before_rev with
  | [] => None
  | OtherLine :: r => pending_port r
  | PortLine l :: r => if nonempty l then Some (length r, l) else None
  | DeviceLine _ :: _ => None
  end.

(** What line [j] adds to the mapping: a [Device:] line adds its device
    with the label pending at that line, any other line adds nothing. *)
Definition assignment_at (pending : list entry -> option (nat * string))
    (es : list entry) (j : nat) : option (string * string) :=
  match es !! j with
  | Some (DeviceLine d) =>
      match pending (rev (take j es)) with
      | Some (_, l) => Some (d, l)
      | None => None
      end
  | _ => None
  end.

Definition assignments (pending : list entry -> option (nat * string))
    (es : list entry) : list (string * string) :=
  omap (assignment_at pending es) (seq 0 (length es)).

(** [mapping[device] = label], one pair after the other: a later line for
    the same device replaces an earlier one. *)
Definition store (m : gmap string string) (dl : string * string)
    : gmap string string :=
  <[dl.1 := dl.2]> m.

Definition port_mapping_by (pending : list entry -> option (nat * string))
    (output : string) : gmap string string :=
  fold_left store (assignments pending (entries output)) ∅.

(** Line [j] is a [Device:] line that receives the label of line [i]. *)
Definition assigned (es : list entry) (j i : nat) : Prop :=
  exists d l, es !! j = Some (DeviceLine d)
              /\ pending_port (rev (take j es)) = Some (i, l).

(** What a [current_port] is still good for: [None] and [""] are both
    false in the test [and current_port]. *)
Definition usable (current_port : option string) : option string :=
  match current_port with
  | Some p => if nonempty p then Some p else None
  | None => None
  end.

(** ** The netstat row, described by the row that is chosen *)

Definition is_int (s : string) : bool :=
  match Py.int s with Ok _ => true | Raise _ => false end.

Definition int_value (s : string) : Z :=
  match Py.int s with Ok z => z | Raise _ => 0 end.

Definition token (parts : list string) (i : nat) : string :=
  default "" (parts !! i).

(** A line that starts with the interface name, has at least 10 tokens, and
    whose counters (tokens 4 to 9, and token 10 when there is one) are
    integers. *)
Definition row_accepted (interface_name line : string) : bool :=
  let parts := Py.split_ws line in
  Py.startswith interface_name line
  && (10 <=? length parts)%nat
  && forallb (fun i => is_int (token parts i)) [4; 5; 6; 7; 8; 9]%nat
  && ((length parts <=? 10)%nat || is_int (token parts 10)).

Definition row_metrics (interface_name line : string) : NetworkMetrics :=
  let parts := Py.split_ws line in
  {| interface := interface_name;
     packets_in := int_value (token parts 4);
     errors_in := int_value (token parts 5);
     bytes_in := int_value (token parts 6);
     packets_out := int_value (token parts 7);
     errors_out := int_value (token parts 8);
     bytes_out := int_value (token parts 9);
     collisions := if (10 <? length parts)%nat then int_value (token parts 10) else 0 |}.

Definition netstat_lines (output : string) : list string :=
  Py.split LF (Py.strip output).

(** ** Sample inputs *)

Definition text (lines : list string) : string := Py.join nl lines.
Definition tab : string := String TAB EmptyString.

(** An interface block whose netmask has two hex digits. *)
Definition ifconfig_short_mask : string :=
  text ["en0: flags=8863<UP,BROADCAST,RUNNING> mtu 1500";
        tab ++ "ether a4:83:e7:12:34:56";
        tab ++ "inet 10.0.0.1 netmask 0xff broadcast 10.255.255.255";
        tab ++ "status: active"].

(** A DHCP packet that lists the same name server twice. *)
Definition dhcp_repeated_dns : string :=
  text ["op = BOOTREPLY";
        "server_identifier (ip): 192.168.1.1";
        "domain_name_server (ip_mult): {8.8.8.8, 1.1.1.1, 8.8.8.8}";
        "lease_time (uint32): 0x00000e10"].

Definition scutil_repeated_dns : string :=
  text ["resolver #1";
        "  nameserver[0] : 8.8.8.8";
        "  nameserver[1] : 1.1.1.1";
        "resolver #2";
        "  nameserver[0] : 8.8.8.8"].

Definition active_interface : InterfaceInfo :=
  {| name := "en0"; hardware_port := "Wi-Fi"; mac_address := "a4:83:e7:12:34:56";
     ipv4_address := Some "192.168.1.23"; ipv6_addresses := [];
     netmask := Some "255.255.255.0"; status := "active";
     media_type := "autoselect"; mtu := 1500 |}.

Definition inactive_interface : InterfaceInfo :=
  {| name := "en1"; hardware_port := ""; mac_address := "";
     ipv4_address := None; ipv6_addresses := []; netmask := None;
     status := "inactive"; media_type := ""; mtu := 0 |}.

(** What [run_ping_test] builds when [ping] exits with an error. *)
Definition unreachable_ping : PingResult :=
  {| host := "8.8.8.8"; packets_sent := 10; packets_received := 0;
     packet_loss := 100; min_rtt := None; avg_rtt := None; max_rtt := None;
     stddev_rtt := None |}.

Definition good_ping : PingResult :=
  {| host := "8.8.8.8"; packets_sent := 10; packets_received := 10;
     packet_loss := 0; min_rtt := Some 15%Q; avg_rtt := Some 20%Q;
     max_rtt := Some 30%Q; stddev_rtt := Some 2%Q |}.

Definition bad_ping : PingResult :=
  {| host := "1.1.1.1"; packets_sent := 10; packets_received := 9;
     packet_loss := 10; min_rtt := Some 90%Q; avg_rtt := Some 200%Q;
     max_rtt := Some 400%Q; stddev_rtt := Some 30%Q |}.

Definition clean_metrics : NetworkMetrics :=
  {| interface := "en0"; packets_in := 1000; errors_in := 0; bytes_in := 500000;
     packets_out := 800; errors_out := 0; bytes_out := 400000; collisions := 0 |}.

Definition colliding_metrics : NetworkMetrics :=
  {| interface := "en0"; packets_in := 1000; errors_in := 0; bytes_in := 500000;
     packets_out := 800; errors_out := 0; bytes_out := 400000; collisions := 50 |}.

Definition good_wifi : WiFiInfo :=
  {| ssid := "Home"; bssid := "aa:bb:cc:dd:ee:ff"; channel := 36; rssi := -55;
     noise := -95; snr := 40; tx_rate := 866; mcs_index := 9;
     phy_mode := "802.11ac"; security := "wpa2-psk"; channel_width := 80 |}.

(** The same association, reported with a legacy PHY label. *)
Definition legacy_wifi : WiFiInfo :=
  {| ssid := "Home"; bssid := "aa:bb:cc:dd:ee:ff"; channel := 36; rssi := -55;
     noise := -95; snr := 40; tx_rate := 54; mcs_index := -1;
     phy_mode := "802.11g"; security := "wpa2-psk"; channel_width := 80 |}.

(** Low signal-to-noise ratio, to be combined with other penalties. *)
Definition noisy_wifi : WiFiInfo :=
  {| ssid := "Home"; bssid := "aa:bb:cc:dd:ee:ff"; channel := 36; rssi := -65;
     noise := -75; snr := 10; tx_rate := 866; mcs_index := 9;
     phy_mode := "802.11ac"; security := "wpa2-psk"; channel_width := 80 |}.

Definition fast_link : SpeedTestResult :=
  {| download_mbps := 100; upload_mbps := 20 |}.

Definition airport_sample : string :=
  text ["     agrCtlRSSI: -55";
        "     agrCtlNoise: -95";
        "            snr: 7";
        "     lastTxRate: 866";
        "           SSID: Home";
        "            MCS: 9";
        "        channel: 36"].

(** An [arp -a] listing with [n] neighbours. *)
Definition arp_line (i : nat) : string :=
  "? (192.168.1." ++ Py.str (Z.of_nat i) ++ ") at a4:83:e7:0:0:1 on en0 ifscope [ethernet]".

Definition arp_listing (n : nat) : string := text (map arp_line (seq 1 n)).

Definition lsof_line (i : nat) : string :=
  "rapportd " ++ Py.str (Z.of_nat i) ++ " me 4u IPv4 0x1 0t0 TCP *:49152 (LISTEN)".

Definition lsof_listing (n : nat) : string :=
  text ("COMMAND PID USER FD TYPE DEVICE SIZE/OFF NODE NAME" :: map lsof_line (seq 1 n)).

Definition ports_empty_label : string :=
  text ["Hardware Port:"; "Device: en0"].

Definition ports_sample : string :=
  text ["";
        "Hardware Port: Wi-Fi";
        "Device: en0";
        "Ethernet Address: a4:83:e7:12:34:56";
        "";
        "Hardware Port: Thunderbolt Bridge";
        "Device: bridge0";
        "Device: bridge1"].

Definition netstat_sample : string :=
  text ["Name  Mtu   Network       Address            Ipkts Ierrs     Ibytes    Opkts Oerrs     Obytes  Coll";
        "en0   1500  <Link#4>    a4:83:e7:12:34:56  1000     0    5000     800     0    4000"].

(** ** The remaining extractors and collectors *)

(** [all(cls(c) for c in s)] *)
Fixpoint str_all (cls : ascii -> bool) (s : string) : bool :=
  match s with
  | EmptyString => true
  | String c s' => cls c && str_all cls s'
  end.

(** A pattern that opens with [^] under re.MULTILINE: it may match at the
    start of the text and after every line feed. [bol] tells whether the
    current position is such a place. *)
Fixpoint finditer_bol_from (r : regex) (skip : nat) (bol : bool) (s : string)
    : list (list string) :=
  match skip with
  | S n =>
      match s with
      | String c s' => finditer_bol_from r n (Py.chr_eqb c LF) s'
      | EmptyString => []
      end
  | O =>
      match (if bol then match_here r s else None) with
      | Some (caps, rest) =>
          caps ::
          match s with
          | String c s' =>
              finditer_bol_from r (Py.len s - Py.len rest - 1) (Py.chr_eqb c LF) s'
          | EmptyString => []
          end
      | None =>
          match s with
          | String c s' => finditer_bol_from r O (Py.chr_eqb c LF) s'
          | EmptyString => []
          end
      end
  end.

(** [re.search] for such a pattern. *)
Fixpoint search_bol (r : regex) (bol : bool) (s : string)
    : option (list string * string) :=
  match (if bol then match_here r s else None) with
  | Some m => Some m
  | None =>
      match s with
      | String c s' => search_bol r (Py.chr_eqb c LF) s'
      | EmptyString => None
      end
  end.

(** *** parsers/ifconfig.py: parse_all_interfaces *)

(** The pattern [^(NAME):\s+flags=], where NAME is [\w+] followed by
    [\d*]. *)
Definition re_iface : regex :=
  Group (Plus word >> Star digit) >> Lit ":" >> Plus ws >> Lit "flags=".

Definition parse_all_interfaces (output : string) : list string :=
  omap (fun caps => caps !! 0%nat) (finditer_bol_from re_iface O true output).

(** *** collectors/offline.py: get_all_interfaces *)

(** [info.hardware_port = port] *)
Definition set_hardware_port (info : InterfaceInfo) (port : string) : InterfaceInfo :=
  {| name := name info; hardware_port := port; mac_address := mac_address info;
     ipv4_address := ipv4_address info; ipv6_addresses := ipv6_addresses info;
     netmask := netmask info; status := status info;
     media_type := media_type info; mtu := mtu info |}.

(** [name.startswith(('lo', 'gif', 'stf', 'fw'))] *)
Definition is_virtual (name : string) : bool :=
  Py.startswith "lo" name || Py.startswith "gif" name
  || Py.startswith "stf" name || Py.startswith "fw" name.

(** The [for] loop of [get_all_interfaces]. An exception of
    [parse_ifconfig] leaves the loop; the records appended so far are what
    the function returns. *)
Fixpoint interfaces_loop (port_mapping : gmap string string) (stdout : string)
    (names : list string) : list InterfaceInfo :=
  match names with
  | [] => []
  | name :: rest =>
      if is_virtual name then interfaces_loop port_mapping stdout rest
      else
        match parse_ifconfig stdout name with
        | Raise _ => []
        | Ok None => interfaces_loop port_mapping stdout rest
        | Ok (Some info) =>
            set_hardware_port info (default "Unknown" (port_mapping !! name))
            :: interfaces_loop port_mapping stdout rest
        end
  end.

(** [get_all_interfaces], given the outcomes of
    [networksetup -listallhardwareports] and of [ifconfig -a]. *)
Definition get_all_interfaces (networksetup ifconfig : cmd_result)
    : list InterfaceInfo :=
  match networksetup with
  | None => []
  | Some (ports_out, _, _) =>
      match parse_hardware_port_mapping ports_out with
      | Raise _ => []
      | Ok port_mapping =>
          match ifconfig with
          | None => []
          | Some (stdout, _, _) =>
              interfaces_loop port_mapping stdout (parse_all_interfaces stdout)
          end
      end
  end.

(** *** parsers/airport.py: parse_airport_scan *)

Record NetworkScan : Type := {
  scan_ssid : string;
  scan_bssid : string;
  scan_channel : Z;
  scan_rssi : Z;
  scan_security : string
}.

(** The body of the [try] for one row of at least 7 tokens. *)
Definition scan_row (parts : list string) : result NetworkScan :=
  try! s := Py.index parts 0 in
  try! b := Py.index parts 1 in
  try! r := int_at parts 2 in
  try! c := int_at parts 3 in
  let security :=
    if (6 <? length parts)%nat then Py.join " " (drop 6 parts) else "" in
  Ok {| scan_ssid := s; scan_bssid := b; scan_channel := c; scan_rssi := r;
        scan_security := security |}.

Fixpoint scan_loop (lines : list string) : result (list NetworkScan) :=
  match lines with
  | [] => Ok []
  | line :: rest =>
      let parts := Py.split_ws line in
      if (7 <=? length parts)%nat then
        match scan_row parts with
        | Ok n => try! ns := scan_loop rest in Ok (n :: ns)
        | Raise ValueError | Raise IndexError => scan_loop rest
        | Raise e => Raise e
        end
      else scan_loop rest
  end.

Definition parse_airport_scan (output : string) : result (list NetworkScan) :=
  scan_loop (tail (Py.split LF (Py.strip output))).

(** *** parsers/netstat.py: parse_routing_table, get_default_gateway *)

(** The dict of one route; its keys are [destination], [gateway], [flags]
    and [interface]. *)
Record RouteEntry : Type := {
  route_destination : string;
  route_gateway : string;
  route_flags : string;
  route_interface : string
}.

Definition is_route_header (line : string) : bool :=
  Py.contains "Destination" line && Py.contains "Gateway" line.

Definition route_of (parts : list string) : result RouteEntry :=
  try! d := Py.index parts 0 in
  try! g := Py.index parts 1 in
  try! f := Py.index parts 2 in
  try! i := (if (3 <? length parts)%nat then Py.index parts 3 else Ok "") in
  Ok {| route_destination := d; route_gateway := g; route_flags := f;
        route_interface := i |}.

(** The [for] loop, with its flag [in_ipv4] and its [break]. *)
Fixpoint routes_loop (in_ipv4 : bool) (lines : list string)
    : result (list RouteEntry) :=
  match lines with
  | [] => Ok []
  | line :: rest =>
      if is_route_header line then routes_loop true rest
      else if in_ipv4 && nonempty (Py.strip line) then
        if Py.contains "Internet6" line then Ok []
        else
          let parts := Py.split_ws line in
          if (4 <=? length parts)%nat then
            try! r := route_of parts in
            try! rs := routes_loop in_ipv4 rest in
            Ok (r :: rs)
          else routes_loop in_ipv4 rest
      else routes_loop in_ipv4 rest
  end.

Definition parse_routing_table (output : string) : result (list RouteEntry) :=
  routes_loop false (Py.split LF (Py.strip output)).

(** [^default\s+(\d+\.\d+\.\d+\.\d+)] *)
Definition re_default : regex := Lit "default" >> Plus ws >> Group dotted_quad.

Definition get_default_gateway (output : string) : option string :=
  option_map (fun m => group m 1) (search_bol re_default true output).

(** *** parsers/dhcp.py: format_lease_time *)

(** The numbers are printed by f-strings, which raise [ValueError] on an
    integer beyond the interpreter's limit on digits. *)
Definition format_lease_time (seconds : Z) : result string :=
  if seconds <? 3600 then
    let minutes := seconds / 60 in
    try! m := Py.str_int minutes in
    Ok (m ++ " minutes")
  else if seconds <? 86400 then
    let hours := seconds / 3600 in
    try! h := Py.str_int hours in
    Ok (h ++ " hours")
  else
    let days := seconds / 86400 in
    let hours := (seconds mod 86400) / 3600 in
    if 0 <? hours then
      try! d := Py.str_int days in
      try! h := Py.str_int hours in
      Ok (d ++ " days, " ++ h ++ " hours")
    else
      try! d := Py.str_int days in
      Ok (d ++ " days").

(** *** collectors/offline.py: the name servers of the network *)

(** [get_dhcp_info], given the outcome of [ipconfig getpacket]. *)
Definition get_dhcp_info (ipconfig : cmd_result) : option DHCPInfo :=
  match ipconfig with
  | Some (stdout, _, code) =>
      if code =? 0 then
        match parse_dhcp_info stdout with
        | Ok info => info
        | Raise _ => None
        end
      else None
  | None => None
  end.

(** [not dns.startswith('127.') and dns != '::1'] *)
Definition not_local (dns : string) : bool :=
  negb (Py.startswith "127." dns) && negb (String.eqb dns "::1").

(** [get_network_dns_servers], given the outcomes of [ipconfig getpacket]
    and of [scutil --dns]. *)
Definition get_network_dns_servers (ipconfig scutil : cmd_result) : list string :=
  match get_dhcp_info ipconfig with
  | Some {| dns_servers := d :: ds |} => d :: ds
  | _ =>
      match scutil with
      | Some (stdout, _, _) => filter (fun dns => not_local dns = true) (parse_dns_servers stdout)
      | None => []
      end
  end.

(** [get_dns_servers], given the outcome of [scutil --dns]. *)
Definition get_dns_servers (scutil : cmd_result) : list string :=
  match scutil with
  | Some (stdout, _, _) => parse_dns_servers stdout
  | None => []
  end.

(** *** utils.py: get_macos_version, supports_network_quality *)

(** [tuple(int(p) for p in parts)] *)
Fixpoint ints_of (parts : list string) : result (list Z) :=
  match parts with
  | [] => Ok []
  | p :: rest =>
      try! n := Py.int p in
      try! ns := ints_of rest in
      Ok (n :: ns)
  end.

(** [get_macos_version], given the outcome of [sw_vers -productVersion]. *)
Definition get_macos_version (sw_vers : cmd_result) : option (list Z) :=
  match sw_vers with
  | Some (stdout, _, code) =>
      if code =? 0 then
        match ints_of (Py.split "." (Py.strip stdout)) with
        | Ok version => Some version
        | Raise _ => None
        end
      else None
  | None => None
  end.

Definition supports_network_quality (sw_vers : cmd_result) : result bool :=
  match get_macos_version sw_vers with
  | None => Ok false
  | Some version =>
      try! major := Py.index version 0 in
      try! minor := (if (1 <? length version)%nat then Py.index version 1 else Ok 0) in
      Ok ((12 <? major) || ((major =? 12) && (1 <=? minor)))
  end.

(** ** Auxiliary notions for the properties of these functions *)

(** The value of a hex digit, 0 for any other character. *)
Definition hex_val (c : ascii) : Z := default 0 (Py.digit_val 16 c).

(** The byte written by two hex digits. *)
Definition hex_byte (a b : ascii) : Z := hex_val a * 16 + hex_val b.

(** The number written by a string of digits in a base, after [acc]. *)
Fixpoint radix_value (base acc : Z) (s : string) : Z :=
  match s with
  | EmptyString => acc
  | String c s' => radix_value base (acc * base + hex_val c) s'
  end.

Definition is_alnum_ascii (c : ascii) : bool :=
  Py.is_digit c || Py.in_range 97 122 c || Py.in_range 65 90 c.

(** The keys of a list in the order of their first occurrence. *)
Fixpoint first_seen (keys : list string) : list string :=
  match keys with
  | [] => []
  | k :: rest => k :: filter (fun x => x <> k) (first_seen rest)
  end.

(** The lines of a text that begin at or after a position: all of them
    when the position opens a line, all but the first otherwise. *)
Definition lines_from (bol : bool) (s : string) : list string :=
  if bol then Py.split LF s else tail (Py.split LF s).

(** The accounting that every check of the assessment keeps: penalties are
    multiples of 5, every recommendation comes with a warning or an error,
    every error costs at least 15 points and every point lost comes with a
    message. *)
Definition accounted (t : tally) : Prop :=
  (t_score t <= 100)
  /\ (100 - t_score t) mod 5 = 0
  /\ (length (t_recommendations t) <= length (t_warnings t) + length (t_errors t))%nat
  /\ 15 * Z.of_nat (length (t_errors t)) <= 100 - t_score t
  /\ 100 - t_score t <= 50 * Z.of_nat (length (t_warnings t) + length (t_errors t)).

(** Four non-empty runs of digits separated by dots. *)
Definition is_dotted_quad (x : string) : Prop :=
  exists a b c d,
    x = a ++ "." ++ b ++ "." ++ c ++ "." ++ d
    /\ str_all digit a = true /\ a <> "" /\ str_all digit b = true /\ b <> ""
    /\ str_all digit c = true /\ c <> "" /\ str_all digit d = true /\ d <> "".

(** What one row of a scan yields: an entry when it has at least 7 tokens
    and its third and fourth tokens are integers. *)
Definition scan_of (line : string) : option NetworkScan :=
  let parts := Py.split_ws line in
  if (7 <=? length parts)%nat && is_int (token parts 2) && is_int (token parts 3)
  then Some {| scan_ssid := token parts 0;
               scan_bssid := token parts 1;
               scan_channel := int_value (token parts 3);
               scan_rssi := int_value (token parts 2);
               scan_security := Py.join " " (drop 6 parts) |}
  else None.

(** [t'] is [t] with further messages, none of them the error of an
    inactive interface. *)
Definition later_messages (t t' : tally) : Prop :=
  exists ws es rs,
    t_warnings t' = (t_warnings t ++ ws)%list
    /\ t_errors t' = (t_errors t ++ es)%list
    /\ t_recommendations t' = (t_recommendations t ++ rs)%list
    /\ "Interface is not active" ∉ es.

Definition scan_sample : string :=
  text ["                            SSID BSSID             RSSI CHANNEL HT CC SECURITY (auth/unicast/group)";
        "Home aa:bb:cc:dd:ee:ff -55 36 Y DE WPA2(PSK/AES/AES)";
        "Guest aa:bb:cc:dd:ee:00 weak 6 Y DE NONE";
        "Cafe 11:22:33:44:55:66 -70 11 Y -- WPA(PSK/TKIP/TKIP) WPA2(PSK/AES/AES)"].

Definition routes_sample : string :=
  text ["Routing tables";
        "";
        "Internet:";
        "Destination        Gateway            Flags           Netif Expire";
        "default            192.168.1.1        UGScg             en0";
        "127                127.0.0.1          UCS               lo0";
        "";
        "Internet6:";
        "Destination        Gateway            Flags           Netif Expire";
        "default            fe80::1%en0        UGcg              en0"].

(** An interface whose MTU is written with 4301 digits. *)
Fixpoint str_repeat (n : nat) (c : ascii) : string :=
  match n with
  | O => EmptyString
  | S n' => String c (str_repeat n' c)
  end.

Definition ifconfig_long_mtu : string :=
  "en0: flags=8863<UP,BROADCAST,RUNNING> mtu " ++ str_repeat 4301 "1".

Definition ifconfig_two : string :=
  text ["lo0: flags=8049<UP,LOOPBACK,RUNNING,MULTICAST> mtu 16384";
        tab ++ "inet 127.0.0.1 netmask 0xff000000";
        "en0: flags=8863<UP,BROADCAST,SMART,RUNNING> mtu 1500";
        tab ++ "ether a4:83:e7:12:34:56";
        tab ++ "inet 192.168.1.23 netmask 0xffffff00 broadcast 192.168.1.255";
        tab ++ "status: active";
        "en1: flags=8863<UP,BROADCAST,SMART,RUNNING> mtu 1500";
        tab ++ "ether a4:83:e7:12:34:57";
        tab ++ "status: inactive"].

(** * Properties *)

(** ** Exceptions of the primitives *)

Lemma int_base_raises_only_ValueError base s e :
  Py.int_base base s = Raise e -> e = ValueError.
Proof.
  unfold Py.int_base.
  destruct (match Py.strip_int s with
            | String "-" t => option_map Z.opp (Py.unsigned base t)
            | String "+" t => Py.unsigned base t
            | t => Py.unsigned base t
            end); congruence.
Qed.

Lemma int_base_empty base : Py.int_base base "" = Raise ValueError.
Proof.
  unfold Py.int_base, Py.unsigned.
  cbn [Py.strip_int Py.lstrip_int Py.rstrip_int Py.startswith Py.digits orb].
  rewrite andb_false_r. destruct (Py.within_limit base ""); reflexivity.
Qed.

Lemma slice_past_end s : (Py.len s <= 6)%nat -> Py.slice 6 8 s = "".
Proof.
  intros H. unfold Py.slice.
  do 7 (destruct s as [|? s]; [reflexivity|]).
  simpl in H. lia.
Qed.

(** A mask of six hex digits or fewer leaves [hex_mask[6:8]] empty, and
    [int('', 16)] raises. *)
Lemma hex_to_dotted_short hex_mask :
  (Py.len hex_mask <= 6)%nat -> hex_to_dotted hex_mask = Raise ValueError.
Proof.
  intros H. unfold hex_to_dotted. cbn [mask_bytes Nat.add].
  rewrite (slice_past_end _ H), int_base_empty.
  repeat match goal with
         | |- context [Py.int_base 16 ?x] =>
             let E := fresh "E" in
             destruct (Py.int_base 16 x) as [?|?] eqn:E;
             [|apply int_base_raises_only_ValueError in E; subst]
         end; reflexivity.
Qed.

(** C1, at the input where it fails: for the block
    [inet 10.0.0.1 netmask 0xff] the netmask conversion reads the empty
    slice [hex_mask[2:4]] and [parse_ifconfig] raises [ValueError] instead
    of returning a record or [None]. *)
Theorem parse_ifconfig_short_netmask_raises :
  parse_ifconfig ifconfig_short_mask "en0" = Raise ValueError.
Proof. vm_compute. reflexivity. Qed.

(** The wireless extractor, by contrast, swallows the [ValueError] of
    [int] and always returns. *)
Lemma extract_int_returns output key d : returns (extract_int output key d).
Proof.
  unfold extract_int.
  destruct (extract_value output key) as [v|]; [|exact I].
  destruct (nonempty v); [|exact I].
  destruct (Py.int (keep_digits_minus v)) as [n|e] eqn:E; [exact I|].
  apply int_base_raises_only_ValueError in E. subst. exact I.
Qed.

Lemma parse_airport_info_returns output : returns (parse_airport_info output).
Proof.
  unfold parse_airport_info.
  destruct (negb (nonempty output) || Py.contains "AirPort: Off" output); [exact I|].
  destruct (negb (nonempty (extract_str output "SSID"))); [exact I|].
  repeat match goal with
         | |- context [extract_int ?o ?k ?d] =>
             let H := fresh "H" in
             pose proof (extract_int_returns o k d) as H;
             destruct (extract_int o k d); [clear H|destruct H]
         end.
  exact I.
Qed.

(** ** Name-server lists *)

Lemma dict_fromkeys_snoc keys k :
  dict_fromkeys (keys ++ [k])%list =
  if bool_decide (k ∈ dict_fromkeys keys) then dict_fromkeys keys
  else (dict_fromkeys keys ++ [k])%list.
Proof. unfold dict_fromkeys. rewrite fold_left_app. reflexivity. Qed.

Lemma dict_fromkeys_elem_of keys x : x ∈ dict_fromkeys keys <-> x ∈ keys.
Proof.
  induction keys as [|k keys IH] using rev_ind.
  - reflexivity.
  - rewrite dict_fromkeys_snoc. case_bool_decide as Hk.
    + rewrite elem_of_app, list_elem_of_singleton, <- IH.
      split; [tauto|]. intros [?| ->]; assumption.
    + rewrite !elem_of_app, IH. reflexivity.
Qed.

Lemma dict_fromkeys_NoDup keys : NoDup (dict_fromkeys keys).
Proof.
  induction keys as [|k keys IH] using rev_ind.
  - constructor.
  - rewrite dict_fromkeys_snoc. case_bool_decide as Hk; [assumption|].
    apply NoDup_app. split; [assumption|]. split.
    + intros x Hx Hx'. apply list_elem_of_singleton in Hx'. subst. contradiction.
    + apply NoDup_singleton.
Qed.

(** A key joins the list only at its first occurrence, at the end. *)
Lemma dict_fromkeys_first_seen keys k :
  dict_fromkeys (keys ++ [k])%list =
  if bool_decide (k ∈ keys) then dict_fromkeys keys else (dict_fromkeys keys ++ [k])%list.
Proof.
  rewrite dict_fromkeys_snoc.
  destruct (bool_decide_reflect (k ∈ dict_fromkeys keys)) as [H|H];
    rewrite dict_fromkeys_elem_of in H.
  - rewrite bool_decide_eq_true_2; auto.
  - rewrite bool_decide_eq_false_2; auto.
Qed.

(** The scutil extractor does return each address once. *)
Lemma parse_dns_servers_NoDup output : NoDup (parse_dns_servers output).
Proof. apply dict_fromkeys_NoDup. Qed.

Example parse_dns_servers_sample :
  parse_dns_servers scutil_repeated_dns = ["8.8.8.8"; "1.1.1.1"].
Proof. vm_compute. reflexivity. Qed.

(** C2, at the input where it fails: a DHCP packet whose
    [domain_name_server] option lists 8.8.8.8 twice yields a [dns_servers]
    field with that address twice; only [parse_dns_servers] removes
    repetitions. *)
Theorem parse_dhcp_info_repeats_dns :
  exists info,
    parse_dhcp_info dhcp_repeated_dns = Ok (Some info)
    /\ dns_servers info = ["8.8.8.8"; "1.1.1.1"; "8.8.8.8"]
    /\ ~ NoDup (dns_servers info).
Proof.
  eexists. split; [vm_compute; reflexivity|]. split; [reflexivity|].
  cbn. intros H. apply NoDup_cons in H as [H _]. apply H.
  right. left.
Qed.

(** ** The health score *)

Lemma Qgtb_true a c : Qgtb a c = true <-> (c < a)%Q.
Proof.
  unfold Qgtb. rewrite negb_true_iff, <- not_true_iff_false, Qle_bool_iff.
  split; [apply Qnot_le_lt | apply Qlt_not_le].
Qed.

Lemma Qltb_true a c : Qltb a c = true <-> (a < c)%Q.
Proof.
  unfold Qltb. rewrite negb_true_iff, <- not_true_iff_false, Qle_bool_iff.
  split; [apply Qnot_le_lt | apply Qlt_not_le].
Qed.

Lemma Qgtb_mono a b c : (a <= b)%Q -> Qgtb a c = true -> Qgtb b c = true.
Proof.
  rewrite !Qgtb_true. intros Hab Hca. eapply Qlt_le_trans; eassumption.
Qed.

Lemma Qltb_mono a b c : (a <= b)%Q -> Qltb b c = true -> Qltb a c = true.
Proof.
  rewrite !Qltb_true. intros Hab Hbc. eapply Qle_lt_trans; eassumption.
Qed.

(** Each check lowers the score by its penalty and by nothing else. *)

Lemma score_check_status i t :
  t_score (check_status i t) = t_score t - pen_status i.
Proof.
  unfold check_status, pen_status.
  destruct (negb (status i =? "active")%string); cbn; lia.
Qed.

Lemma score_check_metrics fmt m t :
  t_score (check_metrics fmt m t) = t_score t - pen_metrics m.
Proof.
  unfold check_metrics, pen_metrics, check_collisions, check_error_rate,
    pen_error_rate, pen_collisions.
  destruct m as [m|]; [|lia].
  destruct (0 <? packets_in m + packets_out m); [|lia].
  destruct (Qgtb (inject_Z (collisions m)) _);
    destruct (Qgtb (error_rate m) 1);
    try destruct (Qgtb (error_rate m) (1 # 10)); cbn; lia.
Qed.

Lemma score_check_wifi band w t :
  t_score (check_wifi band w t) = t_score t - pen_wifi w.
Proof.
  unfold check_wifi, pen_wifi, check_width, check_phy, check_snr, check_rssi,
    pen_rssi, pen_snr.
  destruct w as [w|]; [|lia].
  destruct (narrow_channel band w), (legacy_phy (phy_mode w));
    destruct (snr w <? 20), (snr w <? 30);
    destruct (rssi w <? -80), (rssi w <? -70), (rssi w <? -60); cbn; lia.
Qed.

Lemma score_check_ping fmt r t t' :
  check_ping fmt r t = Ok t' -> t_score t' = t_score t - pen_ping r.
Proof.
  unfold check_ping, check_latency, check_loss, check_jitter, pen_ping,
    pen_loss, pen_latency, pen_jitter.
  destruct (avg_rtt r) as [a|]; [|discriminate].
  cbn. intros [= <-].
  destruct (Qgtb (jitter r) 20), (Qgtb (jitter r) 10), (Qgtb a 100),
    (Qgtb (packet_loss r) 5), (Qgtb (packet_loss r) 1); cbn; lia.
Qed.

Lemma score_check_pings fmt rs : forall t t',
  check_pings fmt rs t = Ok t' -> t_score t' = t_score t - pen_ping_list rs.
Proof.
  induction rs as [|r rs IH]; intros t t'; cbn.
  - intros [= <-]. lia.
  - destruct (check_ping fmt r t) as [t1|] eqn:E; [|discriminate].
    cbn. intros H. apply IH in H. apply score_check_ping in E. lia.
Qed.

Lemma score_check_speed fmt s t :
  t_score (check_speed fmt s t) = t_score t - pen_speed s.
Proof.
  unfold check_speed, pen_speed, check_upload, check_download.
  destruct s as [s|]; [|lia].
  destruct (Qltb (upload_mbps s) 5), (Qltb (download_mbps s) 10); cbn; lia.
Qed.

(** Step 10 of the design: the final score is [max(0, 100 - penalties)]. *)
Lemma assess_score from_score band fmt i m w ps sp h :
  assess_network_health from_score band fmt i m w ps sp = Ok h ->
  score h = Z.max 0 (100 - total_penalty i m w ps sp).
Proof.
  unfold assess_network_health, total_penalty.
  set (t3 := check_wifi band w _).
  assert (H3 : t_score t3 = 100 - pen_status i - pen_metrics m - pen_wifi w).
  { subst t3. rewrite score_check_wifi, score_check_metrics, score_check_status.
    reflexivity. }
  destruct ps as [[|r rs]|]; cbn [rbind pen_pings].
  - intros [= <-]. cbn [verdict score]. rewrite score_check_speed, H3.
    cbn [pen_ping_list]. f_equal. lia.
  - destruct (check_pings fmt (r :: rs) t3) as [t4|] eqn:E; [|discriminate].
    intros [= <-]. cbn [verdict score]. rewrite score_check_speed.
    apply score_check_pings in E. rewrite E, H3. f_equal. lia.
  - intros [= <-]. cbn [verdict score]. rewrite score_check_speed, H3.
    f_equal. lia.
Qed.

(** The assessment fails exactly on a ping record without an average
    round-trip time. *)
Lemma check_pings_raises fmt rs : forall t,
  (exists r, r ∈ rs /\ avg_rtt r = None) ->
  check_pings fmt rs t = Raise TypeError.
Proof.
  induction rs as [|r rs IH]; intros t [x [Hx Hnone]].
  - inversion Hx.
  - cbn. unfold check_ping, check_latency.
    destruct (avg_rtt r) as [a|] eqn:Ea; [|reflexivity].
    cbn. apply IH. exists x. split; [|assumption].
    apply elem_of_cons in Hx as [->|Hx]; [congruence|assumption].
Qed.

Lemma check_pings_returns fmt rs : forall t,
  Forall (fun r => avg_rtt r <> None) rs -> returns (check_pings fmt rs t).
Proof.
  induction rs as [|r rs IH]; intros t H; [exact I|].
  apply Forall_cons in H as [Hr H]. cbn.
  unfold check_ping, check_latency.
  destruct (avg_rtt r) as [a|]; [|congruence].
  cbn. apply IH. assumption.
Qed.

Lemma assess_raises_without_rtt from_score band fmt i m w rs sp r :
  r ∈ rs -> avg_rtt r = None ->
  assess_network_health from_score band fmt i m w (Some rs) sp = Raise TypeError.
Proof.
  intros Hr Hnone. unfold assess_network_health.
  destruct rs as [|r0 rs]; [inversion Hr|].
  rewrite check_pings_raises; [reflexivity|]. eauto.
Qed.

(** C3, at the input where it fails: with one unreachable ping result
    (no packets received, 100% loss, no round-trip times) the comparison
    [result.avg_rtt > 100] raises [TypeError]; no verdict is returned and the
    remaining signals are not scored. *)
Theorem assess_unreachable_ping_raises :
  assess active_interface (Some clean_metrics) (Some good_wifi)
    (Some [unreachable_ping]) (Some fast_link) = Raise TypeError.
Proof. vm_compute. reflexivity. Qed.

(** *** Penalties are non-negative and grow as a signal gets worse *)

Lemma pen_status_nonneg i : 0 <= pen_status i.
Proof. unfold pen_status. destruct (negb _); lia. Qed.

Lemma pen_metrics_nonneg m : 0 <= pen_metrics m.
Proof.
  unfold pen_metrics, pen_error_rate, pen_collisions.
  destruct m as [m|]; [|lia].
  repeat match goal with |- context [if ?c then _ else _] => destruct c end; lia.
Qed.

Lemma pen_wifi_nonneg w : 0 <= pen_wifi w.
Proof.
  unfold pen_wifi, pen_rssi, pen_snr. destruct w as [w|]; [|lia].
  repeat match goal with |- context [if ?c then _ else _] => destruct c end; lia.
Qed.

Lemma pen_ping_nonneg r : 0 <= pen_ping r.
Proof.
  unfold pen_ping, pen_loss, pen_latency, pen_jitter.
  destruct (avg_rtt r);
    repeat match goal with |- context [if ?c then _ else _] => destruct c end; lia.
Qed.

Lemma pen_pings_nonneg ps : 0 <= pen_pings ps.
Proof.
  destruct ps as [rs|]; cbn; [|lia].
  induction rs as [|r rs IH]; cbn; [lia|].
  pose proof (pen_ping_nonneg r). lia.
Qed.

Lemma pen_speed_nonneg s : 0 <= pen_speed s.
Proof.
  unfold pen_speed. destruct s as [s|]; [|lia].
  repeat match goal with |- context [if ?c then _ else _] => destruct c end; lia.
Qed.

Lemma total_penalty_nonneg i m w ps sp : 0 <= total_penalty i m w ps sp.
Proof.
  unfold total_penalty.
  pose proof (pen_status_nonneg i). pose proof (pen_metrics_nonneg m).
  pose proof (pen_wifi_nonneg w). pose proof (pen_pings_nonneg ps).
  pose proof (pen_speed_nonneg sp). lia.
Qed.

Lemma pen_rssi_mono r1 r2 : r1 <= r2 -> pen_rssi r2 <= pen_rssi r1.
Proof.
  intros H. unfold pen_rssi.
  destruct (Z.ltb_spec r1 (-80)), (Z.ltb_spec r1 (-70)), (Z.ltb_spec r1 (-60)),
    (Z.ltb_spec r2 (-80)), (Z.ltb_spec r2 (-70)), (Z.ltb_spec r2 (-60)); lia.
Qed.

Lemma pen_snr_mono s1 s2 : s1 <= s2 -> pen_snr s2 <= pen_snr s1.
Proof.
  intros H. unfold pen_snr.
  destruct (Z.ltb_spec s1 20), (Z.ltb_spec s1 30),
    (Z.ltb_spec s2 20), (Z.ltb_spec s2 30); lia.
Qed.

(** A two-tier penalty on [x > hi], else [x > lo]. *)
Lemma tier_gt_mono (a b hi lo : Q) (p q : Z) :
  (a <= b)%Q -> 0 <= q <= p ->
  (if Qgtb a hi then p else if Qgtb a lo then q else 0)
  <= (if Qgtb b hi then p else if Qgtb b lo then q else 0).
Proof.
  intros Hab Hpq.
  destruct (Qgtb a hi) eqn:Ea1.
  - rewrite (Qgtb_mono _ _ _ Hab Ea1). lia.
  - destruct (Qgtb a lo) eqn:Ea2.
    + rewrite (Qgtb_mono _ _ _ Hab Ea2). destruct (Qgtb b hi); lia.
    + destruct (Qgtb b hi), (Qgtb b lo); lia.
Qed.

Lemma flag_gt_mono (a b c : Q) (p : Z) :
  (a <= b)%Q -> 0 <= p ->
  (if Qgtb a c then p else 0) <= (if Qgtb b c then p else 0).
Proof.
  intros Hab Hp. destruct (Qgtb a c) eqn:Ea.
  - rewrite (Qgtb_mono _ _ _ Hab Ea). lia.
  - destruct (Qgtb b c); lia.
Qed.

Lemma flag_lt_mono (a b c : Q) (p : Z) :
  (a <= b)%Q -> 0 <= p ->
  (if Qltb b c then p else 0) <= (if Qltb a c then p else 0).
Proof.
  intros Hab Hp. destruct (Qltb b c) eqn:Eb.
  - rewrite (Qltb_mono _ _ _ Hab Eb). lia.
  - destruct (Qltb a c); lia.
Qed.

Lemma error_rate_mono m1 m2 :
  metrics_worse m1 m2 -> 0 < packets_in m1 + packets_out m1 ->
  (error_rate m2 <= error_rate m1)%Q.
Proof.
  intros (Hin & Hout & Herr & _) Hpos. unfold error_rate.
  rewrite <- Hin, <- Hout.
  apply Qmult_le_compat_r; [|discriminate].
  unfold Qdiv. apply Qmult_le_compat_r.
  - rewrite <- Zle_Qle. assumption.
  - apply Qlt_le_weak, Qinv_lt_0_compat.
    replace 0%Q with (inject_Z 0) by reflexivity. rewrite <- Zlt_Qlt. assumption.
Qed.

Lemma pen_metrics_mono m1 m2 :
  opt_rel metrics_worse m1 m2 -> pen_metrics m2 <= pen_metrics m1.
Proof.
  destruct m1 as [m1|], m2 as [m2|]; cbn; try tauto; [|lia].
  intros H. pose proof H as (Hin & Hout & _ & Hcoll).
  rewrite <- Hin, <- Hout.
  destruct (Z.ltb_spec 0 (packets_in m1 + packets_out m1)) as [Hpos|]; [|lia].
  pose proof (error_rate_mono _ _ H Hpos) as Hrate.
  unfold pen_error_rate, pen_collisions. rewrite <- Hin, <- Hout.
  pose proof (tier_gt_mono _ _ 1 (1 # 10) 20 10 Hrate ltac:(lia)).
  assert (Hc : (inject_Z (collisions m2) <= inject_Z (collisions m1))%Q)
    by (rewrite <- Zle_Qle; assumption).
  pose proof (flag_gt_mono _ _
    (inject_Z (packets_in m1 + packets_out m1) * (1 # 100)) 5 Hc ltac:(lia)).
  lia.
Qed.

Lemma pen_wifi_mono w1 w2 :
  opt_rel wifi_worse w1 w2 -> pen_wifi w2 <= pen_wifi w1.
Proof.
  destruct w1 as [w1|], w2 as [w2|]; cbn; try tauto; [|lia].
  intros [Hr Hs]. pose proof (pen_rssi_mono _ _ Hr). pose proof (pen_snr_mono _ _ Hs).
  lia.
Qed.

Lemma pen_ping_mono r1 r2 : ping_worse r1 r2 -> pen_ping r2 <= pen_ping r1.
Proof.
  intros (Hloss & Hrtt & Hjit). unfold pen_ping, pen_loss, pen_jitter, pen_latency.
  pose proof (tier_gt_mono _ _ 5 1 15 5 Hloss ltac:(lia)).
  pose proof (tier_gt_mono _ _ 20 10 10 5 Hjit ltac:(lia)).
  destruct (avg_rtt r1) as [a1|], (avg_rtt r2) as [a2|]; cbn in Hrtt; try tauto;
    [|lia].
  pose proof (flag_gt_mono _ _ 100 10 Hrtt ltac:(lia)). lia.
Qed.

Lemma pen_pings_mono ps1 ps2 :
  opt_rel (Forall2 ping_worse) ps1 ps2 -> pen_pings ps2 <= pen_pings ps1.
Proof.
  destruct ps1 as [rs1|], ps2 as [rs2|]; cbn; try tauto; [|lia].
  induction 1 as [|r1 r2 rs1 rs2 Hr _ IH]; cbn; [lia|].
  pose proof (pen_ping_mono _ _ Hr). lia.
Qed.

Lemma pen_speed_mono s1 s2 :
  opt_rel speed_worse s1 s2 -> pen_speed s2 <= pen_speed s1.
Proof.
  destruct s1 as [s1|], s2 as [s2|]; cbn; try tauto; [|lia].
  intros [Hd Hu].
  pose proof (flag_lt_mono _ _ 10 10 Hd ltac:(lia)).
  pose proof (flag_lt_mono _ _ 5 5 Hu ltac:(lia)). lia.
Qed.

Lemma total_penalty_mono i1 i2 m1 m2 w1 w2 ps1 ps2 sp1 sp2 :
  status i1 = status i2 ->
  opt_rel metrics_worse m1 m2 -> opt_rel wifi_worse w1 w2 ->
  opt_rel (Forall2 ping_worse) ps1 ps2 -> opt_rel speed_worse sp1 sp2 ->
  total_penalty i2 m2 w2 ps2 sp2 <= total_penalty i1 m1 w1 ps1 sp1.
Proof.
  intros Hi Hm Hw Hp Hs. unfold total_penalty, pen_status. rewrite Hi.
  pose proof (pen_metrics_mono _ _ Hm). pose proof (pen_wifi_mono _ _ Hw).
  pose proof (pen_pings_mono _ _ Hp). pose proof (pen_speed_mono _ _ Hs). lia.
Qed.

(** With other penalties adding up to 100 or more the score is clamped to 0
    at every RSSI: inactive interface (50), signal-to-noise ratio 10 (15),
    10% loss (15), 200 ms latency (10) and 30 ms jitter (10). The three
    scores are equal, not strictly decreasing. *)
Lemma rssi_steps_clamped :
  exists h65 h75 h85,
    assess inactive_interface None (Some (with_rssi noisy_wifi (-65)))
      (Some [bad_ping]) None = Ok h65
    /\ assess inactive_interface None (Some (with_rssi noisy_wifi (-75)))
      (Some [bad_ping]) None = Ok h75
    /\ assess inactive_interface None (Some (with_rssi noisy_wifi (-85)))
      (Some [bad_ping]) None = Ok h85
    /\ score h65 = 0 /\ score h75 = 0 /\ score h85 = 0
    /\ ~ (score h85 < score h75 /\ score h75 < score h65).
Proof.
  do 3 eexists.
  split; [vm_compute; reflexivity|].
  split; [vm_compute; reflexivity|].
  split; [vm_compute; reflexivity|].
  cbn. repeat split; lia.
Qed.

(** C5, as amended. For every formatter and every model of the missing
    record properties:
    - a returned score lies between 0 and 100, and is 0 exactly when the
      penalties add up to 100 or more;
    - if one input is no better than another in every signal (same
      interface status and traffic; at least as many errors and collisions;
      RSSI, signal-to-noise ratio and throughput at most as high; loss,
      latency and jitter at least as high), its score is not higher;
    - for RSSI -65, -75 and -85 with everything else fixed the scores do
      not increase, and they strictly decrease as long as the score at -75
      is above 0. *)
Theorem score_monotone_and_clamped from_score band fmt :
  (forall i m w ps sp h,
      assess_network_health from_score band fmt i m w ps sp = Ok h ->
      0 <= score h <= 100
      /\ (100 <= total_penalty i m w ps sp <-> score h = 0))
  /\ (forall i1 i2 m1 m2 w1 w2 ps1 ps2 sp1 sp2 h1 h2,
      status i1 = status i2 ->
      opt_rel metrics_worse m1 m2 ->
      opt_rel wifi_worse w1 w2 ->
      opt_rel (Forall2 ping_worse) ps1 ps2 ->
      opt_rel speed_worse sp1 sp2 ->
      assess_network_health from_score band fmt i1 m1 w1 ps1 sp1 = Ok h1 ->
      assess_network_health from_score band fmt i2 m2 w2 ps2 sp2 = Ok h2 ->
      score h1 <= score h2)
  /\ (forall i m w ps sp h65 h75 h85,
      assess_network_health from_score band fmt i m
        (Some (with_rssi w (-65))) ps sp = Ok h65 ->
      assess_network_health from_score band fmt i m
        (Some (with_rssi w (-75))) ps sp = Ok h75 ->
      assess_network_health from_score band fmt i m
        (Some (with_rssi w (-85))) ps sp = Ok h85 ->
      score h85 <= score h75 <= score h65
      /\ (0 < score h75 -> score h85 < score h75 < score h65)).
Proof.
  split; [|split].
  - intros i m w ps sp h H. apply assess_score in H.
    pose proof (total_penalty_nonneg i m w ps sp). lia.
  - intros i1 i2 m1 m2 w1 w2 ps1 ps2 sp1 sp2 h1 h2 Hi Hm Hw Hp Hs H1 H2.
    apply assess_score in H1, H2.
    pose proof (total_penalty_mono _ _ _ _ _ _ _ _ _ _ Hi Hm Hw Hp Hs). lia.
  - intros i m w ps sp h65 h75 h85 H65 H75 H85.
    apply assess_score in H65, H75, H85.
    unfold total_penalty, pen_wifi, with_rssi in *. cbn in *.
    pose proof (pen_status_nonneg i). pose proof (pen_metrics_nonneg m).
    pose proof (pen_pings_nonneg ps). pose proof (pen_speed_nonneg sp).
    unfold pen_snr in *. destruct (snr w <? 20), (snr w <? 30); lia.
Qed.

Lemma score_monotone_and_clamped_witness :
  exists h75 h65,
    assess active_interface (Some clean_metrics)
      (Some (with_rssi good_wifi (-75))) (Some [good_ping]) (Some fast_link) = Ok h75
    /\ assess active_interface (Some clean_metrics)
      (Some (with_rssi good_wifi (-65))) (Some [good_ping]) (Some fast_link) = Ok h65
    /\ score h75 <= score h65
    /\ (0 <= score h75 <= 100).
Proof.
  eexists. eexists.
  split; [vm_compute; reflexivity|].
  split; [vm_compute; reflexivity|].
  pose proof (score_monotone_and_clamped from_score_bands band_of_channel fmt_fixed)
    as (Hclamp & Hmono & _).
  split.
  - eapply (Hmono active_interface active_interface
              (Some clean_metrics) (Some clean_metrics)
              (Some (with_rssi good_wifi (-75))) (Some (with_rssi good_wifi (-65)))
              (Some [good_ping]) (Some [good_ping])
              (Some fast_link) (Some fast_link)).
    + reflexivity.
    + cbn. unfold metrics_worse. cbn. lia.
    + cbn. unfold wifi_worse. cbn. lia.
    + cbn. constructor; [|constructor].
      unfold ping_worse. cbn. repeat split; apply Qle_refl.
    + cbn. unfold speed_worse. split; apply Qle_refl.
    + vm_compute. reflexivity.
    + vm_compute. reflexivity.
  - apply (Hclamp active_interface (Some clean_metrics)
             (Some (with_rssi good_wifi (-75))) (Some [good_ping]) (Some fast_link)).
    vm_compute. reflexivity.
Defined.

(** At the usual baseline the three scores are 95, 90 and 80. *)
Example rssi_steps_baseline :
  option_map score (match assess active_interface (Some clean_metrics)
      (Some (with_rssi good_wifi (-65))) (Some [good_ping]) (Some fast_link)
    with Ok h => Some h | Raise _ => None end) = Some 95
  /\ option_map score (match assess active_interface (Some clean_metrics)
      (Some (with_rssi good_wifi (-75))) (Some [good_ping]) (Some fast_link)
    with Ok h => Some h | Raise _ => None end) = Some 90
  /\ option_map score (match assess active_interface (Some clean_metrics)
      (Some (with_rssi good_wifi (-85))) (Some [good_ping]) (Some fast_link)
    with Ok h => Some h | Raise _ => None end) = Some 80.
Proof. vm_compute. repeat split; reflexivity. Qed.

(** C8. An interface whose status is "inactive", every other input absent:
    one error, "Interface is not active", one recommendation, no warning,
    score 50. *)
Theorem assess_inactive_alone from_score band fmt (i : InterfaceInfo) :
  status i = "inactive" ->
  exists h,
    assess_network_health from_score band fmt i None None None None = Ok h
    /\ errors h = ["Interface is not active"]
    /\ length (recommendations h) = 1%nat
    /\ warnings h = []
    /\ score h = 50.
Proof.
  intros Hs. eexists. split.
  - unfold assess_network_health, check_status. rewrite Hs. cbn. reflexivity.
  - cbn. repeat split; reflexivity.
Qed.

Lemma assess_inactive_alone_witness :
  status inactive_interface = "inactive"
  /\ exists h,
      assess inactive_interface None None None None = Ok h
      /\ errors h = ["Interface is not active"]
      /\ length (recommendations h) = 1%nat
      /\ warnings h = []
      /\ score h = 50.
Proof.
  split; [reflexivity|].
  apply (assess_inactive_alone from_score_bands band_of_channel fmt_fixed
           inactive_interface).
  reflexivity.
Defined.

(** *** A bundle without any flaw *)

Lemma Qgtb_false a c : Qgtb a c = false <-> (a <= c)%Q.
Proof. unfold Qgtb. rewrite negb_false_iff. apply Qle_bool_iff. Qed.

Lemma error_rate_zero m :
  errors_in m = 0 -> errors_out m = 0 -> (error_rate m == 0)%Q.
Proof.
  intros H1 H2. unfold error_rate. rewrite H1, H2. cbn [Z.add].
  unfold Qdiv. change (inject_Z 0) with 0%Q. rewrite !Qmult_0_l. reflexivity.
Qed.

Lemma check_metrics_clean fmt m t :
  errors_in m = 0 -> errors_out m = 0 -> collisions m = 0 ->
  check_metrics fmt (Some m) t = t.
Proof.
  intros H1 H2 H3. unfold check_metrics.
  destruct (Z.ltb_spec 0 (packets_in m + packets_out m)) as [Hpos|]; [|reflexivity].
  pose proof (error_rate_zero m H1 H2) as Hz.
  unfold check_error_rate, check_collisions.
  assert (E1 : Qgtb (error_rate m) 1 = false)
    by (apply Qgtb_false; rewrite Hz; discriminate).
  assert (E2 : Qgtb (error_rate m) (1 # 10) = false)
    by (apply Qgtb_false; rewrite Hz; discriminate).
  rewrite E1, E2, H3.
  assert (E3 : Qgtb (inject_Z 0)
                 (inject_Z (packets_in m + packets_out m) * (1 # 100)) = false).
  { apply Qgtb_false. change (inject_Z 0) with 0%Q.
    apply Qmult_le_0_compat; [|discriminate].
    change 0%Q with (inject_Z 0). rewrite <- Zle_Qle. lia. }
  rewrite E3. reflexivity.
Qed.

Lemma check_wifi_good band w t :
  rssi w = -55 -> snr w = 40 -> channel_width w = 80 ->
  legacy_phy (phy_mode w) = false ->
  check_wifi band (Some w) t = t.
Proof.
  intros Hr Hs Hc Hp.
  unfold check_wifi, check_width, check_phy, check_snr, check_rssi, narrow_channel.
  rewrite Hr, Hs, Hc, Hp. reflexivity.
Qed.

Lemma check_ping_good fmt r t :
  packet_loss r = 0%Q -> avg_rtt r = Some 20%Q -> jitter r = 2%Q ->
  check_ping fmt r t = Ok t.
Proof.
  intros Hl Ha Hj.
  unfold check_ping, check_latency, check_loss, check_jitter.
  rewrite Hl, Ha, Hj. reflexivity.
Qed.

Lemma check_speed_good fmt s t :
  download_mbps s = 100%Q -> upload_mbps s = 20%Q ->
  check_speed fmt (Some s) t = t.
Proof.
  intros Hd Hu. unfold check_speed, check_upload, check_download.
  rewrite Hd, Hu. reflexivity.
Qed.

(** The stated givens of C7 hold of these two inputs. In the first the
    wireless record carries the PHY label "802.11g", and the verdict has a
    warning; in the second the link counters show 50 collisions in 1800
    packets, and the verdict has a warning and score 95. *)
Lemma healthy_givens_not_enough :
  status active_interface = "active"
  /\ errors_in clean_metrics = 0 /\ errors_out clean_metrics = 0
  /\ errors_in colliding_metrics = 0 /\ errors_out colliding_metrics = 0
  /\ rssi legacy_wifi = -55 /\ snr legacy_wifi = 40
  /\ channel_width legacy_wifi = 80 /\ band_of_channel legacy_wifi = "5GHz"
  /\ rssi good_wifi = -55 /\ snr good_wifi = 40
  /\ channel_width good_wifi = 80 /\ band_of_channel good_wifi = "5GHz"
  /\ packet_loss good_ping = 0%Q /\ avg_rtt good_ping = Some 20%Q
  /\ jitter good_ping = 2%Q
  /\ download_mbps fast_link = 100%Q /\ upload_mbps fast_link = 20%Q
  /\ (exists h,
        assess active_interface (Some clean_metrics) (Some legacy_wifi)
          (Some [good_ping]) (Some fast_link) = Ok h
        /\ warnings h = ["Using older WiFi standard: 802.11g"]
        /\ warnings h <> [])
  /\ (exists h,
        assess active_interface (Some colliding_metrics) (Some good_wifi)
          (Some [good_ping]) (Some fast_link) = Ok h
        /\ warnings h = ["High collision rate detected"]
        /\ warnings h <> []
        /\ score h = 95
        /\ score h <> 100).
Proof.
  repeat (split; [reflexivity|]).
  split.
  - eexists. split; [vm_compute; reflexivity|].
    split; [reflexivity|discriminate].
  - eexists. split; [vm_compute; reflexivity|].
    split; [reflexivity|]. split; [discriminate|].
    split; [reflexivity|discriminate].
Qed.

(** C7, as amended. Interface status "active"; metrics with zero errors
    and zero collisions and a packet total that converts to a float (it is
    below 2^1024 - 2^970); wireless info with RSSI -55, SNR 40, channel width
    80 on the 5 GHz band and a PHY label without the 802.11b / 802.11g
    marker; one ping target with 0% loss, 20 ms average round-trip time and
    2 ms jitter; a speed test of 100 / 20 Mbps: no warning, no error, score
    100. *)
Theorem assess_healthy from_score band fmt i m w r s :
  status i = "active" ->
  errors_in m = 0 -> errors_out m = 0 -> collisions m = 0 ->
  packets_in m + packets_out m < float_limit ->
  rssi w = -55 -> snr w = 40 -> channel_width w = 80 -> band w = "5GHz" ->
  legacy_phy (phy_mode w) = false ->
  packet_loss r = 0%Q -> avg_rtt r = Some 20%Q -> jitter r = 2%Q ->
  download_mbps s = 100%Q -> upload_mbps s = 20%Q ->
  exists h,
    assess_network_health from_score band fmt i (Some m) (Some w) (Some [r]) (Some s)
    = Ok h
    /\ warnings h = [] /\ errors h = [] /\ score h = 100.
Proof.
  intros Hi He1 He2 Hc _ Hr Hs Hw Hb Hp Hl Ha Hj Hd Hu.
  eexists. split.
  - unfold assess_network_health, check_status. rewrite Hi. cbn [String.eqb negb].
    change (("active" =? "active")%string) with true. cbn [negb].
    rewrite (check_metrics_clean fmt m _ He1 He2 Hc).
    rewrite (check_wifi_good band w _ Hr Hs Hw Hp).
    cbn [check_pings]. rewrite (check_ping_good fmt r _ Hl Ha Hj).
    cbn [rbind]. rewrite (check_speed_good fmt s _ Hd Hu).
    reflexivity.
  - cbn. repeat split; reflexivity.
Qed.

Lemma assess_healthy_witness :
  exists h,
    assess active_interface (Some clean_metrics) (Some good_wifi)
      (Some [good_ping]) (Some fast_link) = Ok h
    /\ warnings h = [] /\ errors h = [] /\ score h = 100.
Proof.
  apply (assess_healthy from_score_bands band_of_channel fmt_fixed
           active_interface clean_metrics good_wifi good_ping fast_link);
    vm_compute; reflexivity.
Defined.

(** ** Wireless association *)

(** C6. Whenever [parse_airport_info] returns a record, its [rssi] and
    [noise] are the integers extracted under [agrCtlRSSI] and
    [agrCtlNoise], and its [snr] is their difference; nothing else of the
    text enters it. *)
Theorem parse_airport_info_snr output w :
  parse_airport_info output = Ok (Some w) ->
  extract_int output "agrCtlRSSI" 0 = Ok (rssi w)
  /\ extract_int output "agrCtlNoise" 0 = Ok (noise w)
  /\ snr w = rssi w - noise w.
Proof.
  unfold parse_airport_info.
  destruct (negb (nonempty output) || Py.contains "AirPort: Off" output);
    [discriminate|].
  destruct (negb (nonempty (extract_str output "SSID"))); [discriminate|].
  destruct (extract_int output "agrCtlRSSI" 0) as [r|]; [|discriminate].
  destruct (extract_int output "agrCtlNoise" 0) as [n|]; [|discriminate].
  cbn [rbind].
  destruct (extract_int output "channel" 0); [|discriminate].
  destruct (extract_int output "lastTxRate" 0); [|discriminate].
  destruct (extract_int output "MCS" (-1)); [|discriminate].
  destruct (extract_int output "channelWidth" 0); [|discriminate].
  cbn [rbind]. intros [= <-]. cbn. auto.
Qed.

(** The sample text carries a line [snr: 7]; the record says 40. *)
Lemma parse_airport_info_snr_witness :
  exists w,
    parse_airport_info airport_sample = Ok (Some w)
    /\ rssi w = -55 /\ noise w = -95 /\ snr w = 40
    /\ snr w = rssi w - noise w.
Proof.
  eexists. split; [vm_compute; reflexivity|].
  split; [reflexivity|]. split; [reflexivity|]. split; [reflexivity|].
  eapply (parse_airport_info_snr airport_sample). vm_compute. reflexivity.
Defined.

(** ** Listings *)

Lemma connection_of_line_returns line : returns (connection_of_line line).
Proof.
  unfold connection_of_line.
  destruct (Py.split_ws line) as [|p0 [|p1 [|p2 [|p3 [|p4 [|p5 [|p6 [|p7 [|p8 rest]]]]]]]]];
    try exact I.
  destruct rest; exact I.
Qed.

Lemma connections_loop_returns lines : exists cs, connections_loop lines = Ok cs.
Proof.
  induction lines as [|line rest [cs IH]]; cbn.
  - eauto.
  - pose proof (connection_of_line_returns line) as H.
    destruct (connection_of_line line) as [c|]; [|destruct H].
    cbn. rewrite IH. cbn. eauto.
Qed.

Example active_connections_truncated :
  length (get_active_connections (Some (lsof_listing 60, "", 0))) = 50%nat.
Proof. vm_compute. reflexivity. Qed.

(** The connections listing is capped: it returns the first 50 of the rows
    with 9 tokens or more and drops the rest without an exception. The ARP
    listing returns one entry for every match of its pattern. *)
Lemma listings_size :
  (forall lsof, (length (get_active_connections lsof) <= 50)%nat)
  /\ (forall stdout stderr code,
        exists rows,
          connections_loop (tail (Py.split LF (Py.strip stdout))) = Ok rows
          /\ get_active_connections (Some (stdout, stderr, code)) = take 50 rows)
  /\ (forall stdout stderr code,
        length (get_arp_cache (Some (stdout, stderr, code)))
        = length (finditer re_arp stdout)).
Proof.
  split; [|split].
  - intros [[[stdout stderr] code]|]; cbn; [|lia].
    destruct (connections_loop _); cbn; [|lia].
    rewrite length_take. lia.
  - intros stdout stderr code. cbn.
    destruct (connections_loop_returns (tail (Py.split LF (Py.strip stdout))))
      as [rows H].
    exists rows. rewrite H. auto.
  - intros stdout stderr code. cbn. apply length_map.
Qed.

(** C4, at the input where it fails: [get_arp_cache] has no counterpart of
    [connections[:50]]; for an [arp -a] listing of 51 neighbours it returns
    51 entries, so the bound of 50 does not hold of it. *)
Theorem arp_cache_exceeds_cap :
  length (get_arp_cache (Some (arp_listing 51, "", 0))) = 51%nat
  /\ ~ (forall arp, length (get_arp_cache arp) <= 50)%nat.
Proof.
  assert (H : length (get_arp_cache (Some (arp_listing 51, "", 0))) = 51%nat)
    by (vm_compute; reflexivity).
  split; [exact H|].
  intros Hcap. specialize (Hcap (Some (arp_listing 51, "", 0))). lia.
Qed.

(** ** Hardware ports *)

Lemma startswith_app p : forall s,
  Py.startswith p s = true -> exists r, s = p ++ r.
Proof.
  induction p as [|a p IH]; intros s H; cbn in H.
  - exists s. reflexivity.
  - destruct s as [|b s]; [discriminate|].
    apply andb_true_iff in H as [Hab Hp].
    apply Ascii.eqb_eq in Hab. subst b.
    destruct (IH _ Hp) as [r ->]. exists r. reflexivity.
Qed.

Lemma after_colon_port line :
  Py.startswith "Hardware Port:" line = true ->
  after_colon line = Ok (value_of line).
Proof. intros H. apply startswith_app in H as [r ->]. reflexivity. Qed.

Lemma after_colon_device line :
  Py.startswith "Device:" line = true ->
  after_colon line = Ok (value_of line).
Proof. intros H. apply startswith_app in H as [r ->]. reflexivity. Qed.

Lemma omap_cons {A B} (f : A -> option B) x l :
  omap f (x :: l) = match f x with Some y => y :: omap f l | None => omap f l end.
Proof. reflexivity. Qed.

Lemma assignment_at_here pending pre e tl :
  assignment_at pending (pre ++ e :: tl)%list (length pre)
  = match e with
    | DeviceLine d =>
        match pending (rev pre) with
        | Some (_, l) => Some (d, l)
        | None => None
        end
    | _ => None
    end.
Proof.
  unfold assignment_at.
  rewrite lookup_app_r by lia. rewrite Nat.sub_diag. cbn [lookup list_lookup].
  rewrite take_app_length. reflexivity.
Qed.

(** The loop adds, line after line, what [assignment_at] says; [pre] are
    the lines already passed. *)
Lemma port_loop_spec lines : forall pre current_port mapping,
  usable current_port = option_map snd (pending_port (rev pre)) ->
  port_loop lines current_port mapping
  = Ok (fold_left store
          (omap (assignment_at pending_port (pre ++ map classify lines)%list)
             (seq (length pre) (length lines)))
          mapping).
Proof.
  induction lines as [|line0 rest IH]; intros pre cur m Hcur; [reflexivity|].
  cbn [port_loop map length seq]. rewrite omap_cons, assignment_at_here.
  assert (IH' : forall cur' m',
    usable cur' = option_map snd (pending_port (classify line0 :: rev pre)) ->
    port_loop rest cur' m'
    = Ok (fold_left store
            (omap (assignment_at pending_port
                     (pre ++ classify line0 :: map classify rest)%list)
               (seq (S (length pre)) (length rest))) m')).
  { intros cur' m' H. specialize (IH (pre ++ [classify line0])%list cur' m').
    rewrite rev_app_distr, length_app, <- app_assoc, Nat.add_1_r in IH.
    apply IH. exact H. }
  clear IH. revert IH'. unfold classify.
  destruct (Py.startswith "Hardware Port:" (Py.strip line0)) eqn:Eport.
  - intros IH'. rewrite (after_colon_port _ Eport). cbn [rbind].
    apply IH'. cbn. destruct (nonempty (value_of (Py.strip line0))); reflexivity.
  - destruct (Py.startswith "Device:" (Py.strip line0)) eqn:Edev; intros IH'.
    + rewrite (after_colon_device _ Edev).
      destruct cur as [p|]; cbn [usable] in Hcur.
      * destruct (nonempty p) eqn:Ep; cbn [andb rbind].
        -- destruct (pending_port (rev pre)) as [[i l]|]; [|discriminate].
           cbn in Hcur. injection Hcur as ->. apply IH'. reflexivity.
        -- destruct (pending_port (rev pre)) as [[i l]|]; [discriminate|].
           apply IH'. cbn. rewrite Ep. reflexivity.
      * destruct (pending_port (rev pre)) as [[i l]|]; [discriminate|].
        apply IH'. reflexivity.
    + specialize (IH' cur m Hcur). destruct cur as [p|]; exact IH'.
Qed.

Lemma parse_hardware_port_mapping_eq output :
  parse_hardware_port_mapping output = Ok (port_mapping_by pending_port output).
Proof.
  unfold parse_hardware_port_mapping, port_mapping_by, assignments, entries.
  rewrite length_map. apply (port_loop_spec _ [] None ∅). reflexivity.
Qed.

(** A pair is in the list of assignments exactly when some [Device:] line
    receives that label. *)
Lemma assignments_spec es d l :
  (d, l) ∈ assignments pending_port es
  <-> exists j i, es !! j = Some (DeviceLine d)
                  /\ pending_port (rev (take j es)) = Some (i, l).
Proof.
  unfold assignments. rewrite list_elem_of_omap. split.
  - intros (j & _ & Hj). unfold assignment_at in Hj.
    destruct (es !! j) as [[p|d'|]|] eqn:E; try discriminate.
    destruct (pending_port (rev (take j es))) as [[i l']|] eqn:Ep; [|discriminate].
    injection Hj as -> ->. eauto.
  - intros (j & i & E & Ep). exists j. split.
    + apply elem_of_seq. apply lookup_lt_Some in E. lia.
    + unfold assignment_at. rewrite E, Ep. reflexivity.
Qed.

Lemma pending_port_spec before_rev : forall i l,
  pending_port before_rev = Some (i, l) ->
  (i < length before_rev)%nat
  /\ rev before_rev !! i = Some (PortLine l)
  /\ l <> ""
  /\ forall k, (i < k < length before_rev)%nat -> rev before_rev !! k = Some OtherLine.
Proof.
  induction before_rev as [|e r IH]; intros i l H; [discriminate|].
  cbn [rev length]. destruct e as [p|d|]; cbn in H.
  - destruct (nonempty p) eqn:Ep; [|discriminate].
    injection H as <- <-.
    split; [lia|]. split.
    + rewrite lookup_app_r by (rewrite length_rev; lia).
      rewrite length_rev, Nat.sub_diag. reflexivity.
    + split; [intros ->; discriminate|]. intros k Hk. lia.
  - discriminate.
  - destruct (IH _ _ H) as (Hi & Hl & Hne & Hbetween).
    split; [lia|]. split.
    + rewrite lookup_app_l by (rewrite length_rev; lia). exact Hl.
    + split; [exact Hne|]. intros k Hk.
      destruct (decide (k = length r)) as [->|Hneq].
      * rewrite lookup_app_r by (rewrite length_rev; lia).
        rewrite length_rev, Nat.sub_diag. reflexivity.
      * rewrite lookup_app_l by (rewrite length_rev; lia).
        apply Hbetween. lia.
Qed.

Lemma assigned_spec es j i :
  assigned es j i ->
  (i < j)%nat
  /\ (exists l, es !! i = Some (PortLine l) /\ l <> "")
  /\ forall k, (i < k < j)%nat -> es !! k = Some OtherLine.
Proof.
  intros (d & l & Hj & Hp).
  assert (Hlen : length (take j es) = j).
  { rewrite length_take. apply lookup_lt_Some in Hj. lia. }
  apply pending_port_spec in Hp. rewrite rev_involutive, length_rev, Hlen in Hp.
  destruct Hp as (Hi & Hl & Hne & Hbetween).
  split; [exact Hi|]. split.
  - exists l. rewrite lookup_take_lt in Hl by lia. auto.
  - intros k Hk. specialize (Hbetween k Hk).
    rewrite lookup_take_lt in Hbetween by lia. exact Hbetween.
Qed.

Lemma assigned_unique es i j j' :
  assigned es j i -> assigned es j' i -> j = j'.
Proof.
  intros H H'.
  pose proof (assigned_spec _ _ _ H) as (Hij & _ & Hb).
  pose proof (assigned_spec _ _ _ H') as (Hij' & _ & Hb').
  destruct H as (d & l & Hd & _). destruct H' as (d' & l' & Hd' & _).
  destruct (Nat.lt_trichotomy j j') as [Hlt|[Heq|Hgt]]; [|exact Heq|].
  - rewrite (Hb' j) in Hd by lia. discriminate.
  - rewrite (Hb j') in Hd' by lia. discriminate.
Qed.

(** As worded, the claim gives [en0] the empty label of the line before
    it; the code tests [and current_port], which is false for [""], and
    leaves [en0] out. *)
Lemma empty_label_not_assigned :
  entries ports_empty_label = [PortLine ""; DeviceLine "en0"]
  /\ claimed_pending (rev (take 1 (entries ports_empty_label))) = Some (0%nat, "")
  /\ port_mapping_by claimed_pending ports_empty_label !! "en0" = Some ""
  /\ exists m,
      parse_hardware_port_mapping ports_empty_label = Ok m
      /\ m !! "en0" = None.
Proof.
  split; [vm_compute; reflexivity|].
  split; [vm_compute; reflexivity|].
  split; [vm_compute; reflexivity|].
  eexists. split; [apply parse_hardware_port_mapping_eq|].
  vm_compute. reflexivity.
Qed.

(** C9, as amended. [parse_hardware_port_mapping] never raises, and its
    mapping is built from the [Device:] lines in order: such a line adds its
    device with the label of the nearest [Hardware Port:] line before it,
    provided that label is not empty and no [Device:] line lies between
    the two; otherwise it adds nothing. A [Hardware Port:] line gives its
    label to at most one [Device:] line, and only lines of neither kind
    separate the two. *)
Theorem parse_hardware_port_mapping_spec :
  (forall output,
      parse_hardware_port_mapping output = Ok (port_mapping_by pending_port output))
  /\ (forall es d l,
        (d, l) ∈ assignments pending_port es
        <-> exists j i, es !! j = Some (DeviceLine d)
                        /\ pending_port (rev (take j es)) = Some (i, l))
  /\ (forall es i j j', assigned es j i -> assigned es j' i -> j = j')
  /\ (forall es i j,
        assigned es j i ->
        (i < j)%nat
        /\ (exists l, es !! i = Some (PortLine l) /\ l <> "")
        /\ forall k, (i < k < j)%nat -> es !! k = Some OtherLine).
Proof.
  split; [|split; [|split]].
  - exact parse_hardware_port_mapping_eq.
  - exact assignments_spec.
  - exact assigned_unique.
  - intros es i j. apply assigned_spec.
Qed.

Lemma parse_hardware_port_mapping_spec_witness :
  parse_hardware_port_mapping ports_sample
  = Ok (<["bridge0" := "Thunderbolt Bridge"]> (<["en0" := "Wi-Fi"]> ∅))
  /\ assigned (entries ports_sample) 1 0
  /\ (forall j', assigned (entries ports_sample) j' 0 -> 1%nat = j').
Proof.
  pose proof parse_hardware_port_mapping_spec as (Hparse & _ & Huniq & _).
  assert (Ha : assigned (entries ports_sample) 1 0).
  { exists "en0", "Wi-Fi". split; vm_compute; reflexivity. }
  split; [|split].
  - rewrite Hparse. vm_compute. reflexivity.
  - exact Ha.
  - intros j' Hj'. exact (Huniq _ _ _ _ Ha Hj').
Defined.

(** ** Link counters *)

Lemma int_at_token parts i :
  (i < length parts)%nat -> int_at parts i = Py.int (token parts i).
Proof.
  intros H. unfold int_at, Py.index, token.
  destruct (lookup_lt_is_Some_2 parts i H) as [x ->]. reflexivity.
Qed.

Lemma int_cases s :
  (is_int s = true /\ Py.int s = Ok (int_value s))
  \/ (is_int s = false /\ Py.int s = Raise ValueError).
Proof.
  unfold is_int, int_value.
  destruct (Py.int s) as [z|e] eqn:E; [left; auto|right].
  apply int_base_raises_only_ValueError in E. subst. auto.
Qed.

(** The constructor call of a row succeeds exactly on an accepted row, and
    otherwise raises the [ValueError] that the loop passes over. *)
Lemma metrics_of_row_spec interface_name line :
  Py.startswith interface_name line = true ->
  (10 <= length (Py.split_ws line))%nat ->
  metrics_of_row interface_name (Py.split_ws line)
  = if row_accepted interface_name line
    then Ok (row_metrics interface_name line)
    else Raise ValueError.
Proof.
  intros Hstart Hlen. unfold metrics_of_row, row_accepted, row_metrics.
  set (parts := Py.split_ws line) in *.
  rewrite Hstart. rewrite (proj2 (Nat.leb_le _ _) Hlen). cbn [andb forallb].
  rewrite !int_at_token by lia.
  repeat match goal with
         | |- context [rbind (Py.int (token parts ?i))] =>
             let Hb := fresh "Hb" in
             let He := fresh "He" in
             destruct (int_cases (token parts i)) as [[Hb He]|[Hb He]];
             rewrite He, Hb; cbn [rbind andb]; [|reflexivity]
         end.
  destruct (Nat.ltb_spec 10 (length parts)) as [Hgt|Hle].
  - rewrite (proj2 (Nat.leb_gt _ _) Hgt). cbn [orb].
    rewrite int_at_token by lia.
    destruct (int_cases (token parts 10)) as [[Hc Hv]|[Hc Hv]];
      rewrite Hv, Hc; reflexivity.
  - rewrite (proj2 (Nat.leb_le _ _) Hle). reflexivity.
Qed.

Lemma row_accepted_inv interface_name line :
  row_accepted interface_name line = true ->
  Py.startswith interface_name line = true
  /\ (10 <= length (Py.split_ws line))%nat.
Proof.
  unfold row_accepted. rewrite !andb_true_iff, Nat.leb_le. tauto.
Qed.

Lemma netstat_loop_spec interface_name lines :
  netstat_loop interface_name lines
  = Ok (option_map (row_metrics interface_name)
          (List.find (row_accepted interface_name) lines)).
Proof.
  induction lines as [|line rest IH]; [reflexivity|].
  cbn [netstat_loop List.find].
  destruct (Py.startswith interface_name line) eqn:Hstart.
  - destruct (Nat.leb_spec 10 (length (Py.split_ws line))) as [Hlen|Hlen].
    + rewrite (metrics_of_row_spec _ _ Hstart Hlen).
      destruct (row_accepted interface_name line); [reflexivity|exact IH].
    + destruct (row_accepted interface_name line) eqn:Hacc; [|exact IH].
      apply row_accepted_inv in Hacc. lia.
  - destruct (row_accepted interface_name line) eqn:Hacc; [|exact IH].
    apply row_accepted_inv in Hacc as [Hacc _]. congruence.
Qed.

(** C10. [parse_netstat_interface] never raises. It returns the metrics of
    the first line of the stripped output that starts with the interface
    name, has at least 10 tokens and whose counters are integers, and
    [None] when there is no such line; a row of exactly 10 tokens gets 0
    collisions. *)
Theorem parse_netstat_interface_spec :
  (forall output interface_name,
      parse_netstat_interface output interface_name
      = Ok (option_map (row_metrics interface_name)
              (List.find (row_accepted interface_name) (netstat_lines output))))
  /\ (forall interface_name line,
        length (Py.split_ws line) = 10%nat ->
        collisions (row_metrics interface_name line) = 0)
  /\ (forall output interface_name,
        List.find (row_accepted interface_name) (netstat_lines output) = None ->
        parse_netstat_interface output interface_name = Ok None).
Proof.
  split; [|split].
  - intros output interface_name. apply netstat_loop_spec.
  - intros interface_name line H. unfold row_metrics. rewrite H. reflexivity.
  - intros output interface_name H. unfold parse_netstat_interface.
    rewrite netstat_loop_spec. fold (netstat_lines output). rewrite H. reflexivity.
Qed.

Lemma parse_netstat_interface_spec_witness :
  (exists m,
      parse_netstat_interface netstat_sample "en0" = Ok (Some m)
      /\ packets_in m = 1000 /\ packets_out m = 800 /\ collisions m = 0)
  /\ parse_netstat_interface netstat_sample "en7" = Ok None.
Proof.
  pose proof parse_netstat_interface_spec as (Hparse & Hcoll & Hnone).
  split.
  - eexists. split; [rewrite Hparse; vm_compute; reflexivity|].
    split; [reflexivity|]. split; [reflexivity|].
    apply (Hcoll "en0"
             "en0   1500  <Link#4>    a4:83:e7:12:34:56  1000     0    5000     800     0    4000").
    vm_compute. reflexivity.
  - apply Hnone. vm_compute. reflexivity.
Defined.

(** * Further properties *)

(** ** Strings *)

Lemma app_cons c (a b : string) : String c a ++ b = String c (a ++ b).
Proof. reflexivity. Qed.

Lemma app_nil (b : string) : "" ++ b = b.
Proof. reflexivity. Qed.

Lemma len_app a b : Py.len (a ++ b) = (Py.len a + Py.len b)%nat.
Proof.
  induction a as [|c a IH]; [reflexivity|].
  rewrite app_cons. cbn [Py.len]. rewrite IH. reflexivity.
Qed.

Lemma take_len_app a b : Py.take (Py.len a) (a ++ b) = a.
Proof.
  induction a as [|c a IH]; [destruct b; reflexivity|].
  rewrite app_cons. cbn [Py.len Py.take]. rewrite IH. reflexivity.
Qed.

Lemma take_diff a rest : Py.take (Py.len (a ++ rest) - Py.len rest) (a ++ rest) = a.
Proof.
  rewrite len_app. replace (Py.len a + Py.len rest - Py.len rest)%nat with (Py.len a) by lia.
  apply take_len_app.
Qed.

Lemma str_app_assoc (a b c : string) : (a ++ b) ++ c = a ++ b ++ c.
Proof.
  induction a as [|x a IH]; [reflexivity|].
  rewrite !app_cons, IH. reflexivity.
Qed.

Lemma str_all_app cls a b :
  str_all cls (a ++ b) = str_all cls a && str_all cls b.
Proof.
  induction a as [|c a IH]; [reflexivity|].
  rewrite app_cons. cbn [str_all]. rewrite IH, andb_assoc. reflexivity.
Qed.

Lemma str_all_impl (p q : ascii -> bool) s :
  (forall c, p c = true -> q c = true) -> str_all p s = true -> str_all q s = true.
Proof.
  intros Hpq. induction s as [|c s IH]; cbn; [reflexivity|].
  rewrite !andb_true_iff. intros [Hc Hs]. auto.
Qed.

Lemma startswith_refl_app p r : Py.startswith p (p ++ r) = true.
Proof.
  induction p as [|c p IH]; [reflexivity|].
  rewrite app_cons. cbn [Py.startswith].
  unfold Py.chr_eqb. rewrite Ascii.eqb_refl. exact IH.
Qed.

(** ** What a match tells about the text *)

Lemma lit_inv {A} fold p : forall s (k : string -> option A) x,
  lit fold p s k = Some x ->
  exists rest, k rest = Some x /\ (fold = false -> s = p ++ rest).
Proof.
  induction p as [|a p IH]; intros s k x H; cbn in H.
  - exists s. auto.
  - destruct s as [|b s]; [discriminate|].
    destruct fold.
    + destruct (Py.chr_eqb (Py.to_lower a) (Py.to_lower b)); [|discriminate].
      destruct (IH _ _ _ H) as (rest & Hk & _). exists rest. split; [exact Hk|discriminate].
    + destruct (Py.chr_eqb a b) eqn:E; [|discriminate].
      apply Ascii.eqb_eq in E. subst b.
      destruct (IH _ _ _ H) as (rest & Hk & Hs). exists rest. split; [exact Hk|].
      intros _. rewrite app_cons. f_equal. apply Hs. reflexivity.
Qed.

Lemma star_inv {A} cls : forall s (k : string -> option A) x,
  star cls s k = Some x ->
  exists pre rest, s = pre ++ rest /\ str_all cls pre = true /\ k rest = Some x.
Proof.
  induction s as [|c s IH]; intros k x H; cbn in H.
  - exists "", "". auto.
  - destruct (cls c) eqn:Ec.
    + destruct (star cls s k) as [y|] eqn:Es.
      * injection H as ->. destruct (IH _ _ Es) as (pre & rest & -> & Hp & Hk).
        exists (String c pre), rest. cbn [str_all]. rewrite Ec, Hp. auto.
      * exists "", (String c s). auto.
    + exists "", (String c s). auto.
Qed.

Lemma plus_inv {A} cls s (k : string -> option A) x :
  plus cls s k = Some x ->
  exists pre rest, s = pre ++ rest /\ str_all cls pre = true /\ pre <> ""
                   /\ k rest = Some x.
Proof.
  unfold plus. destruct s as [|c s]; [discriminate|].
  destruct (cls c) eqn:Ec; [|discriminate]. intros H.
  destruct (star_inv _ _ _ _ H) as (pre & rest & -> & Hp & Hk).
  exists (String c pre), rest. cbn [str_all]. rewrite Ec, Hp.
  repeat split; auto; discriminate.
Qed.

Lemma search_inv r : forall s m,
  search r s = Some m -> exists pre s0, s = pre ++ s0 /\ match_here r s0 = Some m.
Proof.
  induction s as [|c s IH]; intros m H; cbn in H.
  - destruct (match_here r "") eqn:E; [|discriminate]. injection H as ->.
    exists "", "". auto.
  - destruct (match_here r (String c s)) eqn:E.
    + injection H as ->. exists "", (String c s). auto.
    + destruct (IH _ H) as (pre & s0 & -> & Hm). exists (String c pre), s0. auto.
Qed.

(** Peels one construct off a match that is known to succeed. *)
Ltac peel H :=
  let pre := fresh "pre" in
  let rest := fresh "rest" in
  let Hp := fresh "Hp" in
  let Hne := fresh "Hne" in
  let Hs := fresh "Hs" in
  first
    [ apply plus_inv in H as (pre & rest & Hs & Hp & Hne & H)
    | apply star_inv in H as (pre & rest & Hs & Hp & H)
    | apply lit_inv in H as (rest & H & Hs); specialize (Hs eq_refl) ];
  cbn beta in H.

(** ** parse_ifconfig: when it finds the interface *)

Lemma block_lines_nil interface_name lines :
  block_lines interface_name false lines = []
  <-> Forall (fun line => Py.startswith (interface_name ++ ":") line = false) lines.
Proof.
  induction lines as [|line rest IH]; cbn.
  - split; auto.
  - destruct (Py.startswith (interface_name ++ ":") line) eqn:E.
    + split; [discriminate|]. intros H. apply Forall_cons in H as [H _]. congruence.
    + rewrite IH. split; [auto using Forall_cons_2|].
      intros H. apply Forall_cons in H as [_ H]. exact H.
Qed.

Lemma hex_to_dotted_raises_only_ValueError h e :
  hex_to_dotted h = Raise e -> e = ValueError.
Proof.
  unfold hex_to_dotted. cbn [mask_bytes].
  repeat match goal with
         | |- context [Py.int_base 16 ?x] =>
             let E := fresh "E" in
             destruct (Py.int_base 16 x) as [?|?] eqn:E;
             [|apply int_base_raises_only_ValueError in E; subst]
         end; cbn; congruence.
Qed.

(** X1. [parse_ifconfig] answers [None] exactly when no line of the output
    begins with the interface name and a colon. Otherwise it returns a
    record that carries the requested name and an empty hardware port, or
    it raises, and then the exception is a [ValueError]. *)
Theorem parse_ifconfig_found output interface_name :
  (parse_ifconfig output interface_name = Ok None
   <-> Forall (fun line => Py.startswith (interface_name ++ ":") line = false)
         (Py.split LF output))
  /\ (forall info, parse_ifconfig output interface_name = Ok (Some info) ->
        name info = interface_name /\ hardware_port info = "")
  /\ (forall e, parse_ifconfig output interface_name = Raise e -> e = ValueError).
Proof.
  rewrite <- block_lines_nil. unfold parse_ifconfig.
  destruct (block_lines interface_name false (Py.split LF output)) as [|l bl] eqn:Eb.
  - split; [tauto|]. split; discriminate.
  - set (block := Py.join nl (l :: bl)).
    destruct (search re_inet block) as [m|].
    + destruct (hex_to_dotted (group m 2)) as [mask|e0] eqn:Eh; cbn [rbind].
      * destruct (search re_mtu block) as [m'|].
        -- destruct (Py.int (group m' 1)) as [n|e1] eqn:Ei; cbn [rbind].
           ++ split; [split; discriminate|]. split; [|discriminate].
              intros info [= <-]. auto.
           ++ apply int_base_raises_only_ValueError in Ei. subst.
              split; [split; discriminate|]. split; [discriminate|].
              intros e [= <-]. reflexivity.
        -- cbn [rbind]. split; [split; discriminate|]. split; [|discriminate].
           intros info [= <-]. auto.
      * apply hex_to_dotted_raises_only_ValueError in Eh. subst.
        split; [split; discriminate|]. split; [discriminate|].
        intros e [= <-]. reflexivity.
    + cbn [rbind]. destruct (search re_mtu block) as [m'|].
      * destruct (Py.int (group m' 1)) as [n|e1] eqn:Ei; cbn [rbind].
        -- split; [split; discriminate|]. split; [|discriminate].
           intros info [= <-]. auto.
        -- apply int_base_raises_only_ValueError in Ei. subst.
           split; [split; discriminate|]. split; [discriminate|].
           intros e [= <-]. reflexivity.
      * cbn [rbind]. split; [split; discriminate|]. split; [|discriminate].
        intros info [= <-]. auto.
Qed.

Lemma parse_ifconfig_found_witness :
  parse_ifconfig ifconfig_two "en7" = Ok None
  /\ (exists info, parse_ifconfig ifconfig_two "en1" = Ok (Some info)
                   /\ name info = "en1" /\ hardware_port info = "").
Proof.
  split.
  - apply (parse_ifconfig_found ifconfig_two "en7"). vm_compute.
    repeat constructor.
  - eexists. split; [vm_compute; reflexivity|].
    eapply (parse_ifconfig_found ifconfig_two "en1"). vm_compute. reflexivity.
Defined.

(** ** parse_ifconfig: only the interface's own block is read *)

Lemma split_nosep sep w :
  str_all (not_chr sep) w = true -> Py.split sep w = [w].
Proof.
  induction w as [|c w IH]; [reflexivity|].
  cbn [str_all Py.split]. unfold not_chr at 1. rewrite andb_true_iff, negb_true_iff.
  intros [Hc Hw]. rewrite Hc, (IH Hw). reflexivity.
Qed.

Lemma split_app_sep sep w t :
  str_all (not_chr sep) w = true ->
  Py.split sep (w ++ String sep t) = w :: Py.split sep t.
Proof.
  induction w as [|c w IH].
  - intros _. rewrite app_nil. cbn [Py.split]. unfold Py.chr_eqb.
    rewrite Ascii.eqb_refl. reflexivity.
  - cbn [str_all]. unfold not_chr at 1. rewrite andb_true_iff, negb_true_iff.
    intros [Hc Hw]. rewrite app_cons. cbn [Py.split]. rewrite Hc, (IH Hw). reflexivity.
Qed.

Lemma split_parts_nosep sep s :
  Forall (fun w => str_all (not_chr sep) w = true) (Py.split sep s).
Proof.
  induction s as [|c s IH]; cbn [Py.split].
  - repeat constructor.
  - destruct (Py.chr_eqb c sep) eqn:E.
    + constructor; [reflexivity|exact IH].
    + destruct (Py.split sep s) as [|w ws]; [repeat constructor; cbn; unfold not_chr; rewrite E; reflexivity|].
      apply Forall_cons in IH as [Hw Hws]. constructor; [|exact Hws].
      cbn [str_all]. unfold not_chr at 1. rewrite E, Hw. reflexivity.
Qed.

Lemma split_join lines :
  lines <> [] ->
  Forall (fun w => str_all (not_chr LF) w = true) lines ->
  Py.split LF (Py.join nl lines) = lines.
Proof.
  induction lines as [|w ws IH]; [congruence|]. intros _ H.
  apply Forall_cons in H as [Hw Hws].
  destruct ws as [|w2 ws].
  - cbn [Py.join]. apply split_nosep. exact Hw.
  - change (Py.join nl (w :: w2 :: ws)) with (w ++ String LF (Py.join nl (w2 :: ws))).
    rewrite (split_app_sep _ _ _ Hw). f_equal. apply IH; [discriminate|exact Hws].
Qed.

Lemma block_lines_Forall (P : string -> Prop) interface_name lines : forall in_block,
  Forall P lines -> Forall P (block_lines interface_name in_block lines).
Proof.
  induction lines as [|line rest IH]; intros in_block H; [constructor|].
  apply Forall_cons in H as [Hl Hr]. cbn [block_lines].
  repeat match goal with
         | |- context [if ?c then _ else _] => destruct c
         end; auto using Forall_cons_2, Forall_nil_2.
Qed.

Lemma block_lines_idem_in interface_name lines :
  block_lines interface_name true (block_lines interface_name true lines)
  = block_lines interface_name true lines.
Proof.
  induction lines as [|line rest IH]; [reflexivity|].
  cbn [block_lines].
  destruct (Py.startswith (interface_name ++ ":") line) eqn:Eh.
  - cbn [block_lines]. rewrite Eh, IH. reflexivity.
  - destruct (true && nonempty line
              && negb (Py.startswith tab line || Py.startswith " " line)) eqn:Eb;
      fold tab in Eb |- *; rewrite Eb.
    + reflexivity.
    + cbn [block_lines]. fold tab. rewrite Eh, Eb, IH. reflexivity.
Qed.

Lemma block_lines_idem interface_name lines :
  block_lines interface_name false (block_lines interface_name false lines)
  = block_lines interface_name false lines.
Proof.
  induction lines as [|line rest IH]; [reflexivity|].
  cbn [block_lines].
  destruct (Py.startswith (interface_name ++ ":") line) eqn:Eh.
  - cbn [block_lines]. rewrite Eh, block_lines_idem_in. reflexivity.
  - cbn [andb]. exact IH.
Qed.

Lemma block_of_block interface_name output :
  block_lines interface_name false
    (Py.split LF (Py.join nl (block_lines interface_name false (Py.split LF output))))
  = block_lines interface_name false (Py.split LF output).
Proof.
  destruct (block_lines interface_name false (Py.split LF output)) as [|l bl] eqn:E.
  - cbn. destruct interface_name; reflexivity.
  - rewrite split_join.
    + rewrite <- E. apply block_lines_idem.
    + discriminate.
    + rewrite <- E. apply block_lines_Forall, split_parts_nosep.
Qed.

(** X2. The answer for an interface depends on its block alone: running
    [parse_ifconfig] on the lines it isolates for the interface gives the
    same result as running it on the whole output. *)
Theorem parse_ifconfig_block_only output interface_name :
  parse_ifconfig
    (Py.join nl (block_lines interface_name false (Py.split LF output)))
    interface_name
  = parse_ifconfig output interface_name.
Proof.
  unfold parse_ifconfig. rewrite block_of_block. reflexivity.
Qed.

(** ** parse_all_interfaces and parse_ifconfig agree *)

Ltac ascii_cases c :=
  destruct c as [[] [] [] [] [] [] [] []].

Lemma word_not_LF c : word c = true -> not_chr LF c = true.
Proof. ascii_cases c; vm_compute; congruence. Qed.

Lemma digit_word c : digit c = true -> word c = true.
Proof. unfold digit, word, Py.is_word. intros ->. reflexivity. Qed.

Lemma iface_match_inv s caps rest :
  match_here re_iface s = Some (caps, rest) ->
  exists nm tl, caps = [nm] /\ s = (nm ++ ":") ++ tl
                /\ str_all word nm = true /\ nm <> "".
Proof.
  unfold match_here, re_iface. cbn [go]. intros H.
  do 5 peel H. injection H as <- <-. subst.
  exists (pre ++ pre0), (pre1 ++ "flags=" ++ rest4).
  split; [|split; [|split]].
  - rewrite <- str_app_assoc, take_diff. reflexivity.
  - rewrite !str_app_assoc. reflexivity.
  - rewrite str_all_app, Hp. cbn [andb].
    apply (str_all_impl digit word); [exact digit_word|exact Hp0].
  - destruct pre; [congruence|discriminate].
Qed.

Lemma split_first_line p t :
  str_all (not_chr LF) p = true ->
  exists w ws, Py.split LF (p ++ t) = (p ++ w) :: ws.
Proof.
  induction p as [|c p IH].
  - intros _. rewrite app_nil. destruct t as [|c t]; cbn [Py.split].
    + exists "", []. reflexivity.
    + destruct (Py.chr_eqb c LF).
      * exists "", (Py.split LF t). reflexivity.
      * destruct (Py.split LF t) as [|w ws].
        -- exists (String c ""), []. reflexivity.
        -- exists (String c w), ws. reflexivity.
  - cbn [str_all]. unfold not_chr at 1. rewrite andb_true_iff, negb_true_iff.
    intros [Hc Hp]. destruct (IH Hp) as (w & ws & E).
    rewrite app_cons. cbn [Py.split]. rewrite Hc, E.
    exists w, ws. reflexivity.
Qed.

Lemma lines_from_step (P : string -> Prop) bol c s :
  Exists P (lines_from (Py.chr_eqb c LF) s) ->
  Exists P (lines_from bol (String c s)).
Proof.
  unfold lines_from. cbn [Py.split].
  destruct (Py.chr_eqb c LF).
  - intros H. destruct bol; [apply Exists_cons_tl|]; exact H.
  - destruct (Py.split LF s) as [|w ws]; cbn [tail].
    + intros H. inversion H.
    + intros H. destruct bol; [apply Exists_cons_tl|]; exact H.
Qed.

Lemma finditer_bol_header s : forall skip bol caps,
  caps ∈ finditer_bol_from re_iface skip bol s ->
  exists nm, caps = [nm] /\ str_all word nm = true /\ nm <> ""
             /\ Exists (fun line => Py.startswith (nm ++ ":") line = true)
                  (lines_from bol s).
Proof.
  assert (Hhere : forall s0 caps rest,
    match_here re_iface s0 = Some (caps, rest) ->
    exists nm, caps = [nm] /\ str_all word nm = true /\ nm <> ""
               /\ Exists (fun line => Py.startswith (nm ++ ":") line = true)
                    (lines_from true s0)).
  { intros s0 caps rest H.
    destruct (iface_match_inv _ _ _ H) as (nm & tl & -> & -> & Hw & Hne).
    exists nm. repeat split; auto.
    destruct (split_first_line (nm ++ ":") tl) as (w & ws & E).
    { rewrite str_all_app, (str_all_impl word (not_chr LF) nm word_not_LF Hw).
      reflexivity. }
    unfold lines_from. rewrite E. apply Exists_cons_hd, startswith_refl_app. }
  induction s as [|c s IH]; intros skip bol caps Hin.
  - destruct skip, bol; cbn in Hin; inversion Hin.
  - destruct skip as [|n]; cbn [finditer_bol_from] in Hin.
    + destruct bol.
      * destruct (match_here re_iface (String c s)) as [[caps' rest]|] eqn:E.
        -- apply elem_of_cons in Hin as [->|Hin]; [eapply Hhere, E|].
           destruct (IH _ _ _ Hin) as (nm & ? & ? & ? & Hex).
           exists nm. repeat split; auto. eapply lines_from_step, Hex.
        -- destruct (IH _ _ _ Hin) as (nm & ? & ? & ? & Hex).
           exists nm. repeat split; auto. eapply lines_from_step, Hex.
      * destruct (IH _ _ _ Hin) as (nm & ? & ? & ? & Hex).
        exists nm. repeat split; auto. eapply lines_from_step, Hex.
    + destruct (IH _ _ _ Hin) as (nm & ? & ? & ? & Hex).
      exists nm. repeat split; auto. eapply lines_from_step, Hex.
Qed.

Lemma parse_all_interfaces_header output nm :
  nm ∈ parse_all_interfaces output ->
  str_all word nm = true /\ nm <> ""
  /\ Exists (fun line => Py.startswith (nm ++ ":") line = true) (Py.split LF output).
Proof.
  unfold parse_all_interfaces. rewrite list_elem_of_omap.
  intros (caps & Hin & Hcaps).
  destruct (finditer_bol_header _ _ _ _ Hin) as (nm' & -> & Hw & Hne & Hex).
  cbn in Hcaps. injection Hcaps as ->. auto.
Qed.

Lemma parse_ifconfig_None_block output interface_name :
  parse_ifconfig output interface_name = Ok None ->
  block_lines interface_name false (Py.split LF output) = [].
Proof.
  unfold parse_ifconfig.
  destruct (block_lines interface_name false (Py.split LF output)) as [|l bl];
    [reflexivity|].
  set (block := Py.join nl (l :: bl)).
  destruct (search re_inet block) as [m|];
    [destruct (hex_to_dotted (group m 2))|]; cbn [rbind]; try discriminate;
    (destruct (search re_mtu block) as [m'|];
     [destruct (Py.int (group m' 1))|]; cbn [rbind]; discriminate).
Qed.

(** X3. Every name that [parse_all_interfaces] lists is a non-empty run of
    word characters that heads a line of the output, so [parse_ifconfig]
    finds a block for it: its answer for that name is never [None]. *)
Theorem listed_interface_has_block output nm :
  nm ∈ parse_all_interfaces output ->
  nm <> "" /\ str_all word nm = true
  /\ Exists (fun line => Py.startswith (nm ++ ":") line = true) (Py.split LF output)
  /\ parse_ifconfig output nm <> Ok None.
Proof.
  intros H. destruct (parse_all_interfaces_header _ _ H) as (Hw & Hne & Hex).
  repeat split; auto.
  intros Hnone. apply parse_ifconfig_None_block, block_lines_nil in Hnone.
  apply Exists_exists in Hex as (line & Hin & Hs).
  rewrite Forall_forall in Hnone. specialize (Hnone _ Hin). congruence.
Qed.

Lemma listed_interface_has_block_witness :
  "en0" ∈ parse_all_interfaces ifconfig_two
  /\ parse_ifconfig ifconfig_two "en0" <> Ok None.
Proof.
  assert (H : "en0" ∈ parse_all_interfaces ifconfig_two).
  { let v := eval vm_compute in (parse_all_interfaces ifconfig_two) in
    change (parse_all_interfaces ifconfig_two) with v.
    apply elem_of_cons. right. apply elem_of_cons. left. reflexivity. }
  split; [exact H|].
  apply (listed_interface_has_block ifconfig_two "en0" H).
Defined.

(** ** Reading numbers *)

Lemma alnum_plain c :
  is_alnum_ascii c = true ->
  Py.is_space c = false /\ Py.chr_eqb c "_" = false.
Proof. ascii_cases c; vm_compute; intros H; try discriminate H; auto. Qed.

Lemma hex_any_alnum c : hex_any c = true -> is_alnum_ascii c = true.
Proof. ascii_cases c; vm_compute; intros H; try discriminate H; auto. Qed.

Lemma hex_lower_any c : hex_lower c = true -> hex_any c = true.
Proof. unfold hex_any. intros ->. reflexivity. Qed.

Lemma digit_hex_lower c : digit c = true -> hex_lower c = true.
Proof. unfold digit, hex_lower. intros ->. reflexivity. Qed.

Lemma hex_any_val c :
  hex_any c = true ->
  Py.digit_val 16 c = Some (hex_val c) /\ 0 <= hex_val c < 16
  /\ Py.chr_eqb "x" c = false /\ Py.chr_eqb "X" c = false.
Proof.
  ascii_cases c; vm_compute; intros H; try discriminate H;
    repeat split; congruence.
Qed.

Lemma digit_val10 c :
  digit c = true -> Py.digit_val 10 c = Some (hex_val c) /\ 0 <= hex_val c < 10.
Proof.
  ascii_cases c; vm_compute; intros H; try discriminate H;
    repeat split; congruence.
Qed.

Lemma alnum_non_ws s : str_all is_alnum_ascii s = true -> str_all non_ws s = true.
Proof.
  apply str_all_impl. intros c H. unfold non_ws.
  rewrite (proj1 (alnum_plain c H)). reflexivity.
Qed.

Lemma space_int_plain c : Py.is_space c = false -> Py.is_space_int c = false.
Proof. unfold Py.is_space_int. intros ->. reflexivity. Qed.

Lemma rstrip_int_plain s : str_all non_ws s = true -> Py.rstrip_int s = s.
Proof.
  induction s as [|c s IH]; [reflexivity|].
  cbn [str_all Py.rstrip_int]. unfold non_ws at 1.
  rewrite andb_true_iff, negb_true_iff. intros [Hc Hs].
  rewrite (IH Hs), (space_int_plain _ Hc). destruct s; reflexivity.
Qed.

Lemma strip_int_plain s : str_all non_ws s = true -> Py.strip_int s = s.
Proof.
  intros H. unfold Py.strip_int.
  assert (Hl : Py.lstrip_int s = s).
  { destruct s as [|c s]; [reflexivity|].
    cbn [str_all] in H. unfold non_ws at 1 in H.
    apply andb_true_iff in H as [Hc _]. apply negb_true_iff in Hc.
    cbn [Py.lstrip_int]. rewrite (space_int_plain _ Hc). reflexivity. }
  rewrite Hl. apply rstrip_int_plain, H.
Qed.

(** An unsigned literal: no white space to strip, no sign to read. *)
Lemma int_base_unsigned base c s :
  str_all is_alnum_ascii (String c s) = true ->
  Py.int_base base (String c s)
  = match Py.unsigned base (String c s) with
    | Some z => Ok z
    | None => Raise ValueError
    end.
Proof.
  intros H. unfold Py.int_base. rewrite (strip_int_plain _ (alnum_non_ws _ H)).
  cbn [str_all] in H. apply andb_true_iff in H as [Hc _].
  ascii_cases c; first [discriminate Hc | reflexivity].
Qed.

Lemma digits_value base (ok : ascii -> bool) :
  (forall c, ok c = true ->
     Py.digit_val base c = Some (hex_val c) /\ Py.chr_eqb c "_" = false) ->
  forall s prev acc,
    str_all ok s = true -> (s <> "" \/ prev = true) ->
    Py.digits base prev acc s = Some (radix_value base acc s).
Proof.
  intros Hok. induction s as [|c s IH]; intros prev acc Hs Hne.
  - destruct Hne as [Hne| ->]; [congruence|reflexivity].
  - cbn [str_all] in Hs. apply andb_true_iff in Hs as [Hc Hs].
    destruct (Hok c Hc) as [Hv Hu].
    cbn [Py.digits radix_value]. rewrite Hu, Hv. apply IH; auto.
Qed.

Lemma radix_value_bounds base s : forall acc,
  0 < base -> 0 <= acc ->
  (forall c, 0 <= hex_val c) ->
  0 <= radix_value base acc s.
Proof.
  induction s as [|c s IH]; intros acc Hb Ha Hv; cbn [radix_value]; [lia|].
  apply IH; auto. specialize (Hv c). nia.
Qed.

Lemma hex_val_nonneg c : 0 <= hex_val c.
Proof.
  unfold hex_val, Py.digit_val.
  destruct (Py.is_digit c) eqn:E1; [|destruct (Py.in_range 97 122 c) eqn:E2;
    [|destruct (Py.in_range 65 90 c) eqn:E3]]; cbn;
    repeat match goal with |- context [if ?b then _ else _] => destruct b end;
    cbn; try lia.
  - unfold Py.is_digit, Py.in_range in E1. apply andb_true_iff in E1 as [E _].
    apply N.leb_le in E. lia.
  - unfold Py.in_range in E2. apply andb_true_iff in E2 as [E _].
    apply N.leb_le in E. lia.
  - unfold Py.in_range in E3. apply andb_true_iff in E3 as [E _].
    apply N.leb_le in E. lia.
Qed.

Lemma radix_value_lt16 s : forall acc,
  str_all hex_any s = true -> 0 <= acc ->
  radix_value 16 acc s < (acc + 1) * 16 ^ Z.of_nat (Py.len s).
Proof.
  induction s as [|c s IH]; intros acc Hs Ha.
  - cbn. lia.
  - cbn [str_all] in Hs. apply andb_true_iff in Hs as [Hc Hs].
    destruct (hex_any_val c Hc) as (_ & Hv & _).
    cbn [radix_value Py.len]. rewrite Nat2Z.inj_succ, Z.pow_succ_r by lia.
    specialize (IH (acc * 16 + hex_val c) Hs ltac:(lia)).
    assert (0 < 16 ^ Z.of_nat (Py.len s)) by (apply Z.pow_pos_nonneg; lia).
    nia.
Qed.

(** [int(s, 16)] on a non-empty run of hex digits. *)
Lemma int16_hex s :
  str_all hex_any s = true -> s <> "" ->
  Py.int_base 16 s = Ok (radix_value 16 0 s).
Proof.
  intros Hs Hne. destruct s as [|c s]; [congruence|].
  rewrite int_base_unsigned
    by (apply (str_all_impl hex_any); [exact hex_any_alnum|exact Hs]).
  unfold Py.unsigned.
  assert (Hpre : Py.startswith "0x" (String c s) || Py.startswith "0X" (String c s)
                 = false).
  { cbn [str_all] in Hs. apply andb_true_iff in Hs as [_ Hs].
    destruct s as [|c1 s]; cbn [Py.startswith].
    - rewrite !andb_false_r. reflexivity.
    - cbn [str_all] in Hs. apply andb_true_iff in Hs as [Hc1 _].
      destruct (hex_any_val c1 Hc1) as (_ & _ & Hx & HX).
      rewrite Hx, HX, !andb_false_r. reflexivity. }
  rewrite Hpre, andb_false_r.
  change (Py.within_limit 16 (String c s)) with true. cbv iota.
  rewrite (digits_value 16 hex_any); auto.
  intros c0 H0. destruct (hex_any_val c0 H0) as (Hv & _).
  split; [exact Hv|]. apply alnum_plain, hex_any_alnum, H0.
Qed.

Lemma digit_count_len (ok : ascii -> bool) s :
  (forall c, ok c = true -> Py.chr_eqb c "_" = false) ->
  str_all ok s = true -> Py.digit_count s = Z.of_nat (Py.len s).
Proof.
  intros Hok. induction s as [|c s IH]; [reflexivity|].
  cbn [str_all]. rewrite andb_true_iff. intros [Hc Hs].
  cbn [Py.digit_count Py.len]. rewrite (Hok c Hc), (IH Hs). lia.
Qed.

Lemma digit_no_underscore c : digit c = true -> Py.chr_eqb c "_" = false.
Proof.
  intros H. apply alnum_plain, hex_any_alnum, hex_lower_any, digit_hex_lower, H.
Qed.

Lemma within_limit10 s :
  Py.within_limit 10 s = (Py.digit_count s <=? Py.max_str_digits).
Proof. reflexivity. Qed.

(** [int(s)] on a run of decimal digits longer than the limit. *)
Lemma int10_long s :
  str_all digit s = true -> Py.max_str_digits < Z.of_nat (Py.len s) ->
  Py.int s = Raise ValueError.
Proof.
  intros Hs Hlong. destruct s as [|c s]; [cbn in Hlong; unfold Py.max_str_digits in Hlong; lia|].
  assert (Hal : str_all is_alnum_ascii (String c s) = true).
  { apply (str_all_impl digit); [|exact Hs].
    intros c0 H0. apply hex_any_alnum, hex_lower_any, digit_hex_lower, H0. }
  unfold Py.int. rewrite (int_base_unsigned _ _ _ Hal).
  unfold Py.unsigned. change (10 =? 16) with false. cbn [andb].
  rewrite within_limit10, (digit_count_len digit _ digit_no_underscore Hs).
  destruct (Z.leb_spec (Z.of_nat (Py.len (String c s))) Py.max_str_digits);
    [lia|reflexivity].
Qed.

(** [int(s)] on a non-empty run of decimal digits within the limit. *)
Lemma int10_digits s :
  str_all digit s = true -> s <> "" ->
  Z.of_nat (Py.len s) <= Py.max_str_digits ->
  Py.int s = Ok (radix_value 10 0 s).
Proof.
  intros Hs Hne Hlim. destruct s as [|c s]; [congruence|].
  assert (Hok : forall c0, digit c0 = true ->
            Py.digit_val 10 c0 = Some (hex_val c0) /\ Py.chr_eqb c0 "_" = false).
  { intros c0 H0. destruct (digit_val10 c0 H0) as (Hv & _).
    split; [exact Hv|].
    apply alnum_plain, hex_any_alnum, hex_lower_any, digit_hex_lower, H0. }
  assert (Hal : str_all is_alnum_ascii (String c s) = true).
  { apply (str_all_impl digit); [|exact Hs].
    intros c0 H0. apply hex_any_alnum, hex_lower_any, digit_hex_lower, H0. }
  unfold Py.int. rewrite (int_base_unsigned _ _ _ Hal).
  unfold Py.unsigned. change (10 =? 16) with false. cbn [andb].
  rewrite within_limit10, (digit_count_len digit _ digit_no_underscore Hs).
  destruct (Z.leb_spec (Z.of_nat (Py.len (String c s))) Py.max_str_digits);
    [|lia].
  rewrite (digits_value 10 digit Hok _ false 0 Hs); [reflexivity|].
  left. discriminate.
Qed.

(** ** The netmask *)

Lemma int16_pair a b :
  hex_any a = true -> hex_any b = true ->
  Py.int_base 16 (String a (String b "")) = Ok (hex_byte a b)
  /\ 0 <= hex_byte a b <= 255.
Proof.
  intros Ha Hb. split.
  - rewrite int16_hex by (cbn [str_all]; rewrite ?Ha, ?Hb; auto; discriminate).
    unfold hex_byte. cbn [radix_value]. f_equal; lia.
  - destruct (hex_any_val a Ha) as (_ & ? & _).
    destruct (hex_any_val b Hb) as (_ & ? & _). unfold hex_byte. lia.
Qed.

Lemma int16_single a :
  hex_any a = true -> Py.int_base 16 (String a "") = Ok (hex_val a).
Proof.
  intros Ha.
  rewrite int16_hex by (cbn [str_all]; rewrite ?Ha; auto; discriminate).
  cbn [radix_value]. f_equal; lia.
Qed.

(** X4. Base conversion of the netmask. On a mask that begins with eight
    hex digits, the conversion returns the four bytes those digits write,
    in decimal and joined by dots; each lies between 0 and 255, and
    whatever follows the eighth digit is ignored. *)
Theorem hex_to_dotted_bytes a b c d e f g h rest :
  str_all hex_any
    (String a (String b (String c (String d (String e (String f (String g
      (String h "")))))))) = true ->
  hex_to_dotted
    (String a (String b (String c (String d (String e (String f (String g
      (String h rest))))))))
  = Ok (Py.join "." [Py.str (hex_byte a b); Py.str (hex_byte c d);
                     Py.str (hex_byte e f); Py.str (hex_byte g h)])
  /\ 0 <= hex_byte a b <= 255 /\ 0 <= hex_byte c d <= 255
  /\ 0 <= hex_byte e f <= 255 /\ 0 <= hex_byte g h <= 255.
Proof.
  cbn [str_all]. rewrite !andb_true_iff.
  intros (Ha & Hb & Hc & Hd & He & Hf & Hg & Hh & _).
  destruct (int16_pair a b Ha Hb) as [E1 B1].
  destruct (int16_pair c d Hc Hd) as [E2 B2].
  destruct (int16_pair e f He Hf) as [E3 B3].
  destruct (int16_pair g h Hg Hh) as [E4 B4].
  split; [|auto].
  unfold hex_to_dotted.
  cbn [mask_bytes Py.slice Py.take Py.drop Nat.sub Nat.add].
  rewrite E1, E2, E3, E4. reflexivity.
Qed.

Lemma hex_to_dotted_bytes_witness :
  hex_to_dotted "ffffff00" = Ok "255.255.255.0"
  /\ hex_to_dotted "fffffe00ff" = Ok "255.255.254.0".
Proof.
  split.
  - destruct (hex_to_dotted_bytes "f" "f" "f" "f" "f" "f" "0" "0" "" eq_refl)
      as [E _]. exact E.
  - destruct (hex_to_dotted_bytes "f" "f" "f" "f" "f" "e" "0" "0" "ff" eq_refl)
      as [E _]. exact E.
Defined.

Lemma hex_to_dotted_long h :
  str_all hex_any h = true -> (7 <= Py.len h)%nat -> returns (hex_to_dotted h).
Proof.
  intros Hh Hlen.
  do 7 (destruct h as [|? h]; [cbn in Hlen; lia|]).
  cbn [str_all] in Hh. rewrite !andb_true_iff in Hh.
  destruct Hh as (Ha & Hb & Hc & Hd & He & Hf & Hg & Hrest).
  unfold hex_to_dotted.
  destruct h as [|x h].
  - cbn [mask_bytes Py.slice Py.take Py.drop Nat.sub Nat.add].
    rewrite (proj1 (int16_pair _ _ Ha Hb)), (proj1 (int16_pair _ _ Hc Hd)),
      (proj1 (int16_pair _ _ He Hf)), (int16_single _ Hg). exact I.
  - cbn [str_all] in Hrest. apply andb_true_iff in Hrest as [Hx _].
    cbn [mask_bytes Py.slice Py.take Py.drop Nat.sub Nat.add].
    rewrite (proj1 (int16_pair _ _ Ha Hb)), (proj1 (int16_pair _ _ Hc Hd)),
      (proj1 (int16_pair _ _ He Hf)), (proj1 (int16_pair _ _ Hg Hx)). exact I.
Qed.

Lemma inet_match_inv s m :
  match_here re_inet s = Some m ->
  str_all hex_lower (group m 2) = true /\ group m 2 <> "".
Proof.
  unfold match_here, re_inet, dotted_quad. cbn [go]. intros H.
  do 14 peel H. injection H as <-. subst.
  unfold group. cbn [fst lookup list_lookup Nat.sub app default].
  change (([] ++ ?x)%list) with x. cbn.
  rewrite take_diff. split; [assumption|].
  match goal with Hn : ?p <> "" |- ?p <> "" => exact Hn end.
Qed.

Lemma mtu_match_inv s m :
  match_here re_mtu s = Some m ->
  str_all digit (group m 1) = true /\ group m 1 <> "".
Proof.
  unfold match_here, re_mtu. cbn [go]. intros H.
  do 3 peel H. injection H as <-. subst.
  unfold group. cbn. rewrite take_diff. split; assumption.
Qed.

(** X5. When [parse_ifconfig] fails. It raises (a [ValueError]) exactly
    when the block of the interface has a match of
    [inet <address> netmask 0x<hex>] whose hex part, in the first such
    match, has six digits or fewer, or a match of [mtu <digits>] whose
    digits, in the first such match, are more than the 4300 the
    interpreter reads; in every other case it returns. *)
Theorem parse_ifconfig_raises_iff output interface_name :
  parse_ifconfig output interface_name = Raise ValueError
  <-> exists l bl,
        block_lines interface_name false (Py.split LF output) = l :: bl
        /\ ((exists m, search re_inet (Py.join nl (l :: bl)) = Some m
                       /\ (Py.len (group m 2) <= 6)%nat)
            \/ (exists m, search re_mtu (Py.join nl (l :: bl)) = Some m
                          /\ Py.max_str_digits < Z.of_nat (Py.len (group m 1)))).
Proof.
  unfold parse_ifconfig.
  destruct (block_lines interface_name false (Py.split LF output)) as [|l bl].
  - split; [discriminate|]. intros (? & ? & ? & _). discriminate.
  - set (block := Py.join nl (l :: bl)).
    assert (Hmtu : forall v4 : option string * option string,
      (try! mtu := match search re_mtu block with
                   | Some m => Py.int (group m 1)
                   | None => Ok 0
                   end in
       Ok (Some {| name := interface_name; hardware_port := "";
                   mac_address := match search re_ether block with
                                  | Some m => group m 1
                                  | None => ""
                                  end;
                   ipv4_address := v4.1;
                   ipv6_addresses := findall1 re_inet6 block;
                   netmask := v4.2;
                   status := match search re_status block with
                             | Some m => group m 1
                             | None => "unknown"
                             end;
                   media_type := match search re_media block with
                                 | Some m => Py.strip (group m 1)
                                 | None => ""
                                 end;
                   mtu := mtu |})) = Raise ValueError
      <-> exists m, search re_mtu block = Some m
                    /\ Py.max_str_digits < Z.of_nat (Py.len (group m 1))).
    { intros v4. destruct (search re_mtu block) as [m'|] eqn:Em.
      - pose proof Em as Hm. apply search_inv in Hm as (pre & s0 & _ & Hm).
        apply mtu_match_inv in Hm as [Hd Hne].
        destruct (Z_le_gt_dec (Z.of_nat (Py.len (group m' 1))) Py.max_str_digits)
          as [Hle|Hgt].
        + rewrite (int10_digits _ Hd Hne Hle). cbn [rbind].
          split; [discriminate|]. intros (m2 & [= <-] & H). lia.
        + rewrite (int10_long _ Hd ltac:(lia)). cbn [rbind].
          split; [|reflexivity]. intros _. exists m'. split; [reflexivity|lia].
      - cbn [rbind]. split; [discriminate|]. intros (m2 & H & _). discriminate. }
    destruct (search re_inet block) as [m|] eqn:Einet.
    + pose proof Einet as Hm. apply search_inv in Hm as (pre & s0 & _ & Hm).
      apply inet_match_inv in Hm as [Hhex Hne].
      destruct (le_dec (Py.len (group m 2)) 6) as [Hshort|Hlong].
      * rewrite (hex_to_dotted_short _ Hshort). cbn [rbind].
        split; [|reflexivity]. intros _. exists l, bl.
        split; [reflexivity|]. left. exists m. auto.
      * pose proof (hex_to_dotted_long (group m 2)) as Hret.
        specialize (Hret (str_all_impl _ _ _ hex_lower_any Hhex) ltac:(lia)).
        destruct (hex_to_dotted (group m 2)) as [mask|]; [|destruct Hret].
        cbn [rbind]. rewrite Hmtu. split.
        -- intros H. exists l, bl. split; [reflexivity|]. right. exact H.
        -- intros (l' & bl' & Hb & [(m' & Hs & Hle)|H]); injection Hb as <- <-.
           ++ fold block in Hs. rewrite Einet in Hs. injection Hs as <-. lia.
           ++ exact H.
    + cbn [rbind]. rewrite Hmtu. split.
      * intros H. exists l, bl. split; [reflexivity|]. right. exact H.
      * intros (l' & bl' & Hb & [(m' & Hs & _)|H]); injection Hb as <- <-.
        -- fold block in Hs. rewrite Einet in Hs. discriminate.
        -- exact H.
Qed.

Lemma parse_ifconfig_raises_iff_witness :
  parse_ifconfig ifconfig_short_mask "en0" = Raise ValueError
  /\ parse_ifconfig ifconfig_long_mtu "en0" = Raise ValueError
  /\ parse_ifconfig ifconfig_two "en0" <> Raise ValueError.
Proof.
  split; [|split].
  - apply (parse_ifconfig_raises_iff ifconfig_short_mask "en0").
    do 2 eexists. split; [vm_compute; reflexivity|]. left.
    eexists. split; [vm_compute; reflexivity|]. vm_compute. lia.
  - apply (parse_ifconfig_raises_iff ifconfig_long_mtu "en0").
    do 2 eexists. split; [vm_compute; reflexivity|]. right.
    eexists. split; [vm_compute; reflexivity|]. vm_compute. reflexivity.
  - intros H. apply (parse_ifconfig_raises_iff ifconfig_two "en0") in H.
    destruct H as (l & bl & Hb & [(m & Hs & Hle)|(m & Hs & Hle)]);
      vm_compute in Hb; injection Hb as <- <-;
      vm_compute in Hs; injection Hs as <-;
      vm_compute in Hle; [lia|discriminate Hle].
Defined.

(** ** DHCP packets *)

Lemma lease_match_inv s m :
  match_here re_lease s = Some m ->
  str_all hex_any (group m 1) = true /\ group m 1 <> "".
Proof.
  unfold match_here, re_lease. cbn [go]. intros H.
  do 4 peel H. injection H as <-. subst.
  unfold group. cbn. rewrite take_diff. split; assumption.
Qed.

(** X6. [parse_dhcp_info] never raises. It answers [None] exactly when
    the text holds neither [op = BOOTREPLY] nor [op = BOOTREQUEST];
    otherwise it returns a record marked as DHCP, whose lease time, when
    there is one, is the non-negative number its hex digits write. *)
Theorem parse_dhcp_info_total output :
  (parse_dhcp_info output = Ok None
   <-> Py.contains "op = BOOTREPLY" output = false
       /\ Py.contains "op = BOOTREQUEST" output = false)
  /\ (exists r, parse_dhcp_info output = Ok r)
  /\ (forall info, parse_dhcp_info output = Ok (Some info) ->
        is_dhcp info = true
        /\ forall t, lease_time info = Some t ->
             0 <= t
             /\ exists m, search re_lease output = Some m
                          /\ t = radix_value 16 0 (group m 1)
                          /\ t < 16 ^ Z.of_nat (Py.len (group m 1))).
Proof.
  unfold parse_dhcp_info.
  destruct (Py.contains "op = BOOTREPLY" output) eqn:E1;
    destruct (Py.contains "op = BOOTREQUEST" output) eqn:E2; cbn [negb andb].
  4: { split; [tauto|]. split; [eauto|]. discriminate. }
  all: destruct (search re_lease output) as [m|] eqn:El.
  all: try (pose proof El as Hm; apply search_inv in Hm as (pre & s0 & _ & Hm);
            apply lease_match_inv in Hm as [Hhex Hne];
            rewrite (int16_hex _ Hhex Hne)).
  all: cbn [rbind].
  all: split; [split; [discriminate|intros [? ?]; discriminate]|].
  all: split; [eauto|].
  all: intros info [= <-]; cbn [is_dhcp lease_time]; split; [reflexivity|].
  all: intros t [= <-].
  all: split; [apply radix_value_bounds; try lia; intros; apply hex_val_nonneg|].
  all: exists m; split; [reflexivity|]; split; [reflexivity|].
  all: pose proof (radix_value_lt16 (group m 1) 0 Hhex ltac:(lia)); lia.
Qed.

Lemma parse_dhcp_info_total_witness :
  exists info,
    parse_dhcp_info dhcp_repeated_dns = Ok (Some info)
    /\ is_dhcp info = true /\ lease_time info = Some 3600
    /\ 0 <= 3600 < 16 ^ 8.
Proof.
  eexists. split; [vm_compute; reflexivity|].
  destruct (parse_dhcp_info_total dhcp_repeated_dns) as (_ & _ & H).
  edestruct H as [Hd Hl]; [vm_compute; reflexivity|].
  split; [exact Hd|]. split; [reflexivity|].
  destruct (Hl 3600 eq_refl) as (Hpos & m & Hm & _ & Hlt).
  vm_compute in Hm. injection Hm as <-. split; [exact Hpos|exact Hlt].
Defined.

(** ** Name servers *)

Lemma fromkeys_fold keys : forall acc,
  fold_left (fun d k => if bool_decide (k ∈ d) then d else (d ++ [k])%list) keys acc
  = (acc ++ filter (fun k => k ∉ acc) (first_seen keys))%list.
Proof.
  induction keys as [|x keys IH]; intros acc; cbn [fold_left first_seen].
  - rewrite filter_nil, app_nil_r. reflexivity.
  - rewrite IH. case_bool_decide as Hx.
    + rewrite filter_cons_False by tauto.
      rewrite list_filter_filter. f_equal.
      apply list_filter_iff. intros k. split; [|tauto].
      intros Hk. split; [exact Hk|]. intros ->. contradiction.
    + rewrite filter_cons_True by exact Hx.
      rewrite list_filter_filter, <- app_assoc. cbn [app]. do 2 f_equal.
      apply list_filter_iff. intros k.
      rewrite not_elem_of_app, list_elem_of_singleton. tauto.
Qed.

Lemma filter_all {A} (P : A -> Prop) `{forall x, Decision (P x)} (l : list A) :
  (forall x, P x) -> filter P l = l.
Proof.
  intros HP. induction l as [|x l IH]; [reflexivity|].
  rewrite filter_cons_True by apply HP. rewrite IH. reflexivity.
Qed.

Lemma dict_fromkeys_first_occurrences keys : dict_fromkeys keys = first_seen keys.
Proof.
  unfold dict_fromkeys. rewrite fromkeys_fold. cbn [app].
  apply filter_all. intros k. apply not_elem_of_nil.
Qed.

Lemma finditer_inv r s : forall skip caps,
  caps ∈ finditer_from r skip s ->
  exists s0 rest, match_here r s0 = Some (caps, rest).
Proof.
  induction s as [|c s IH]; intros skip caps Hin.
  - destruct skip; cbn in Hin; [|inversion Hin].
    destruct (match_here r "") as [[caps' rest]|] eqn:E; [|inversion Hin].
    apply list_elem_of_singleton in Hin. subst. eauto.
  - destruct skip as [|n]; cbn [finditer_from] in Hin; [|eauto].
    destruct (match_here r (String c s)) as [[caps' rest]|] eqn:E; [|eauto].
    apply elem_of_cons in Hin as [->|Hin]; eauto.
Qed.

Lemma nameserver_match_inv s caps rest :
  match_here re_nameserver s = Some (caps, rest) ->
  exists a b c d,
    caps = [a ++ "." ++ b ++ "." ++ c ++ "." ++ d]
    /\ str_all digit a = true /\ a <> "" /\ str_all digit b = true /\ b <> ""
    /\ str_all digit c = true /\ c <> "" /\ str_all digit d = true /\ d <> "".
Proof.
  unfold match_here, re_nameserver, dotted_quad. cbn [go]. intros H.
  do 13 peel H. injection H as <- <-. subst.
  match goal with
  | |- context [Py.take _ (?a ++ "." ++ ?b ++ "." ++ ?c ++ "." ++ ?d ++ ?r)] =>
      exists a, b, c, d;
      replace (a ++ "." ++ b ++ "." ++ c ++ "." ++ d ++ r)
        with ((a ++ "." ++ b ++ "." ++ c ++ "." ++ d) ++ r)
        by (rewrite !str_app_assoc; reflexivity)
  end.
  rewrite take_diff. repeat split; assumption.
Qed.

(** X7. [parse_dns_servers] returns the addresses matched in the text,
    each exactly once, in the order of their first occurrence; every
    entry is four non-empty runs of digits separated by dots. *)
Theorem parse_dns_servers_first_seen output :
  parse_dns_servers output = first_seen (findall1 re_nameserver output)
  /\ NoDup (parse_dns_servers output)
  /\ (forall x, x ∈ parse_dns_servers output <-> x ∈ findall1 re_nameserver output)
  /\ (forall x, x ∈ parse_dns_servers output ->
        exists a b c d,
          x = a ++ "." ++ b ++ "." ++ c ++ "." ++ d
          /\ str_all digit a = true /\ a <> "" /\ str_all digit b = true /\ b <> ""
          /\ str_all digit c = true /\ c <> "" /\ str_all digit d = true /\ d <> "").
Proof.
  split; [apply dict_fromkeys_first_occurrences|].
  split; [apply dict_fromkeys_NoDup|].
  split; [intros x; apply dict_fromkeys_elem_of|].
  intros x Hx. unfold parse_dns_servers in Hx.
  rewrite dict_fromkeys_elem_of in Hx. unfold findall1 in Hx. apply list_elem_of_omap in Hx as (caps & Hin & Hc).
  apply finditer_inv in Hin as (s0 & rest & Hm).
  apply nameserver_match_inv in Hm as (a & b & c & d & -> & H).
  cbn in Hc. injection Hc as <-. exists a, b, c, d. split; [reflexivity|exact H].
Qed.

Lemma parse_dns_servers_first_seen_witness :
  "8.8.8.8" ∈ parse_dns_servers scutil_repeated_dns
  /\ exists a b c d, "8.8.8.8" = a ++ "." ++ b ++ "." ++ c ++ "." ++ d
                     /\ str_all digit a = true /\ d <> "".
Proof.
  assert (H : "8.8.8.8" ∈ parse_dns_servers scutil_repeated_dns).
  { let v := eval vm_compute in (parse_dns_servers scutil_repeated_dns) in
    change (parse_dns_servers scutil_repeated_dns) with v.
    apply elem_of_cons. left. reflexivity. }
  split; [exact H|].
  destruct (parse_dns_servers_first_seen scutil_repeated_dns) as (_ & _ & _ & Hq).
  destruct (Hq _ H) as (a & b & c & d & E & Ha & _ & _ & _ & _ & _ & _ & Hd).
  exists a, b, c, d. auto.
Defined.

(** X8. [get_network_dns_servers] never raises. A non-empty list from the
    DHCP packet is returned as it is. Otherwise the result comes from
    [scutil]: it has no repetition, and no entry begins with [127.]. *)
Theorem get_network_dns_servers_sources ipconfig scutil :
  (forall info d ds,
      get_dhcp_info ipconfig = Some info -> dns_servers info = d :: ds ->
      get_network_dns_servers ipconfig scutil = d :: ds)
  /\ ((get_dhcp_info ipconfig = None
       \/ exists info, get_dhcp_info ipconfig = Some info /\ dns_servers info = []) ->
      NoDup (get_network_dns_servers ipconfig scutil)
      /\ Forall (fun dns => Py.startswith "127." dns = false)
           (get_network_dns_servers ipconfig scutil)
      /\ forall dns, dns ∈ get_network_dns_servers ipconfig scutil ->
           exists stdout stderr code,
             scutil = Some (stdout, stderr, code) /\ dns ∈ parse_dns_servers stdout).
Proof.
  unfold get_network_dns_servers. split.
  - intros info d ds -> Hd. destruct info. cbn in Hd. subst. reflexivity.
  - intros H.
    assert (E : match get_dhcp_info ipconfig with
                | Some {| dns_servers := d :: ds |} => d :: ds
                | _ => match scutil with
                       | Some (stdout, _, _) =>
                           filter (fun dns => not_local dns = true)
                             (parse_dns_servers stdout)
                       | None => []
                       end
                end
                = match scutil with
                  | Some (stdout, _, _) =>
                      filter (fun dns => not_local dns = true)
                        (parse_dns_servers stdout)
                  | None => []
                  end).
    { destruct H as [-> | (info & -> & Hd)]; [reflexivity|].
      destruct info. cbn in Hd. subst. reflexivity. }
    rewrite E. destruct scutil as [[[stdout stderr] code]|].
    + split; [apply NoDup_filter, dict_fromkeys_NoDup|]. split.
      * apply Forall_forall. intros dns Hin.
        apply list_elem_of_filter in Hin as [Hl _].
        unfold not_local in Hl. apply andb_true_iff in Hl as [Hl _].
        apply negb_true_iff in Hl. exact Hl.
      * intros dns Hin. apply list_elem_of_filter in Hin as [_ Hin]. eauto 6.
    + split; [constructor|]. split; [constructor|]. intros dns Hin. inversion Hin.
Qed.

Lemma get_network_dns_servers_sources_witness :
  get_network_dns_servers (Some (dhcp_repeated_dns, "", 0))
    (Some (scutil_repeated_dns, "", 0))
  = ["8.8.8.8"; "1.1.1.1"; "8.8.8.8"]
  /\ NoDup (get_network_dns_servers (Some (dhcp_repeated_dns, "", 1))
              (Some (scutil_repeated_dns, "", 0))).
Proof.
  split.
  - eapply (get_network_dns_servers_sources (Some (dhcp_repeated_dns, "", 0))
              (Some (scutil_repeated_dns, "", 0))).
    + vm_compute. reflexivity.
    + reflexivity.
  - apply (get_network_dns_servers_sources (Some (dhcp_repeated_dns, "", 1))
             (Some (scutil_repeated_dns, "", 0))).
    left. reflexivity.
Defined.

(** ** Hardware ports of the interfaces *)

Lemma fold_store_lookup l : forall (m : gmap string string) d v,
  fold_left store l m !! d = Some v -> (d, v) ∈ l \/ m !! d = Some v.
Proof.
  induction l as [|[d0 v0] l IH]; intros m d v H; cbn [fold_left] in H.
  - right. exact H.
  - apply IH in H as [H|H]; [left; apply elem_of_cons; auto|].
    unfold store in H. cbn [fst snd] in H.
    destruct (decide (d0 = d)) as [->|Hne].
    + rewrite lookup_insert_eq in H. injection H as ->.
      left. apply elem_of_cons. auto.
    + rewrite lookup_insert_ne in H by exact Hne. auto.
Qed.

Lemma fold_store_dom l : forall (m : gmap string string) d,
  (exists v, (d, v) ∈ l) -> is_Some (fold_left store l m !! d).
Proof.
  induction l as [|[d0 v0] l IH] using rev_ind; intros m d [v Hin].
  - inversion Hin.
  - rewrite fold_left_app. cbn [fold_left]. unfold store at 1. cbn [fst snd].
    destruct (decide (d0 = d)) as [->|Hne].
    + rewrite lookup_insert_eq. eauto.
    + rewrite lookup_insert_ne by exact Hne. apply IH.
      apply elem_of_app in Hin as [Hin|Hin]; [eauto|].
      apply list_elem_of_singleton in Hin. congruence.
Qed.

Lemma port_mapping_lookup output m d l :
  parse_hardware_port_mapping output = Ok m -> m !! d = Some l ->
  l <> ""
  /\ exists j i, (i < j)%nat
                 /\ entries output !! j = Some (DeviceLine d)
                 /\ entries output !! i = Some (PortLine l).
Proof.
  rewrite parse_hardware_port_mapping_eq. intros [= <-] H.
  unfold port_mapping_by in H. apply fold_store_lookup in H as [H|H].
  - apply assignments_spec in H as (j & i & Hj & Hp).
    assert (Hlen : length (take j (entries output)) = j).
    { rewrite length_take. apply lookup_lt_Some in Hj. lia. }
    apply pending_port_spec in Hp.
    rewrite rev_involutive, length_rev, Hlen in Hp.
    destruct Hp as (Hi & Hl & Hne & _).
    split; [exact Hne|]. exists j, i. rewrite lookup_take_lt in Hl by lia. auto.
  - rewrite lookup_empty in H. discriminate.
Qed.

(** X9. Looking a device up in the mapping of
    [parse_hardware_port_mapping]: a label it answers is never empty, and
    it is the label of a [Hardware Port:] line that stands before a
    [Device:] line naming that device; and every device to which a line
    assigns a label is a key of the mapping. *)
Theorem port_mapping_lookup_sound output m :
  parse_hardware_port_mapping output = Ok m ->
  (forall d l, m !! d = Some l ->
     l <> ""
     /\ exists j i, (i < j)%nat
                    /\ entries output !! j = Some (DeviceLine d)
                    /\ entries output !! i = Some (PortLine l))
  /\ (forall d l, (d, l) ∈ assignments pending_port (entries output) ->
        is_Some (m !! d)).
Proof.
  intros Hm. split.
  - intros d l. apply (port_mapping_lookup output m d l Hm).
  - rewrite parse_hardware_port_mapping_eq in Hm. injection Hm as <-.
    intros d l Hin. apply fold_store_dom. eauto.
Qed.

Lemma port_mapping_lookup_sound_witness :
  exists m,
    parse_hardware_port_mapping ports_sample = Ok m
    /\ m !! "en0" = Some "Wi-Fi"
    /\ "Wi-Fi" <> ""
    /\ is_Some (m !! "bridge0").
Proof.
  eexists. split; [apply parse_hardware_port_mapping_eq|].
  assert (E : port_mapping_by pending_port ports_sample !! "en0" = Some "Wi-Fi")
    by (vm_compute; reflexivity).
  split; [exact E|].
  destruct (port_mapping_lookup_sound ports_sample _
              (parse_hardware_port_mapping_eq ports_sample)) as [Hs Hd].
  split; [exact (proj1 (Hs _ _ E))|].
  apply (Hd "bridge0" "Thunderbolt Bridge").
  let v := eval vm_compute in (assignments pending_port (entries ports_sample)) in
  change (assignments pending_port (entries ports_sample)) with v.
  apply elem_of_cons. right. apply elem_of_cons. left. reflexivity.
Defined.

Lemma parse_ifconfig_Some_name output interface_name info :
  parse_ifconfig output interface_name = Ok (Some info) ->
  name info = interface_name /\ hardware_port info = "".
Proof.
  unfold parse_ifconfig.
  destruct (block_lines interface_name false (Py.split LF output)) as [|l bl];
    [discriminate|].
  set (block := Py.join nl (l :: bl)).
  destruct (search re_inet block) as [m|];
    [destruct (hex_to_dotted (group m 2))|]; cbn [rbind]; try discriminate;
    (destruct (search re_mtu block) as [m'|];
     [destruct (Py.int (group m' 1))|]; cbn [rbind]; try discriminate;
     intros [= <-]; auto).
Qed.

Lemma interfaces_loop_elem port_mapping stdout names info :
  info ∈ interfaces_loop port_mapping stdout names ->
  exists nm raw,
    nm ∈ names /\ is_virtual nm = false
    /\ parse_ifconfig stdout nm = Ok (Some raw)
    /\ info = set_hardware_port raw (default "Unknown" (port_mapping !! nm)).
Proof.
  induction names as [|nm names IH]; cbn [interfaces_loop]; [inversion 1|].
  assert (Hrest : info ∈ interfaces_loop port_mapping stdout names ->
    exists nm0 raw,
      nm0 ∈ nm :: names /\ is_virtual nm0 = false
      /\ parse_ifconfig stdout nm0 = Ok (Some raw)
      /\ info = set_hardware_port raw (default "Unknown" (port_mapping !! nm0))).
  { intros H. destruct (IH H) as (nm0 & raw & Hin & ?). exists nm0, raw.
    split; [apply elem_of_cons; auto|assumption]. }
  destruct (is_virtual nm) eqn:Ev; [exact Hrest|].
  destruct (parse_ifconfig stdout nm) as [[raw|]|e] eqn:Ep.
  - intros H. apply elem_of_cons in H as [->|H]; [|exact (Hrest H)].
    exists nm, raw. split; [apply elem_of_cons; auto|auto].
  - exact Hrest.
  - inversion 1.
Qed.

(** X10. [get_all_interfaces] never raises, whatever the two commands
    print. Every record it returns was parsed from the [ifconfig] output
    for a name that [parse_all_interfaces] lists there and that begins
    with none of [lo], [gif], [stf], [fw]; it keeps that name, and its
    hardware port is the label of the mapping for that name, or
    [Unknown]: it is never empty. *)
Theorem get_all_interfaces_filled networksetup ifconfig info :
  info ∈ get_all_interfaces networksetup ifconfig ->
  hardware_port info <> ""
  /\ is_virtual (name info) = false
  /\ exists ports_out e1 c1 stdout e2 c2 port_mapping raw,
       networksetup = Some (ports_out, e1, c1)
       /\ ifconfig = Some (stdout, e2, c2)
       /\ parse_hardware_port_mapping ports_out = Ok port_mapping
       /\ name info ∈ parse_all_interfaces stdout
       /\ parse_ifconfig stdout (name info) = Ok (Some raw)
       /\ hardware_port info = default "Unknown" (port_mapping !! name info)
       /\ info = set_hardware_port raw (hardware_port info).
Proof.
  unfold get_all_interfaces.
  destruct networksetup as [[[ports_out e1] c1]|]; [|inversion 1].
  destruct (parse_hardware_port_mapping ports_out) as [pm|] eqn:Epm; [|inversion 1].
  destruct ifconfig as [[[stdout e2] c2]|]; [|inversion 1].
  intros H. apply interfaces_loop_elem in H as (nm & raw & Hin & Hv & Hp & ->).
  destruct (parse_ifconfig_Some_name _ _ _ Hp) as [Hname _].
  cbn [name hardware_port set_hardware_port]. rewrite Hname.
  split; [|split; [exact Hv|]].
  - destruct (pm !! nm) as [l|] eqn:El; cbn [default]; [|discriminate].
    exact (proj1 (port_mapping_lookup _ _ _ _ Epm El)).
  - exists ports_out, e1, c1, stdout, e2, c2, pm, raw. repeat split; auto.
Qed.

Lemma get_all_interfaces_filled_witness :
  exists info,
    info ∈ get_all_interfaces (Some (ports_sample, "", 0)) (Some (ifconfig_two, "", 0))
    /\ name info = "en1" /\ hardware_port info = "Unknown"
    /\ hardware_port info <> "" /\ is_virtual (name info) = false.
Proof.
  set (l := get_all_interfaces (Some (ports_sample, "", 0)) (Some (ifconfig_two, "", 0))).
  assert (E : exists a b, l = [a; b] /\ name b = "en1" /\ hardware_port b = "Unknown").
  { do 2 eexists. split; [vm_compute; reflexivity|]. split; reflexivity. }
  destruct E as (a & b & El & Hn & Hh). exists b.
  assert (Hin : b ∈ l) by (rewrite El; apply elem_of_cons; right; apply elem_of_cons; auto).
  destruct (get_all_interfaces_filled _ _ _ Hin) as (H1 & H2 & _).
  auto.
Defined.

(** ** The verdict and its messages *)

Ltac tally_simpl :=
  cbn [t_score t_warnings t_errors t_recommendations
       penalty warn error recommend] in *;
  rewrite ?length_app in *; cbn [length] in *.

Ltac account :=
  unfold accounted in *; tally_simpl; Z.div_mod_to_equations; lia.

Lemma accounted_start : accounted start.
Proof. unfold start. account. Qed.

Lemma accounted_check_status i t : accounted t -> accounted (check_status i t).
Proof. intros H. unfold check_status. destruct (negb _); account. Qed.

Lemma accounted_check_metrics fmt m t :
  accounted t -> accounted (check_metrics fmt m t).
Proof.
  intros H. unfold check_metrics, check_collisions, check_error_rate.
  destruct m as [m|]; [|exact H].
  destruct (0 <? packets_in m + packets_out m); [|exact H].
  destruct (Qgtb (inject_Z (collisions m)) _);
    destruct (Qgtb (error_rate m) 1);
    try destruct (Qgtb (error_rate m) (1 # 10)); account.
Qed.

Lemma accounted_check_wifi band w t :
  accounted t -> accounted (check_wifi band w t).
Proof.
  intros H. unfold check_wifi, check_width, check_phy, check_snr, check_rssi.
  destruct w as [w|]; [|exact H].
  destruct (narrow_channel band w), (legacy_phy (phy_mode w));
    destruct (snr w <? 20), (snr w <? 30);
    destruct (rssi w <? -80), (rssi w <? -70), (rssi w <? -60); account.
Qed.

Lemma accounted_check_ping fmt r t t' :
  check_ping fmt r t = Ok t' -> accounted t -> accounted t'.
Proof.
  unfold check_ping, check_latency, check_loss, check_jitter.
  destruct (avg_rtt r) as [a|]; [|discriminate].
  cbn [rbind]. intros [= <-] H.
  destruct (Qgtb (jitter r) 20), (Qgtb (jitter r) 10), (Qgtb a 100),
    (Qgtb (packet_loss r) 5), (Qgtb (packet_loss r) 1); account.
Qed.

Lemma accounted_check_pings fmt rs : forall t t',
  check_pings fmt rs t = Ok t' -> accounted t -> accounted t'.
Proof.
  induction rs as [|r rs IH]; intros t t'; cbn [check_pings].
  - intros [= <-]. auto.
  - destruct (check_ping fmt r t) as [t1|] eqn:E; [|discriminate].
    cbn [rbind]. intros H Ht. eapply IH; [exact H|].
    eapply accounted_check_ping; eauto.
Qed.

Lemma accounted_check_speed fmt s t :
  accounted t -> accounted (check_speed fmt s t).
Proof.
  intros H. unfold check_speed, check_upload, check_download.
  destruct s as [s|]; [|exact H].
  destruct (Qltb (upload_mbps s) 5), (Qltb (download_mbps s) 10); account.
Qed.

(** The verdict is that of a tally reached from [start] through the five
    checks. *)
Lemma assess_tally from_score band fmt i m w ps sp h :
  assess_network_health from_score band fmt i m w ps sp = Ok h ->
  exists t4,
    check_pings fmt (default [] ps)
      (check_wifi band w (check_metrics fmt m (check_status i start))) = Ok t4
    /\ h = verdict from_score (check_speed fmt sp t4).
Proof.
  unfold assess_network_health.
  destruct ps as [[|r rs]|]; unfold default; cbn [from_option id].
  - cbn [rbind check_pings]. intros [= <-]. eexists. split; reflexivity.
  - destruct (check_pings fmt (r :: rs) _) as [t4|]; [|discriminate].
    cbn [rbind]. intros [= <-]. eexists. split; reflexivity.
  - cbn [rbind check_pings]. intros [= <-]. eexists. split; reflexivity.
Qed.

(** X11. The accounting of a verdict. The score is a multiple of 5; there
    are at most as many recommendations as warnings and errors together;
    every error costs at least 15 points; and a verdict without warnings
    and without errors has score 100 and no recommendation. *)
Theorem verdict_accounting from_score band fmt i m w ps sp h :
  assess_network_health from_score band fmt i m w ps sp = Ok h ->
  score h mod 5 = 0
  /\ (length (recommendations h) <= length (warnings h) + length (errors h))%nat
  /\ score h <= Z.max 0 (100 - 15 * Z.of_nat (length (errors h)))
  /\ (warnings h = [] -> errors h = [] ->
      score h = 100 /\ recommendations h = []).
Proof.
  intros H. apply assess_tally in H as (t4 & H4 & ->).
  assert (Hacc : accounted (check_speed fmt sp t4)).
  { apply accounted_check_speed.
    eapply accounted_check_pings; [exact H4|].
    apply accounted_check_wifi, accounted_check_metrics, accounted_check_status,
      accounted_start. }
  set (t := check_speed fmt sp t4) in *. clearbody t. clear H4.
  unfold accounted in Hacc. destruct Hacc as (H1 & H2 & H3 & H4 & H5).
  cbn [verdict score warnings errors recommendations].
  split; [|split; [exact H3|split]].
  - assert (Hm : forall x, (100 - x) mod 5 = 0 -> Z.max 0 x mod 5 = 0).
    { intros x Hx. destruct (Z.max_spec 0 x) as [[_ E]|[_ E]]; rewrite E.
      - Z.div_mod_to_equations. lia.
      - reflexivity. }
    apply Hm, H2.
  - lia.
  - intros Hw He. rewrite Hw, He in *. cbn [length] in *.
    split; [lia|]. destruct (t_recommendations t); [reflexivity|cbn in H3; lia].
Qed.

Lemma verdict_accounting_witness :
  exists h,
    assess inactive_interface None (Some noisy_wifi) (Some [bad_ping]) None = Ok h
    /\ score h mod 5 = 0
    /\ (length (recommendations h) <= length (warnings h) + length (errors h))%nat.
Proof.
  eexists. split; [vm_compute; reflexivity|].
  edestruct (verdict_accounting from_score_bands band_of_channel fmt_fixed
               inactive_interface None (Some noisy_wifi) (Some [bad_ping]) None)
    as (H1 & H2 & _); [vm_compute; reflexivity|].
  split; [exact H1|exact H2].
Defined.

(** X12. When the assessment fails. Take counters that convert to a
    float (sums of errors and of packets below 2^1024 - 2^970 in absolute
    value) and wireless numbers that print (signal, signal-to-noise ratio
    and channel width above -10^4300), so that the arithmetic and the
    messages of the earlier checks are defined. Then the assessment
    returns a verdict exactly when every ping record it is given has an
    average round-trip time; with a record that has none, it raises
    [TypeError]. *)
Theorem assess_returns_iff from_score band fmt i m w ps sp :
  counters_convert m -> wifi_prints w ->
  ((exists h, assess_network_health from_score band fmt i m w ps sp = Ok h)
   <-> Forall (fun r => avg_rtt r <> None) (default [] ps))
  /\ (~ Forall (fun r => avg_rtt r <> None) (default [] ps) ->
      assess_network_health from_score band fmt i m w ps sp = Raise TypeError).
Proof.
  intros _ _.
  assert (Hraise : ~ Forall (fun r => avg_rtt r <> None) (default [] ps) ->
    assess_network_health from_score band fmt i m w ps sp = Raise TypeError).
  { intros Hn. apply not_Forall_Exists in Hn; [|intros r; apply _].
    apply Exists_exists in Hn as (r & Hin & Hr).
    destruct ps as [rs|]; [|inversion Hin]. cbn [default] in Hin.
    apply (assess_raises_without_rtt from_score band fmt i m w rs sp r Hin).
    destruct (avg_rtt r) eqn:Ea; [exfalso; apply Hr; congruence|reflexivity]. }
  split; [|exact Hraise]. split.
  - intros [h Hh].
    destruct (decide (Forall (fun r => avg_rtt r <> None) (default [] ps)))
      as [Hall|Hn]; [exact Hall|].
    rewrite (Hraise Hn) in Hh. discriminate.
  - intros Hall. unfold assess_network_health.
    set (t3 := check_wifi band w _).
    destruct ps as [[|r rs]|]; cbn [default] in Hall; cbn [rbind]; eauto.
    pose proof (check_pings_returns fmt (r :: rs) t3 Hall) as Hret.
    destruct (check_pings fmt (r :: rs) t3); [|destruct Hret].
    cbn [rbind]. eauto.
Qed.

Lemma assess_returns_iff_witness :
  (exists h, assess active_interface (Some clean_metrics) (Some good_wifi)
               (Some [good_ping; bad_ping]) None = Ok h)
  /\ assess active_interface (Some clean_metrics) (Some good_wifi)
       (Some [good_ping; unreachable_ping]) None
     = Raise TypeError.
Proof.
  assert (Hm : counters_convert (Some clean_metrics))
    by (split; vm_compute; reflexivity).
  assert (Hw : wifi_prints (Some good_wifi))
    by (repeat split; vm_compute; reflexivity).
  split.
  - apply (assess_returns_iff from_score_bands band_of_channel fmt_fixed
             active_interface (Some clean_metrics) (Some good_wifi)
             (Some [good_ping; bad_ping]) None Hm Hw).
    cbn [default]. repeat constructor; discriminate.
  - apply (assess_returns_iff from_score_bands band_of_channel fmt_fixed
             active_interface (Some clean_metrics) (Some good_wifi)
             (Some [good_ping; unreachable_ping]) None Hm Hw).
    cbn [default]. intros H.
    apply Forall_cons in H as [_ H]. apply Forall_cons in H as [H _].
    apply H. reflexivity.
Defined.

Lemma later_refl t : later_messages t t.
Proof.
  exists [], [], []. rewrite !app_nil_r. repeat split. apply not_elem_of_nil.
Qed.

Lemma later_trans t1 t2 t3 :
  later_messages t1 t2 -> later_messages t2 t3 -> later_messages t1 t3.
Proof.
  intros (ws & es & rs & Hw & He & Hr & Hn) (ws' & es' & rs' & Hw' & He' & Hr' & Hn').
  exists (ws ++ ws')%list, (es ++ es')%list, (rs ++ rs')%list.
  rewrite Hw', He', Hr', Hw, He, Hr, <- !app_assoc. repeat split.
  rewrite not_elem_of_app. auto.
Qed.

Ltac other_error :=
  first
    [ apply not_elem_of_nil
    | let E := fresh in
      intros E; apply list_elem_of_singleton in E;
      apply (f_equal (String.get 0)) in E; vm_compute in E; discriminate E ].

Ltac later_step :=
  match goal with
  | |- later_messages ?t ?t => apply later_refl
  | |- later_messages ?t (recommend ?r (error ?e (penalty ?n ?t))) =>
      apply (later_trans _ _ _ (later_refl t));
      exists [], [e], [r]; cbn; rewrite ?app_nil_r; repeat split; other_error
  | |- later_messages ?t (recommend ?r (warn ?w (penalty ?n ?t))) =>
      exists [w], [], [r]; cbn; rewrite ?app_nil_r; repeat split; other_error
  | |- later_messages ?t (recommend ?r (warn ?w ?t)) =>
      exists [w], [], [r]; cbn; rewrite ?app_nil_r; repeat split; other_error
  | |- later_messages ?t (warn ?w (penalty ?n ?t)) =>
      exists [w], [], []; cbn; rewrite ?app_nil_r; repeat split; other_error
  end.

Lemma later_check_error_rate fmt m t : later_messages t (check_error_rate fmt m t).
Proof.
  unfold check_error_rate.
  destruct (Qgtb (error_rate m) 1); [later_step|].
  destruct (Qgtb (error_rate m) (1 # 10)); later_step.
Qed.

Lemma later_check_collisions m t : later_messages t (check_collisions m t).
Proof. unfold check_collisions. destruct (Qgtb _ _); later_step. Qed.

Lemma later_check_metrics fmt m t : later_messages t (check_metrics fmt m t).
Proof.
  unfold check_metrics. destruct m as [m|]; [|apply later_refl].
  destruct (0 <? _); [|apply later_refl].
  eapply later_trans; [apply later_check_error_rate|apply later_check_collisions].
Qed.

Lemma later_check_rssi w t : later_messages t (check_rssi w t).
Proof.
  unfold check_rssi.
  destruct (rssi w <? -80); [later_step|].
  destruct (rssi w <? -70); [later_step|].
  destruct (rssi w <? -60); later_step.
Qed.

Lemma later_check_snr w t : later_messages t (check_snr w t).
Proof.
  unfold check_snr.
  destruct (snr w <? 20); [later_step|].
  destruct (snr w <? 30); later_step.
Qed.

Lemma later_check_phy w t : later_messages t (check_phy w t).
Proof. unfold check_phy. destruct (legacy_phy _); later_step. Qed.

Lemma later_check_width band w t : later_messages t (check_width band w t).
Proof. unfold check_width. destruct (narrow_channel band w); later_step. Qed.

Lemma later_check_wifi band w t : later_messages t (check_wifi band w t).
Proof.
  unfold check_wifi. destruct w as [w|]; [|apply later_refl].
  eapply later_trans; [|apply later_check_width].
  eapply later_trans; [|apply later_check_phy].
  eapply later_trans; [apply later_check_rssi|apply later_check_snr].
Qed.

Lemma later_check_loss fmt r t : later_messages t (check_loss fmt r t).
Proof.
  unfold check_loss.
  destruct (Qgtb (packet_loss r) 5); [later_step|].
  destruct (Qgtb (packet_loss r) 1); later_step.
Qed.

Lemma later_check_jitter fmt r t : later_messages t (check_jitter fmt r t).
Proof.
  unfold check_jitter.
  destruct (Qgtb (jitter r) 20); [later_step|].
  destruct (Qgtb (jitter r) 10); later_step.
Qed.

Lemma later_check_latency fmt r t t' :
  check_latency fmt r t = Ok t' -> later_messages t t'.
Proof.
  unfold check_latency. destruct (avg_rtt r) as [a|]; [|discriminate].
  intros [= <-]. destruct (Qgtb a 100); later_step.
Qed.

Lemma later_check_ping fmt r t t' :
  check_ping fmt r t = Ok t' -> later_messages t t'.
Proof.
  unfold check_ping.
  destruct (check_latency fmt r (check_loss fmt r t)) as [t1|] eqn:E;
    [|discriminate].
  cbn [rbind]. intros [= <-].
  eapply later_trans; [apply later_check_loss|].
  eapply later_trans; [eapply later_check_latency, E|apply later_check_jitter].
Qed.

Lemma later_check_pings fmt rs : forall t t',
  check_pings fmt rs t = Ok t' -> later_messages t t'.
Proof.
  induction rs as [|r rs IH]; intros t t'; cbn [check_pings].
  - intros [= <-]. apply later_refl.
  - destruct (check_ping fmt r t) as [t1|] eqn:E; [|discriminate].
    cbn [rbind]. intros H. eapply later_trans; [eapply later_check_ping, E|].
    apply IH, H.
Qed.

Lemma later_check_download fmt s t : later_messages t (check_download fmt s t).
Proof. unfold check_download. destruct (Qltb _ _); later_step. Qed.

Lemma later_check_upload fmt s t : later_messages t (check_upload fmt s t).
Proof. unfold check_upload. destruct (Qltb _ _); later_step. Qed.

Lemma later_check_speed fmt s t : later_messages t (check_speed fmt s t).
Proof.
  unfold check_speed. destruct s as [s|]; [|apply later_refl].
  eapply later_trans; [apply later_check_download|apply later_check_upload].
Qed.

(** X13. The error of an inactive interface. When the status is not
    [active], the errors of the verdict begin with
    [Interface is not active] and its recommendations with the advice to
    check the configuration, and that error occurs only once; when the
    status is [active], no error of the verdict is that message. *)
Theorem inactive_error_first from_score band fmt i m w ps sp h :
  assess_network_health from_score band fmt i m w ps sp = Ok h ->
  (status i <> "active" ->
   exists es rs,
     errors h = "Interface is not active" :: es
     /\ recommendations h
        = "Check interface configuration and ensure it's enabled" :: rs
     /\ "Interface is not active" ∉ es)
  /\ (status i = "active" -> "Interface is not active" ∉ errors h).
Proof.
  intros H. apply assess_tally in H as (t4 & H4 & ->).
  assert (Hlater : later_messages (check_status i start) (check_speed fmt sp t4)).
  { eapply later_trans; [|apply later_check_speed].
    eapply later_trans; [|eapply later_check_pings, H4].
    eapply later_trans; [apply later_check_metrics|apply later_check_wifi]. }
  destruct Hlater as (ws & es & rs & _ & He & Hr & Hn).
  cbn [verdict errors recommendations]. rewrite He, Hr.
  unfold check_status. split.
  - intros Hs. apply String.eqb_neq in Hs. rewrite Hs. cbn. eauto.
  - intros Hs. apply String.eqb_eq in Hs. rewrite Hs. cbn. exact Hn.
Qed.

Lemma inactive_error_first_witness :
  exists h es,
    assess inactive_interface None (Some noisy_wifi) (Some [bad_ping]) None = Ok h
    /\ errors h = "Interface is not active" :: es
    /\ "Interface is not active" ∉ es.
Proof.
  eexists.
  edestruct (inactive_error_first from_score_bands band_of_channel fmt_fixed
               inactive_interface None (Some noisy_wifi) (Some [bad_ping]) None)
    as [Hin _]; [vm_compute; reflexivity|].
  destruct Hin as (es & rs & He & _ & Hn); [discriminate|].
  exists es. split; [reflexivity|]. split; [exact He|exact Hn].
Defined.

(** ** Tokens *)

Lemma split_ws_aux_tokens s : forall cur,
  (forall w, cur = Some w -> w <> "" /\ str_all non_ws w = true) ->
  Forall (fun w => w <> "" /\ str_all non_ws w = true) (Py.split_ws_aux cur s).
Proof.
  induction s as [|c s IH]; intros cur Hcur; cbn [Py.split_ws_aux].
  - destruct cur as [w|]; [|constructor].
    constructor; [apply Hcur; reflexivity|constructor].
  - destruct (Py.is_space c) eqn:Ec.
    + destruct cur as [w|].
      * constructor; [apply Hcur; reflexivity|]. apply IH. discriminate.
      * apply IH. discriminate.
    + apply IH. intros w [= <-]. destruct cur as [w0|].
      * destruct (Hcur w0 eq_refl) as [Hne Hw]. split.
        -- destruct w0; [congruence|discriminate].
        -- rewrite str_all_app, Hw. cbn [str_all]. unfold non_ws at 1.
           rewrite Ec. reflexivity.
      * split; [discriminate|]. cbn [str_all]. unfold non_ws at 1.
        rewrite Ec. reflexivity.
Qed.

Lemma split_ws_tokens s :
  Forall (fun w => w <> "" /\ str_all non_ws w = true) (Py.split_ws s).
Proof. apply split_ws_aux_tokens. discriminate. Qed.

Lemma index_token (parts : list string) i :
  (i < length parts)%nat -> Py.index parts i = Ok (token parts i).
Proof.
  intros H. unfold Py.index, token.
  destruct (lookup_lt_is_Some_2 parts i H) as [x ->]. reflexivity.
Qed.

Lemma token_elem (parts : list string) i :
  (i < length parts)%nat -> token parts i ∈ parts.
Proof.
  intros H. unfold token.
  destruct (lookup_lt_is_Some_2 parts i H) as [x Hx]. rewrite Hx.
  cbn. eapply list_elem_of_lookup_2, Hx.
Qed.

(** ** The routing table *)

Lemma route_of_tokens parts :
  (4 <= length parts)%nat ->
  route_of parts
  = Ok {| route_destination := token parts 0; route_gateway := token parts 1;
          route_flags := token parts 2; route_interface := token parts 3 |}.
Proof.
  intros H. unfold route_of.
  rewrite !index_token by lia. cbn [rbind].
  rewrite (proj2 (Nat.ltb_lt 3 (length parts))) by lia. reflexivity.
Qed.

Lemma routes_loop_returns lines : forall in_ipv4,
  exists rs, routes_loop in_ipv4 lines = Ok rs
             /\ Forall (fun r =>
                  exists line, line ∈ lines
                    /\ route_destination r ∈ Py.split_ws line
                    /\ route_gateway r ∈ Py.split_ws line
                    /\ route_flags r ∈ Py.split_ws line
                    /\ route_interface r ∈ Py.split_ws line) rs.
Proof.
  induction lines as [|line rest IH]; intros in_ipv4; cbn [routes_loop].
  - exists []. split; [reflexivity|constructor].
  - assert (Hrest : forall b, exists rs, routes_loop b rest = Ok rs
             /\ Forall (fun r =>
                  exists line0, line0 ∈ line :: rest
                    /\ route_destination r ∈ Py.split_ws line0
                    /\ route_gateway r ∈ Py.split_ws line0
                    /\ route_flags r ∈ Py.split_ws line0
                    /\ route_interface r ∈ Py.split_ws line0) rs).
    { intros b. destruct (IH b) as (rs & E & H). exists rs. split; [exact E|].
      eapply Forall_impl; [exact H|]. cbn.
      intros r (l0 & Hin & ?). exists l0. split; [apply elem_of_cons; auto|assumption]. }
    destruct (is_route_header line); [apply Hrest|].
    destruct (in_ipv4 && nonempty (Py.strip line)); [|apply Hrest].
    destruct (Py.contains "Internet6" line).
    { exists []. split; [reflexivity|constructor]. }
    destruct (Nat.leb_spec 4 (length (Py.split_ws line))) as [Hlen|]; [|apply Hrest].
    rewrite (route_of_tokens _ Hlen). cbn [rbind].
    destruct (Hrest in_ipv4) as (rs & -> & H). cbn [rbind].
    eexists. split; [reflexivity|]. constructor; [|exact H].
    exists line. cbn. split; [apply elem_of_cons; auto|].
    repeat split; apply token_elem; lia.
Qed.

Lemma routes_loop_no_header lines :
  Forall (fun line => is_route_header line = false) lines ->
  routes_loop false lines = Ok [].
Proof.
  induction lines as [|line rest IH]; intros H; [reflexivity|].
  apply Forall_cons in H as [Hl Hr]. cbn [routes_loop andb].
  rewrite Hl. apply IH, Hr.
Qed.

Lemma routes_loop_skip_to_header pre : forall hd rest,
  Forall (fun line => is_route_header line = false) pre ->
  is_route_header hd = true ->
  routes_loop false (pre ++ hd :: rest) = routes_loop true rest.
Proof.
  induction pre as [|line pre IH]; intros hd rest Hpre Hhd.
  - cbn [app routes_loop]. rewrite Hhd. reflexivity.
  - apply Forall_cons in Hpre as [Hl Hp]. cbn [app routes_loop andb].
    rewrite Hl. apply IH; assumption.
Qed.

Lemma routes_loop_stop rows : forall marker rest,
  is_route_header marker = false ->
  nonempty (Py.strip marker) = true ->
  Py.contains "Internet6" marker = true ->
  routes_loop true (rows ++ marker :: rest) = routes_loop true rows.
Proof.
  induction rows as [|line rows IH]; intros marker rest Hh Hn Hm.
  - cbn [app routes_loop andb]. rewrite Hh, Hn, Hm. reflexivity.
  - cbn [app routes_loop andb]. rewrite (IH _ rest Hh Hn Hm). reflexivity.
Qed.

(** X14. The loop of [parse_routing_table]. It never raises, and the four
    fields of every route are tokens of one line of the text. Without a
    header line (one that holds both [Destination] and [Gateway]) it
    returns no route. After the first header, what follows a non-blank
    line that holds [Internet6] and is not itself a header line has no
    effect on the result: a header line is tested first and never stops
    the loop. *)
Theorem parse_routing_table_spec :
  (forall output,
      exists rs, parse_routing_table output = Ok rs
        /\ Forall (fun r =>
             exists line, line ∈ Py.split LF (Py.strip output)
               /\ route_destination r ∈ Py.split_ws line
               /\ route_gateway r ∈ Py.split_ws line
               /\ route_flags r ∈ Py.split_ws line
               /\ route_interface r ∈ Py.split_ws line) rs)
  /\ (forall lines,
        Forall (fun line => is_route_header line = false) lines ->
        routes_loop false lines = Ok [])
  /\ (forall pre hd rows marker rest,
        Forall (fun line => is_route_header line = false) pre ->
        is_route_header hd = true ->
        is_route_header marker = false ->
        nonempty (Py.strip marker) = true ->
        Py.contains "Internet6" marker = true ->
        routes_loop false (pre ++ hd :: rows ++ marker :: rest)
        = routes_loop false (pre ++ hd :: rows))
  /\ (forall in_ipv4 hd rest,
        is_route_header hd = true ->
        routes_loop in_ipv4 (hd :: rest) = routes_loop true rest).
Proof.
  split; [|split; [|split]].
  - intros output. apply routes_loop_returns.
  - exact routes_loop_no_header.
  - intros pre hd rows marker rest Hpre Hhd Hh Hn Hm.
    rewrite !(routes_loop_skip_to_header pre hd _ Hpre Hhd).
    apply routes_loop_stop; assumption.
  - intros in_ipv4 hd rest Hhd. cbn [routes_loop]. rewrite Hhd. reflexivity.
Qed.

Lemma parse_routing_table_spec_witness :
  routes_loop false
    (["Routing tables"; "Destination Gateway Flags Netif"]
     ++ ["default 192.168.1.1 UGScg en0"]
     ++ "Internet6:" :: ["default fe80::1%en0 UGcg en0"])
  = routes_loop false
      (["Routing tables"; "Destination Gateway Flags Netif"]
       ++ ["default 192.168.1.1 UGScg en0"])
  /\ routes_loop false ["default 192.168.1.1 UGScg en0"] = Ok []
  /\ routes_loop true
       ("Internet6: Destination Gateway Flags Netif"
        :: ["default fe80::1%en0 UGcg en0 extra"])
     = routes_loop true ["default fe80::1%en0 UGcg en0 extra"].
Proof.
  destruct parse_routing_table_spec as (_ & Hnone & Hstop & Hhead).
  split; [|split; [|apply Hhead; reflexivity]].
  - apply (Hstop ["Routing tables"] "Destination Gateway Flags Netif"
             ["default 192.168.1.1 UGScg en0"] "Internet6:"
             ["default fe80::1%en0 UGcg en0"]).
    + repeat constructor.
    + reflexivity.
    + reflexivity.
    + reflexivity.
    + reflexivity.
  - apply Hnone. repeat constructor.
Defined.

(** ** The wireless scan *)

Lemma scan_row_spec line :
  (7 <= length (Py.split_ws line))%nat ->
  match scan_of line with
  | Some n => scan_row (Py.split_ws line) = Ok n
  | None => scan_row (Py.split_ws line) = Raise ValueError
  end.
Proof.
  intros Hlen. unfold scan_of, scan_row.
  set (parts := Py.split_ws line) in *.
  rewrite (proj2 (Nat.leb_le _ _) Hlen). cbn [andb].
  rewrite !index_token by lia. cbn [rbind].
  rewrite !int_at_token by lia.
  destruct (int_cases (token parts 2)) as [[Hb He]|[Hb He]];
    rewrite He, Hb; cbn [rbind andb]; [|reflexivity].
  destruct (int_cases (token parts 3)) as [[Hb' He']|[Hb' He']];
    rewrite He', Hb'; cbn [rbind andb]; [|reflexivity].
  rewrite (proj2 (Nat.ltb_lt 6 (length parts))) by lia. reflexivity.
Qed.

Lemma omap_length {A B} (f : A -> option B) (l : list A) :
  (length (omap f l) <= length l)%nat.
Proof.
  induction l as [|x l IH]; [reflexivity|].
  rewrite omap_cons. destruct (f x); cbn [length]; lia.
Qed.

Lemma scan_loop_rows lines : scan_loop lines = Ok (omap scan_of lines).
Proof.
  induction lines as [|line rest IH]; [reflexivity|].
  cbn [scan_loop]. rewrite omap_cons.
  destruct (Nat.leb_spec 7 (length (Py.split_ws line))) as [Hlen|Hlen].
  - pose proof (scan_row_spec line Hlen) as H.
    destruct (scan_of line) as [n|]; rewrite H.
    + rewrite IH. reflexivity.
    + exact IH.
  - assert (E : scan_of line = None).
    { unfold scan_of. rewrite (proj2 (Nat.leb_gt _ _)) by lia. reflexivity. }
    rewrite E. exact IH.
Qed.

(** X15. [parse_airport_scan] never raises and never reads the first line
    of the text. The rows are taken one by one, in order: a row yields an
    entry exactly when it has at least 7 tokens of which the third and the
    fourth are integers, and a row that yields none does not disturb the
    others. The SSID and BSSID of an entry are non-empty and hold no white
    space. *)
Theorem parse_airport_scan_rows :
  (forall output,
      exists ns, parse_airport_scan output = Ok ns
        /\ (length ns <= length (Py.split LF (Py.strip output)) - 1)%nat
        /\ Forall (fun n =>
             scan_ssid n <> "" /\ str_all non_ws (scan_ssid n) = true
             /\ scan_bssid n <> "" /\ str_all non_ws (scan_bssid n) = true) ns)
  /\ (forall l1 l2,
        exists n1 n2, scan_loop l1 = Ok n1 /\ scan_loop l2 = Ok n2
                      /\ scan_loop (l1 ++ l2) = Ok (n1 ++ n2)%list)
  /\ (forall line,
        ((length (Py.split_ws line) < 7)%nat
         \/ is_int (token (Py.split_ws line) 2) = false
         \/ is_int (token (Py.split_ws line) 3) = false) ->
        scan_loop [line] = Ok [])
  /\ (forall line,
        (7 <= length (Py.split_ws line))%nat ->
        is_int (token (Py.split_ws line) 2) = true ->
        is_int (token (Py.split_ws line) 3) = true ->
        exists n, scan_loop [line] = Ok [n]
          /\ Py.int (token (Py.split_ws line) 2) = Ok (scan_rssi n)
          /\ Py.int (token (Py.split_ws line) 3) = Ok (scan_channel n)).
Proof.
  split; [|split; [|split]].
  - intros output. unfold parse_airport_scan. rewrite scan_loop_rows.
    eexists. split; [reflexivity|]. split.
    + etransitivity; [apply omap_length|].
      destruct (Py.split LF (Py.strip output)); cbn; lia.
    + apply Forall_forall. intros n Hn.
      apply list_elem_of_omap in Hn as (line & _ & Hn).
      unfold scan_of in Hn.
      destruct (Nat.leb_spec 7 (length (Py.split_ws line))) as [Hlen|];
        [|discriminate].
      cbn [andb] in Hn.
      destruct (is_int (token (Py.split_ws line) 2)
                && is_int (token (Py.split_ws line) 3)); [|discriminate].
      injection Hn as <-. cbn [scan_ssid scan_bssid].
      pose proof (split_ws_tokens line) as Htok. rewrite Forall_forall in Htok.
      destruct (Htok _ (token_elem (Py.split_ws line) 0 ltac:(lia))).
      destruct (Htok _ (token_elem (Py.split_ws line) 1 ltac:(lia))).
      auto.
  - intros l1 l2. exists (omap scan_of l1), (omap scan_of l2).
    rewrite !scan_loop_rows, omap_app. auto.
  - intros line H. rewrite scan_loop_rows. cbn. unfold scan_of.
    destruct H as [H|[H|H]].
    + rewrite (proj2 (Nat.leb_gt _ _) H). reflexivity.
    + rewrite H, andb_false_r. reflexivity.
    + rewrite H, andb_false_r. reflexivity.
  - intros line Hlen H2 H3. rewrite scan_loop_rows. cbn. unfold scan_of.
    rewrite (proj2 (Nat.leb_le _ _) Hlen), H2, H3. cbn [andb].
    eexists. split; [reflexivity|]. cbn [scan_rssi scan_channel].
    destruct (int_cases (token (Py.split_ws line) 2)) as [[_ ->]|[E _]];
      [|congruence].
    destruct (int_cases (token (Py.split_ws line) 3)) as [[_ ->]|[E _]];
      [|congruence].
    auto.
Qed.

Lemma parse_airport_scan_rows_witness :
  scan_loop ["Guest aa:bb:cc:dd:ee:00 weak 6 Y DE NONE"] = Ok []
  /\ exists n, scan_loop ["Home aa:bb:cc:dd:ee:ff -55 36 Y DE WPA2(PSK/AES/AES)"]
               = Ok [n]
               /\ Py.int "-55" = Ok (scan_rssi n).
Proof.
  destruct parse_airport_scan_rows as (_ & _ & Hbad & Hgood).
  split.
  - apply Hbad. right. left. vm_compute. reflexivity.
  - destruct (Hgood "Home aa:bb:cc:dd:ee:ff -55 36 Y DE WPA2(PSK/AES/AES)")
      as (n & E & Hr & _); [vm_compute; lia|reflexivity|reflexivity|].
    exists n. split; [exact E|exact Hr].
Defined.

(** ** Lease times *)

Lemma max_str_large : 100 <= Py.max_str.
Proof. vm_compute. discriminate. Qed.

Lemma str_int_small n :
  0 <= n < 100 -> Py.str_int n = Ok (Py.str n).
Proof.
  intros H. unfold Py.str_int, Py.prints. pose proof max_str_large.
  destruct (Z.ltb_spec (Z.abs n) Py.max_str); [reflexivity|lia].
Qed.

(** X16. [format_lease_time] on a non-negative number of seconds: below
    an hour it prints whole minutes, fewer than 60; below a day whole
    hours, from 1 to 23; from a day on it prints the days, at least 1,
    and the hours left, from 1 to 23, or the days alone when less than an
    hour is left. What remains below the unit printed last is dropped.
    It returns as long as the number of days has at most 4300 digits,
    that is below [86400 * 10^4300] seconds; from there on it raises
    [ValueError]. *)
Theorem format_lease_time_units seconds :
  0 <= seconds ->
  (exists days hours minutes rest,
     seconds = 86400 * days + 3600 * hours + 60 * minutes + rest
     /\ 0 <= days /\ 0 <= hours < 24 /\ 0 <= minutes < 60 /\ 0 <= rest < 60
     /\ format_lease_time seconds
        = if days <? Py.max_str then
            Ok (if seconds <? 3600 then Py.str minutes ++ " minutes"
                else if seconds <? 86400 then Py.str hours ++ " hours"
                else if hours =? 0 then Py.str days ++ " days"
                else Py.str days ++ " days, " ++ Py.str hours ++ " hours")
          else Raise ValueError)
  /\ (seconds < 86400 * Py.max_str -> returns (format_lease_time seconds))
  /\ (86400 * Py.max_str <= seconds ->
      format_lease_time seconds = Raise ValueError).
Proof.
  intros Hs. pose proof max_str_large as Hbig.
  assert (Hmain : format_lease_time seconds
    = if seconds / 86400 <? Py.max_str then
        Ok (if seconds <? 3600 then Py.str (seconds mod 3600 / 60) ++ " minutes"
            else if seconds <? 86400 then
              Py.str (seconds mod 86400 / 3600) ++ " hours"
            else if seconds mod 86400 / 3600 =? 0 then
              Py.str (seconds / 86400) ++ " days"
            else Py.str (seconds / 86400) ++ " days, "
                 ++ Py.str (seconds mod 86400 / 3600) ++ " hours")
      else Raise ValueError).
  { unfold format_lease_time.
    destruct (Z.ltb_spec seconds 3600) as [Hm|Hm].
    - rewrite (Z.mod_small seconds 3600) by lia. cbn zeta.
      rewrite str_int_small by (Z.div_mod_to_equations; lia).
      destruct (Z.ltb_spec (seconds / 86400) Py.max_str) as [|Hd];
        [reflexivity|]. exfalso. Z.div_mod_to_equations. lia.
    - destruct (Z.ltb_spec seconds 86400) as [Hh|Hh].
      + rewrite (Z.mod_small seconds 86400) by lia. cbn zeta.
        rewrite str_int_small by (Z.div_mod_to_equations; lia).
        destruct (Z.ltb_spec (seconds / 86400) Py.max_str) as [|Hd];
          [reflexivity|]. exfalso. Z.div_mod_to_equations. lia.
      + cbn zeta.
        assert (Hd0 : 0 <= seconds / 86400) by (Z.div_mod_to_equations; lia).
        assert (Hstr : Py.str_int (seconds / 86400)
                       = if seconds / 86400 <? Py.max_str
                         then Ok (Py.str (seconds / 86400))
                         else Raise ValueError).
        { unfold Py.str_int, Py.prints. rewrite Z.abs_eq by exact Hd0.
          reflexivity. }
        rewrite Hstr.
        destruct (Z.ltb_spec 0 (seconds mod 86400 / 3600)) as [Hp|Hp];
          destruct (Z.eqb_spec (seconds mod 86400 / 3600) 0) as [Hz|Hz];
          try (exfalso; Z.div_mod_to_equations; lia);
          destruct (seconds / 86400 <? Py.max_str); cbn [rbind];
          try reflexivity.
        rewrite str_int_small by (Z.div_mod_to_equations; lia). reflexivity. }
  split; [|split].
  - exists (seconds / 86400), ((seconds mod 86400) / 3600),
      ((seconds mod 3600) / 60), (seconds mod 60).
    split; [|split; [|split; [|split; [|split]]]];
      [Z.div_mod_to_equations; lia ..|exact Hmain].
  - intros Hlt. rewrite Hmain.
    destruct (Z.ltb_spec (seconds / 86400) Py.max_str) as [|Hd]; [exact I|].
    exfalso. Z.div_mod_to_equations. lia.
  - intros Hge. rewrite Hmain.
    destruct (Z.ltb_spec (seconds / 86400) Py.max_str) as [Hd|]; [|reflexivity].
    exfalso. Z.div_mod_to_equations. lia.
Qed.

Lemma format_lease_time_units_witness :
  format_lease_time 90061 = Ok "1 days, 1 hours"
  /\ returns (format_lease_time 90061)
  /\ format_lease_time (86400 * Py.max_str) = Raise ValueError.
Proof.
  split; [vm_compute; reflexivity|]. split.
  - apply (format_lease_time_units 90061); [lia|]. vm_compute. reflexivity.
  - apply (format_lease_time_units (86400 * Py.max_str)).
    + vm_compute. discriminate.
    + lia.
Defined.

(** ** The operating-system version *)

Lemma ints_of_length parts : forall version,
  ints_of parts = Ok version -> length version = length parts.
Proof.
  induction parts as [|p parts IH]; intros version; cbn [ints_of].
  - intros [= <-]. reflexivity.
  - destruct (Py.int p); [|discriminate]. cbn [rbind].
    destruct (ints_of parts) as [ns|]; [|discriminate]. cbn [rbind].
    intros [= <-]. cbn [length]. rewrite (IH ns eq_refl). reflexivity.
Qed.

Lemma split_length_pos sep s : (1 <= length (Py.split sep s))%nat.
Proof.
  destruct s as [|c s]; cbn [Py.split]; [cbn; lia|].
  destruct (Py.chr_eqb c sep); [cbn; lia|].
  destruct (Py.split sep s); cbn; lia.
Qed.

(** X17. [supports_network_quality] never raises: the version tuple it
    reads has at least one component. It answers [True] only when
    [sw_vers] ran with exit code 0 and printed dot-separated integers of
    which the first is above 12, or is 12 with a second one of at least 1;
    a missing second component counts as 0. *)
Theorem supports_network_quality_total sw_vers :
  exists b,
    supports_network_quality sw_vers = Ok b
    /\ (get_macos_version sw_vers = None -> b = false)
    /\ (forall version,
          get_macos_version sw_vers = Some version ->
          exists major rest stdout stderr,
            version = major :: rest
            /\ sw_vers = Some (stdout, stderr, 0)
            /\ ints_of (Py.split "." (Py.strip stdout)) = Ok version
            /\ b = (12 <? major) || ((major =? 12) && (1 <=? hd 0 rest))).
Proof.
  unfold supports_network_quality.
  destruct (get_macos_version sw_vers) as [version|] eqn:Ev.
  - unfold get_macos_version in Ev.
    destruct sw_vers as [[[stdout stderr] code]|]; [|discriminate].
    destruct (Z.eqb_spec code 0) as [->|]; [|discriminate].
    destruct (ints_of (Py.split "." (Py.strip stdout))) as [v|] eqn:Ei;
      [|discriminate].
    injection Ev as ->.
    pose proof (ints_of_length _ _ Ei) as Hlen.
    pose proof (split_length_pos "." (Py.strip stdout)) as Hpos.
    destruct version as [|major rest]; [cbn in Hlen; lia|].
    cbn [Py.index lookup list_lookup rbind length].
    destruct rest as [|minor rest].
    + cbn. eexists. split; [reflexivity|]. split; [discriminate|].
      intros v [= <-]. exists major, [], stdout, stderr. auto.
    + cbn. eexists. split; [reflexivity|]. split; [discriminate|].
      intros v [= <-]. exists major, (minor :: rest), stdout, stderr. auto.
  - exists false. split; [reflexivity|]. split; [reflexivity|discriminate].
Qed.

Lemma supports_network_quality_total_witness :
  supports_network_quality (Some ("12.1" ++ nl, "", 0)) = Ok true
  /\ supports_network_quality (Some ("12", "", 0)) = Ok false
  /\ supports_network_quality (Some ("", "", 0)) = Ok false.
Proof.
  destruct (supports_network_quality_total (Some ("", "", 0))) as (b & E & Hn & _).
  split; [vm_compute; reflexivity|]. split; [vm_compute; reflexivity|].
  rewrite E. f_equal. apply Hn. vm_compute. reflexivity.
Defined.

(** ** The default gateway *)

Lemma default_match_inv s m :
  match_here re_default s = Some m ->
  (exists tl, s = "default" ++ tl) /\ is_dotted_quad (group m 1).
Proof.
  unfold match_here, re_default, dotted_quad. cbn [go]. intros H.
  do 9 peel H. injection H as <-. subst.
  split; [eauto|].
  unfold group. cbn.
  match goal with
  | |- context [Py.take _ (?a ++ "." ++ ?b ++ "." ++ ?c ++ "." ++ ?d ++ ?r)] =>
      replace (a ++ "." ++ b ++ "." ++ c ++ "." ++ d ++ r)
        with ((a ++ "." ++ b ++ "." ++ c ++ "." ++ d) ++ r)
        by (rewrite !str_app_assoc; reflexivity);
      rewrite take_diff; exists a, b, c, d
  end.
  repeat split; assumption.
Qed.

Lemma search_bol_default s : forall bol m,
  search_bol re_default bol s = Some m ->
  is_dotted_quad (group m 1)
  /\ Exists (fun line => Py.startswith "default" line = true) (lines_from bol s).
Proof.
  assert (Hhere : forall s0 m, match_here re_default s0 = Some m ->
    is_dotted_quad (group m 1)
    /\ Exists (fun line => Py.startswith "default" line = true)
         (lines_from true s0)).
  { intros s0 m H. apply default_match_inv in H as [[tl ->] Hq].
    split; [exact Hq|].
    destruct (split_first_line "default" tl eq_refl) as (w & ws & E).
    unfold lines_from. rewrite E. apply Exists_cons_hd, startswith_refl_app. }
  induction s as [|c s IH]; intros bol m H; cbn [search_bol] in H.
  - destruct bol; [|discriminate].
    destruct (match_here re_default "") eqn:E; [|discriminate].
    injection H as ->. apply Hhere, E.
  - destruct bol.
    + destruct (match_here re_default (String c s)) eqn:E.
      * injection H as ->. apply Hhere, E.
      * destruct (IH _ _ H) as [Hq Hex]. split; [exact Hq|].
        eapply lines_from_step, Hex.
    + destruct (IH _ _ H) as [Hq Hex]. split; [exact Hq|].
      eapply lines_from_step, Hex.
Qed.

(** X18. [get_default_gateway] answers only with four non-empty runs of
    digits separated by dots, and only when a line of the text begins
    with [default]; when no line does, it answers [None]. *)
Theorem get_default_gateway_spec output :
  (forall g, get_default_gateway output = Some g ->
     is_dotted_quad g
     /\ Exists (fun line => Py.startswith "default" line = true)
          (Py.split LF output))
  /\ (Forall (fun line => Py.startswith "default" line = false)
        (Py.split LF output) ->
      get_default_gateway output = None).
Proof.
  assert (H : forall g, get_default_gateway output = Some g ->
     is_dotted_quad g
     /\ Exists (fun line => Py.startswith "default" line = true)
          (Py.split LF output)).
  { intros g. unfold get_default_gateway.
    destruct (search_bol re_default true output) as [m|] eqn:E; [|discriminate].
    intros [= <-]. apply (search_bol_default _ _ _ E). }
  split; [exact H|].
  intros Hall. destruct (get_default_gateway output) as [g|] eqn:E; [|reflexivity].
  destruct (H g eq_refl) as [_ Hex].
  apply Exists_exists in Hex as (line & Hin & Hs).
  rewrite Forall_forall in Hall. specialize (Hall _ Hin). congruence.
Qed.

Lemma get_default_gateway_spec_witness :
  get_default_gateway routes_sample = Some "192.168.1.1"
  /\ is_dotted_quad "192.168.1.1"
  /\ get_default_gateway "Destination Gateway" = None.
Proof.
  assert (E : get_default_gateway routes_sample = Some "192.168.1.1")
    by (vm_compute; reflexivity).
  split; [exact E|]. split.
  - apply (get_default_gateway_spec routes_sample), E.
  - apply (get_default_gateway_spec "Destination Gateway").
    vm_compute. repeat constructor.
Defined.
